(** * StreamVLM front end: streaming orchestration layer

    A shallow embedding of the TypeScript sources of the StreamVLM client:
    the fetch-style [ApiService], the [WebSocketService] transport, the
    zustand store, the [useCamera] hook's [captureFrame] and the [App]
    component's handlers and streaming effect.

    Conventions.
    - A value typed [any] in the source is a [Js.Json].
    - A function that may throw returns a [Js.Outcome].
    - Browser objects (sockets, the canvas, [fetch], timers) are explicit
      data supplied by the environment.
    - [console.log], [console.warn] and [console.error] calls are not
      modelled: they change no state of the program. *)

From Stdlib Require Import ZArith QArith Qcanon Ascii Lia.
From stdpp Require Import base option list strings gmap numbers.

Open Scope string_scope.
Open Scope nat_scope.
Open Scope list_scope.

(** ** JavaScript values and helpers *)
Module Js.

(** Values of type [any]: what [JSON.parse] can produce, plus [undefined].
    Numbers are rationals; NaN and the infinities do not occur in JSON. *)
Set Warnings "-register-all".
Inductive Json :=
| JUndefined
| JNull
| JBool (b : bool)
| JNum (q : Qc)
| JStr (s : string)
| JArr (xs : list Json)
| JObj (fields : list (string * Json)).
Set Warnings "register-all".

#[global] Instance Json_eq_dec : EqDecision Json.
Proof.
  unfold EqDecision, Decision. fix IH 1. intros a b. decide equality.
  - apply bool_eq_dec.
  - apply Qc_eq_dec.
  - apply (decide_rel (=)).
  - apply (@list_eq_dec _ IH).
  - apply (@list_eq_dec _ (@prod_eq_dec _ _ _ IH)).
Defined.

Definition num (z : Z) : Json := JNum (Q2Qc (inject_Z z)).

(** [ToBoolean]: what [if (v)], [!v] and [v || w] test. *)
Definition truthy (v : Json) : bool :=
  match v with
  | JUndefined | JNull => false
  | JBool b => b
  | JNum q => if decide (q = Q2Qc 0) then false else true
  | JStr s => if decide (s = "") then false else true
  | JArr _ | JObj _ => true
  end.

(** [a || b] *)
Definition or_else (a b : Json) : Json := if truthy a then a else b.

(** Exceptions: an [Error] object with its [name] and [message]. *)
Record Exn := { exn_name : string; exn_message : string }.

Definition Error (msg : string) : Exn :=
  {| exn_name := "Error"; exn_message := msg |}.
Definition TypeError (msg : string) : Exn :=
  {| exn_name := "TypeError"; exn_message := msg |}.

(** The result of evaluating code that may throw; also the settled state
    of an awaited promise. *)
Inductive Outcome (A : Type) :=
| Returned (a : A)
| Thrown (e : Exn).
Arguments Returned {A} a.
Arguments Thrown {A} e.

Definition bind {A B} (m : Outcome A) (k : A → Outcome B) : Outcome B :=
  match m with
  | Returned a => k a
  | Thrown e => Thrown e
  end.

#[global] Instance Outcome_bind : MBind Outcome := λ A B k m, bind m k.
#[global] Instance Outcome_ret : MRet Outcome := λ A a, Returned a.

(** [throw e] *)
Definition throw {A} (e : Exn) : Outcome A := Thrown e.

(** [try { body } catch (e) { handler(e) }] *)
Definition try_catch {A} (body : Outcome A) (handler : Exn → Outcome A)
  : Outcome A :=
  match body with
  | Returned a => Returned a
  | Thrown e => handler e
  end.

Definition throws {A} (m : Outcome A) : Prop := ∃ e, m = Thrown e.

(** Own-property lookup in an object literal. *)
Fixpoint assoc (k : string) (fields : list (string * Json)) : Json :=
  match fields with
  | [] => JUndefined
  | (k', v) :: rest => if decide (k = k') then v else assoc k rest
  end.

(** [v.k]: reading a property of [null] or [undefined] throws a
    [TypeError]; primitives and arrays have none of the properties the
    program reads. *)
Definition get (v : Json) (k : string) : Outcome Json :=
  match v with
  | JUndefined | JNull => Thrown (TypeError "Cannot read properties")
  | JObj fields => Returned (assoc k fields)
  | _ => Returned JUndefined
  end.

(** [v.k] where [v] is known to be an object. *)
Definition field (v : Json) (k : string) : Json :=
  match v with
  | JObj fields => assoc k fields
  | _ => JUndefined
  end.

(** [Array.prototype.slice(start)]: a negative [start] counts from the
    end, and the start index is clamped to the array. *)
Definition slice {A} (start : Z) (l : list A) : list A :=
  let len := Z.of_nat (length l) in
  let k := if (start <? 0)%Z then Z.max (len + start) 0 else Z.min start len in
  drop (Z.to_nat k) l.

(** [String.prototype.split(sep)] for a one-character separator. *)
Fixpoint split (sep : ascii) (s : string) : list string :=
  match s with
  | EmptyString => [EmptyString]
  | String c rest =>
      if decide (c = sep) then EmptyString :: split sep rest
      else match split sep rest with
           | [] => [String c EmptyString]
           | piece :: pieces => String c piece :: pieces
           end
  end.

Definition comma : ascii := ","%char.

(** Whether character [c] occurs in [s]. *)
Fixpoint occurs (c : ascii) (s : string) : bool :=
  match s with
  | EmptyString => false
  | String c' rest => if decide (c' = c) then true else occurs c rest
  end.

(** [arr[i]]: [undefined] past the end. *)
Definition index (arr : list string) (i : nat) : Json :=
  match arr !! i with
  | Some s => JStr s
  | None => JUndefined
  end.

(** [String.prototype.includes(needle)] *)
Fixpoint str_includes (needle s : string) : bool :=
  if String.prefix needle s then true
  else match s with
       | EmptyString => false
       | String _ rest => str_includes needle rest
       end.

(** [v.includes(needle)] for a string [needle]: strings search for a
    substring, arrays for an element; no other JSON value has a callable
    [includes]. *)
Definition includes (v : Json) (needle : string) : Outcome bool :=
  match v with
  | JStr s => Returned (str_includes needle s)
  | JArr xs => Returned (bool_decide (JStr needle ∈ xs))
  | _ => Thrown (TypeError "includes is not a function")
  end.

End Js.

(** ** The zustand store ([useAppStore]) *)
Module Store.
Import Js.

Record AppSettings := {
  selectedModel : string;
  summaryModel : string;
  prompt : string;
  maxTokens : Json;
  temperature : Json;
  delaySeconds : Qc;
  useTemporalContext : bool;
  autoStart : bool;
  contextWindow : Json;
  summaryWindow : Json;
}.

#[global] Instance AppSettings_eq_dec : EqDecision AppSettings.
Proof. solve_decision. Defined.

Record CameraSettings := {
  width : Z;
  height : Z;
  frameRate : Z;
}.

#[global] Instance CameraSettings_eq_dec : EqDecision CameraSettings.
Proof. solve_decision. Defined.

(** [FrameData]; the fields copied from an inbound payload keep whatever
    value the payload had. *)
Record FrameData := {
  timestamp : string;
  frame_id : Json;
  response : Json;
  model : Json;
  processing_time : Json;
  frame_prompt : Json;
  detected_objects : list string;
  temporal_context : Json;
}.

Record AppState := {
  settings : AppSettings;
  cameraSettings : CameraSettings;
  availableModels : Json;
  currentSession : Json;
  frameHistory : list FrameData;
  sessionStats : Json;
  temporalContext : Json;
  currentResponse : Json;
  detectedObjects : list string;
  generalSummary : Json;
  isConnected : bool;
  isProcessing : bool;
  isStreaming : bool;
  error : Json;
}.

Definition defaultSettings : AppSettings := {|
  selectedModel := "gemini-1.5-flash";
  summaryModel := "gemini-2.0-flash";
  prompt := "What do you see in this image?";
  maxTokens := num 300;
  temperature := JNum (Q2Qc (7 # 10));
  delaySeconds := Q2Qc 2;
  useTemporalContext := true;
  autoStart := false;
  contextWindow := num 10;
  summaryWindow := num 10;
|}.

Definition defaultCameraSettings : CameraSettings :=
  {| width := 640; height := 480; frameRate := 30 |}.

Definition initial : AppState := {|
  settings := defaultSettings;
  cameraSettings := defaultCameraSettings;
  availableModels := JArr [];
  currentSession := JNull;
  frameHistory := [];
  sessionStats := JNull;
  temporalContext := JNull;
  currentResponse := JNull;
  detectedObjects := [];
  generalSummary := JNull;
  isConnected := false;
  isProcessing := false;
  isStreaming := false;
  error := JNull;
|}.

(** [set({ field: value })]: every other field is kept. *)
Definition with_settings (v : AppSettings) (s : AppState) : AppState :=
  {| settings := v; cameraSettings := cameraSettings s;
     availableModels := availableModels s; currentSession := currentSession s;
     frameHistory := frameHistory s; sessionStats := sessionStats s;
     temporalContext := temporalContext s; currentResponse := currentResponse s;
     detectedObjects := detectedObjects s; generalSummary := generalSummary s;
     isConnected := isConnected s; isProcessing := isProcessing s;
     isStreaming := isStreaming s; error := error s |}.

Definition with_frameHistory (v : list FrameData) (s : AppState) : AppState :=
  {| settings := settings s; cameraSettings := cameraSettings s;
     availableModels := availableModels s; currentSession := currentSession s;
     frameHistory := v; sessionStats := sessionStats s;
     temporalContext := temporalContext s; currentResponse := currentResponse s;
     detectedObjects := detectedObjects s; generalSummary := generalSummary s;
     isConnected := isConnected s; isProcessing := isProcessing s;
     isStreaming := isStreaming s; error := error s |}.

Definition setAvailableModels (v : Json) (s : AppState) : AppState :=
  {| settings := settings s; cameraSettings := cameraSettings s;
     availableModels := v; currentSession := currentSession s;
     frameHistory := frameHistory s; sessionStats := sessionStats s;
     temporalContext := temporalContext s; currentResponse := currentResponse s;
     detectedObjects := detectedObjects s; generalSummary := generalSummary s;
     isConnected := isConnected s; isProcessing := isProcessing s;
     isStreaming := isStreaming s; error := error s |}.

Definition setCurrentSession (v : Json) (s : AppState) : AppState :=
  {| settings := settings s; cameraSettings := cameraSettings s;
     availableModels := availableModels s; currentSession := v;
     frameHistory := frameHistory s; sessionStats := sessionStats s;
     temporalContext := temporalContext s; currentResponse := currentResponse s;
     detectedObjects := detectedObjects s; generalSummary := generalSummary s;
     isConnected := isConnected s; isProcessing := isProcessing s;
     isStreaming := isStreaming s; error := error s |}.

Definition setSessionStats (v : Json) (s : AppState) : AppState :=
  {| settings := settings s; cameraSettings := cameraSettings s;
     availableModels := availableModels s; currentSession := currentSession s;
     frameHistory := frameHistory s; sessionStats := v;
     temporalContext := temporalContext s; currentResponse := currentResponse s;
     detectedObjects := detectedObjects s; generalSummary := generalSummary s;
     isConnected := isConnected s; isProcessing := isProcessing s;
     isStreaming := isStreaming s; error := error s |}.

Definition setTemporalContext (v : Json) (s : AppState) : AppState :=
  {| settings := settings s; cameraSettings := cameraSettings s;
     availableModels := availableModels s; currentSession := currentSession s;
     frameHistory := frameHistory s; sessionStats := sessionStats s;
     temporalContext := v; currentResponse := currentResponse s;
     detectedObjects := detectedObjects s; generalSummary := generalSummary s;
     isConnected := isConnected s; isProcessing := isProcessing s;
     isStreaming := isStreaming s; error := error s |}.

Definition setConnectionStatus (v : bool) (s : AppState) : AppState :=
  {| settings := settings s; cameraSettings := cameraSettings s;
     availableModels := availableModels s; currentSession := currentSession s;
     frameHistory := frameHistory s; sessionStats := sessionStats s;
     temporalContext := temporalContext s; currentResponse := currentResponse s;
     detectedObjects := detectedObjects s; generalSummary := generalSummary s;
     isConnected := v; isProcessing := isProcessing s;
     isStreaming := isStreaming s; error := error s |}.

Definition setProcessingStatus (v : bool) (s : AppState) : AppState :=
  {| settings := settings s; cameraSettings := cameraSettings s;
     availableModels := availableModels s; currentSession := currentSession s;
     frameHistory := frameHistory s; sessionStats := sessionStats s;
     temporalContext := temporalContext s; currentResponse := currentResponse s;
     detectedObjects := detectedObjects s; generalSummary := generalSummary s;
     isConnected := isConnected s; isProcessing := v;
     isStreaming := isStreaming s; error := error s |}.

Definition setStreamingStatus (v : bool) (s : AppState) : AppState :=
  {| settings := settings s; cameraSettings := cameraSettings s;
     availableModels := availableModels s; currentSession := currentSession s;
     frameHistory := frameHistory s; sessionStats := sessionStats s;
     temporalContext := temporalContext s; currentResponse := currentResponse s;
     detectedObjects := detectedObjects s; generalSummary := generalSummary s;
     isConnected := isConnected s; isProcessing := isProcessing s;
     isStreaming := v; error := error s |}.

Definition setError (v : Json) (s : AppState) : AppState :=
  {| settings := settings s; cameraSettings := cameraSettings s;
     availableModels := availableModels s; currentSession := currentSession s;
     frameHistory := frameHistory s; sessionStats := sessionStats s;
     temporalContext := temporalContext s; currentResponse := currentResponse s;
     detectedObjects := detectedObjects s; generalSummary := generalSummary s;
     isConnected := isConnected s; isProcessing := isProcessing s;
     isStreaming := isStreaming s; error := v |}.

(** [updateSettings]: [{ ...state.settings, ...newSettings }].  The only
    partial update the modelled code performs is of [contextWindow]. *)
Definition updateSettings_contextWindow (v : Json) (s : AppState) : AppState :=
  let o := settings s in
  with_settings
    {| selectedModel := selectedModel o; summaryModel := summaryModel o;
       prompt := prompt o; maxTokens := maxTokens o;
       temperature := temperature o; delaySeconds := delaySeconds o;
       useTemporalContext := useTemporalContext o; autoStart := autoStart o;
       contextWindow := v; summaryWindow := summaryWindow o |} s.

(** The cap written in [addFrame]. *)
Definition historyCap : nat := 50.

(** [addFrame]: [[...state.frameHistory, frame].slice(-50)] *)
Definition addFrame (frame : FrameData) (s : AppState) : AppState :=
  with_frameHistory (slice (-50) (frameHistory s ++ [frame])) s.

Definition clearFrameHistory (s : AppState) : AppState :=
  with_frameHistory [] s.

(** A run of [addFrame] calls, oldest call first. *)
Definition addFrames (fs : list FrameData) (s : AppState) : AppState :=
  foldl (fun acc f => addFrame f acc) s fs.

Definition setCurrentResponse (v : Json) (s : AppState) : AppState :=
  {| settings := settings s; cameraSettings := cameraSettings s;
     availableModels := availableModels s; currentSession := currentSession s;
     frameHistory := frameHistory s; sessionStats := sessionStats s;
     temporalContext := temporalContext s; currentResponse := v;
     detectedObjects := detectedObjects s; generalSummary := generalSummary s;
     isConnected := isConnected s; isProcessing := isProcessing s;
     isStreaming := isStreaming s; error := error s |}.

Definition setDetectedObjects (v : list string) (s : AppState) : AppState :=
  {| settings := settings s; cameraSettings := cameraSettings s;
     availableModels := availableModels s; currentSession := currentSession s;
     frameHistory := frameHistory s; sessionStats := sessionStats s;
     temporalContext := temporalContext s; currentResponse := currentResponse s;
     detectedObjects := v; generalSummary := generalSummary s;
     isConnected := isConnected s; isProcessing := isProcessing s;
     isStreaming := isStreaming s; error := error s |}.

Definition setGeneralSummary (v : Json) (s : AppState) : AppState :=
  {| settings := settings s; cameraSettings := cameraSettings s;
     availableModels := availableModels s; currentSession := currentSession s;
     frameHistory := frameHistory s; sessionStats := sessionStats s;
     temporalContext := temporalContext s; currentResponse := currentResponse s;
     detectedObjects := detectedObjects s; generalSummary := v;
     isConnected := isConnected s; isProcessing := isProcessing s;
     isStreaming := isStreaming s; error := error s |}.

(** [Partial<AppSettings>]: the keys present in the object handed to
    [updateSettings], with their values. *)
Record SettingsPatch := {
  p_selectedModel : option string;
  p_summaryModel : option string;
  p_prompt : option string;
  p_maxTokens : option Json;
  p_temperature : option Json;
  p_delaySeconds : option Qc;
  p_useTemporalContext : option bool;
  p_autoStart : option bool;
  p_contextWindow : option Json;
  p_summaryWindow : option Json;
}.

(** [{}] *)
Definition no_patch : SettingsPatch :=
  {| p_selectedModel := None; p_summaryModel := None; p_prompt := None;
     p_maxTokens := None; p_temperature := None; p_delaySeconds := None;
     p_useTemporalContext := None; p_autoStart := None;
     p_contextWindow := None; p_summaryWindow := None |}.

(** [{ ...o, ...p }] *)
Definition merge_settings (o : AppSettings) (p : SettingsPatch) : AppSettings :=
  {| selectedModel := default (selectedModel o) (p_selectedModel p);
     summaryModel := default (summaryModel o) (p_summaryModel p);
     prompt := default (prompt o) (p_prompt p);
     maxTokens := default (maxTokens o) (p_maxTokens p);
     temperature := default (temperature o) (p_temperature p);
     delaySeconds := default (delaySeconds o) (p_delaySeconds p);
     useTemporalContext := default (useTemporalContext o) (p_useTemporalContext p);
     autoStart := default (autoStart o) (p_autoStart p);
     contextWindow := default (contextWindow o) (p_contextWindow p);
     summaryWindow := default (summaryWindow o) (p_summaryWindow p) |}.

(** [updateSettings]: [settings: { ...state.settings, ...newSettings }] *)
Definition updateSettings (p : SettingsPatch) (s : AppState) : AppState :=
  with_settings (merge_settings (settings s) p) s.

(** [{ ...a, ...b }] on two partial objects. *)
Definition patch_then (a b : SettingsPatch) : SettingsPatch :=
  {| p_selectedModel := p_selectedModel b ∪ p_selectedModel a;
     p_summaryModel := p_summaryModel b ∪ p_summaryModel a;
     p_prompt := p_prompt b ∪ p_prompt a;
     p_maxTokens := p_maxTokens b ∪ p_maxTokens a;
     p_temperature := p_temperature b ∪ p_temperature a;
     p_delaySeconds := p_delaySeconds b ∪ p_delaySeconds a;
     p_useTemporalContext := p_useTemporalContext b ∪ p_useTemporalContext a;
     p_autoStart := p_autoStart b ∪ p_autoStart a;
     p_contextWindow := p_contextWindow b ∪ p_contextWindow a;
     p_summaryWindow := p_summaryWindow b ∪ p_summaryWindow a |}.

End Store.

(** ** The fetch-style surface ([ApiService]) *)
Module Api.
Import Js.

Record Request := {
  url : string;
  method : string;
  headers : list (string * string);
  body : option Json;   (* the object handed to [JSON.stringify] *)
}.

(** What the program reads of a [Response]: [ok], and the settled result
    of [response.json()]. *)
Record Response := {
  ok : bool;
  json : Outcome Json;
}.

(** [fetch]: the awaited result, a rejection being a thrown exception. *)
Definition Fetch := Request → Outcome Response.

Definition API_BASE : string := "/api".

Definition GET (u : string) : Request :=
  {| url := u; method := "GET"; headers := []; body := None |}.

Definition POST (u : string) (b : Json) : Request :=
  {| url := u; method := "POST";
     headers := [("Content-Type", "application/json")]; body := Some b |}.

(** [if (!response.ok) throw new Error(msg)] *)
Definition check_ok (response : Response) (msg : string) : Outcome unit :=
  if negb (ok response) then throw (Error msg) else mret ().

Definition getModels (fetch : Fetch) : Outcome Json :=
  try_catch
    (response ← fetch (GET (API_BASE +:+ "/models"));
     _ ← check_ok response "Failed to fetch models";
     data ← json response;
     models ← get data "models";
     mret (or_else models (JArr [])))
    (λ error, throw error).

Definition getSettings (fetch : Fetch) : Outcome Json :=
  try_catch
    (response ← fetch (GET (API_BASE +:+ "/settings"));
     _ ← check_ok response "Failed to fetch settings";
     json response)
    (λ error, throw error).

Definition queryVLM (fetch : Fetch) (request : Json) : Outcome Json :=
  try_catch
    (response ← fetch (POST (API_BASE +:+ "/vlm/query") request);
     _ ← check_ok response "Failed to query VLM";
     json response)
    (λ error, throw error).

Definition queryVLMWithContext (fetch : Fetch) (request : Json) : Outcome Json :=
  try_catch
    (response ← fetch (POST (API_BASE +:+ "/vlm/query-with-context") request);
     _ ← check_ok response "Failed to query VLM with context";
     json response)
    (λ error, throw error).

Definition session_body (action : string) (sessionId : Json) : Json :=
  JObj [("action", JStr action); ("session_id", sessionId)].

Definition startSession (fetch : Fetch) (sessionId : Json) : Outcome Json :=
  try_catch
    (response ← fetch (POST (API_BASE +:+ "/session") (session_body "start" sessionId));
     _ ← check_ok response "Failed to start session";
     json response)
    (λ error, throw error).

Definition getSessionStats (fetch : Fetch) (sessionId : Json) : Outcome Json :=
  try_catch
    (response ← fetch (POST (API_BASE +:+ "/session") (session_body "stats" sessionId));
     _ ← check_ok response "Failed to get session stats";
     data ← json response;
     get data "stats")
    (λ error, throw error).

Definition clearSession (fetch : Fetch) (sessionId : Json) : Outcome unit :=
  try_catch
    (response ← fetch (POST (API_BASE +:+ "/session") (session_body "clear" sessionId));
     check_ok response "Failed to clear session")
    (λ error, throw error).

Definition healthCheck (fetch : Fetch) : Outcome bool :=
  try_catch
    (response ← fetch (GET "/health");
     mret (ok response))
    (λ error, mret false).

Definition getContextWindow (fetch : Fetch) : Outcome Json :=
  try_catch
    (response ← fetch (GET (API_BASE +:+ "/settings/context-window"));
     _ ← check_ok response "Failed to fetch context window";
     data ← json response;
     get data "context_window")
    (λ error, mret (num 10)).

Definition updateContextWindow (fetch : Fetch) (contextWindow : Json) : Outcome unit :=
  try_catch
    (response ← fetch (POST (API_BASE +:+ "/context-window")
                            (JObj [("context_window", contextWindow)]));
     check_ok response "Failed to update context window")
    (λ error, throw error).

Definition updateSummaryWindow (fetch : Fetch) (summaryWindow : Json) : Outcome unit :=
  try_catch
    (response ← fetch (POST (API_BASE +:+ "/summary-window")
                            (JObj [("summary_window", summaryWindow)]));
     check_ok response "Failed to update summary window")
    (λ error, throw error).

Definition updateWindows (fetch : Fetch) (contextWindow summaryWindow : Json)
  : Outcome unit :=
  try_catch
    (response ← fetch (POST (API_BASE +:+ "/windows")
                            (JObj [("context_window", contextWindow);
                                   ("summary_window", summaryWindow)]));
     check_ok response "Failed to update windows")
    (λ error, throw error).

(** The surface as a whole: one constructor per static method, with its
    arguments. *)
Inductive Method :=
| GetModels
| GetSettings
| QueryVLM (request : Json)
| QueryVLMWithContext (request : Json)
| StartSession (sessionId : Json)
| GetSessionStats (sessionId : Json)
| ClearSession (sessionId : Json)
| HealthCheck
| GetContextWindow
| UpdateContextWindow (contextWindow : Json)
| UpdateSummaryWindow (summaryWindow : Json)
| UpdateWindows (contextWindow summaryWindow : Json).

(** A call of a method; a [void] result is [undefined]. *)
Definition call (m : Method) (fetch : Fetch) : Outcome Json :=
  match m with
  | GetModels => getModels fetch
  | GetSettings => getSettings fetch
  | QueryVLM r => queryVLM fetch r
  | QueryVLMWithContext r => queryVLMWithContext fetch r
  | StartSession i => startSession fetch i
  | GetSessionStats i => getSessionStats fetch i
  | ClearSession i => _ ← clearSession fetch i; mret JUndefined
  | HealthCheck => b ← healthCheck fetch; mret (JBool b)
  | GetContextWindow => getContextWindow fetch
  | UpdateContextWindow c => _ ← updateContextWindow fetch c; mret JUndefined
  | UpdateSummaryWindow c => _ ← updateSummaryWindow fetch c; mret JUndefined
  | UpdateWindows c w => _ ← updateWindows fetch c w; mret JUndefined
  end.

(** The one request a method issues. *)
Definition request_of (m : Method) : Request :=
  match m with
  | GetModels => GET (API_BASE +:+ "/models")
  | GetSettings => GET (API_BASE +:+ "/settings")
  | QueryVLM r => POST (API_BASE +:+ "/vlm/query") r
  | QueryVLMWithContext r => POST (API_BASE +:+ "/vlm/query-with-context") r
  | StartSession i => POST (API_BASE +:+ "/session") (session_body "start" i)
  | GetSessionStats i => POST (API_BASE +:+ "/session") (session_body "stats" i)
  | ClearSession i => POST (API_BASE +:+ "/session") (session_body "clear" i)
  | HealthCheck => GET "/health"
  | GetContextWindow => GET (API_BASE +:+ "/settings/context-window")
  | UpdateContextWindow c =>
      POST (API_BASE +:+ "/context-window") (JObj [("context_window", c)])
  | UpdateSummaryWindow c =>
      POST (API_BASE +:+ "/summary-window") (JObj [("summary_window", c)])
  | UpdateWindows c w =>
      POST (API_BASE +:+ "/windows")
           (JObj [("context_window", c); ("summary_window", w)])
  end.

(** The request failed: the transport rejected, or the status is not 2xx. *)
Definition failed (o : Outcome Response) : Prop :=
  match o with
  | Thrown _ => True
  | Returned r => ok r = false
  end.

(** A fetch that always rejects, as when the backend is down. *)
Definition offline : Fetch := λ _, Thrown (TypeError "Failed to fetch").

End Api.

(** ** The camera hook ([useCamera]): [captureFrame] *)
Module Camera.
Import Js.

(** [HTMLVideoElement]: the fields read. *)
Record Video := {
  videoWidth : Z;
  videoHeight : Z;
}.

(** [CanvasRenderingContext2D]: what [drawImage(image, dx, dy, dw, dh)]
    does when called. *)
Record Context2D := {
  drawImage : Video → Z → Z → Z → Z → Outcome unit;
}.

(** [HTMLCanvasElement]: its size, and what [getContext(id)] and
    [toDataURL(type, quality)] do when called. *)
Record Canvas := {
  canvas_width : Z;
  canvas_height : Z;
  getContext : string → Outcome (option Context2D);
  toDataURL : string → Qc → Outcome string;
}.

(** [canvas.width = w; canvas.height = h] *)
Definition resize (w h : Z) (canvas : Canvas) : Canvas :=
  {| canvas_width := w; canvas_height := h;
     getContext := getContext canvas; toDataURL := toDataURL canvas |}.

(** [captureFrame], with [videoRef.current] and [canvasRef.current] as
    read at the call and the hook's [isStreaming] as captured by the
    callback.  The result is the returned value; the resized canvas is
    not used after the call. *)
Definition captureFrame (videoRef : option Video) (canvasRef : option Canvas)
    (isStreaming : bool) : Outcome Json :=
  match videoRef, canvasRef, isStreaming with
  | Some video, Some canvas, true =>
      try_catch
        (ctx ← getContext canvas "2d";
         match ctx with
         | None => mret JNull
         | Some ctx =>
             let canvas := resize (videoWidth video) (videoHeight video) canvas in
             _ ← drawImage ctx video 0 0 (canvas_width canvas) (canvas_height canvas);
             dataUrl ← toDataURL canvas "image/jpeg" (Q2Qc (8 # 10));
             mret (index (split comma dataUrl) 1)
         end)
        (λ err, mret JNull)
  | _, _, _ => mret JNull
  end.

(** A canvas whose context is available and whose encoder yields the
    given data URL, and one whose encoder throws. *)
Definition working_canvas (dataUrl : string) : Canvas :=
  {| canvas_width := 300; canvas_height := 150;
     getContext := λ _, Returned (Some {| drawImage := λ _ _ _ _ _, Returned () |});
     toDataURL := λ _ _, Returned dataUrl |}.

Definition tainted_canvas : Canvas :=
  {| canvas_width := 300; canvas_height := 150;
     getContext := λ _, Returned (Some {| drawImage := λ _ _ _ _ _, Returned () |});
     toDataURL := λ _ _, Thrown {| exn_name := "SecurityError";
                                  exn_message := "Tainted canvases may not be exported" |} |}.

Definition sample_video : Video := {| videoWidth := 640; videoHeight := 480 |}.

End Camera.

(** ** The transport ([WebSocketService]) *)
Module Ws.
Import Js.

Inductive ReadyState := CONNECTING | OPEN | CLOSING | CLOSED.

#[global] Instance ReadyState_eq_dec : EqDecision ReadyState.
Proof. solve_decision. Defined.

Inductive PromiseState := Pending | Fulfilled | Rejected.

#[global] Instance PromiseState_eq_dec : EqDecision PromiseState.
Proof. solve_decision. Defined.

(** A [WebSocket] built by [connect]: its [readyState], and the promise
    that the [onopen] and [onerror] handlers installed on it settle (the
    one returned by the [connect] call that built it).  All four handlers
    of every socket are closures over the same service object. *)
Record Socket := {
  readyState : ReadyState;
  promise : nat;
}.

(** The browser side: every socket constructed so far (a socket is named
    by its position), the promises returned by [connect] so far, the
    delays in milliseconds of the pending [setTimeout] reconnect timers,
    and the messages handed to [WebSocket.send]. *)
Record Browser := {
  valid_url : string → bool;
  sockets : list Socket;
  promises : list PromiseState;
  timeouts : list nat;
  outbox : list (nat * Json);
}.

Definition with_sockets (v : list Socket) (b : Browser) : Browser :=
  {| valid_url := valid_url b; sockets := v; promises := promises b;
     timeouts := timeouts b; outbox := outbox b |}.
Definition with_promises (v : list PromiseState) (b : Browser) : Browser :=
  {| valid_url := valid_url b; sockets := sockets b; promises := v;
     timeouts := timeouts b; outbox := outbox b |}.
Definition with_timeouts (v : list nat) (b : Browser) : Browser :=
  {| valid_url := valid_url b; sockets := sockets b; promises := promises b;
     timeouts := v; outbox := outbox b |}.
Definition with_outbox (v : list (nat * Json)) (b : Browser) : Browser :=
  {| valid_url := valid_url b; sockets := sockets b; promises := promises b;
     timeouts := timeouts b; outbox := v |}.

Definition set_readyState (id : nat) (r : ReadyState) (b : Browser) : Browser :=
  with_sockets
    (alter (λ k, {| readyState := r; promise := promise k |}) id (sockets b)) b.

Definition readyState_of (id : nat) (b : Browser) : option ReadyState :=
  readyState <$> sockets b !! id.

(** [resolve()] and [reject(e)]: a promise settles once. *)
Definition settle (p : nat) (st : PromiseState) (b : Browser) : Browser :=
  match promises b !! p with
  | Some Pending => with_promises (<[p := st]> (promises b)) b
  | _ => b
  end.

(** [WebSocket.close()] *)
Definition close (id : nat) (b : Browser) : Browser :=
  match readyState_of id b with
  | Some CONNECTING | Some OPEN => set_readyState id CLOSING b
  | _ => b
  end.

(** The private fields [maxReconnectAttempts] and [reconnectDelay] are
    initialised once and never assigned. *)
Definition maxReconnectAttempts : nat := 5.
Definition reconnectDelay : nat := 1000.
#[global] Arguments maxReconnectAttempts : simpl never.
#[global] Arguments reconnectDelay : simpl never.

Section Service.
(** The state the callbacks and message handlers act on. *)
Context {C : Type}.

Record WebSocketService := {
  ws : option nat;
  reconnectAttempts : nat;
  messageHandlers : gmap string (Json → C → C);
  url : string;
  onConnect : option (C → C);
  onDisconnect : option (C → C);
  onError : option (string → C → C);
}.

(** [new WebSocketService(url, onConnect, onDisconnect, onError)] *)
Definition new (url : string) (onConnect onDisconnect : option (C → C))
    (onError : option (string → C → C)) : WebSocketService :=
  {| ws := None; reconnectAttempts := 0; messageHandlers := ∅; url := url;
     onConnect := onConnect; onDisconnect := onDisconnect; onError := onError |}.

Definition with_ws (v : option nat) (t : WebSocketService) : WebSocketService :=
  {| ws := v; reconnectAttempts := reconnectAttempts t;
     messageHandlers := messageHandlers t; url := url t;
     onConnect := onConnect t; onDisconnect := onDisconnect t;
     onError := onError t |}.
Definition with_reconnectAttempts (v : nat) (t : WebSocketService)
  : WebSocketService :=
  {| ws := ws t; reconnectAttempts := v;
     messageHandlers := messageHandlers t; url := url t;
     onConnect := onConnect t; onDisconnect := onDisconnect t;
     onError := onError t |}.

(** [onMessage(type, handler)] *)
Definition onMessage (type : string) (handler : Json → C → C)
    (t : WebSocketService) : WebSocketService :=
  {| ws := ws t; reconnectAttempts := reconnectAttempts t;
     messageHandlers := <[type := handler]> (messageHandlers t); url := url t;
     onConnect := onConnect t; onDisconnect := onDisconnect t;
     onError := onError t |}.

(** The service object, the browser and the callbacks' state. *)
Record Sys := {
  svc : WebSocketService;
  browser : Browser;
  client : C;
}.

Definition with_svc (v : WebSocketService) (s : Sys) : Sys :=
  {| svc := v; browser := browser s; client := client s |}.
Definition with_browser (v : Browser) (s : Sys) : Sys :=
  {| svc := svc s; browser := v; client := client s |}.
Definition with_client (v : C) (s : Sys) : Sys :=
  {| svc := svc s; browser := browser s; client := v |}.

(** What an optional callback does to the state it acts on. *)
Definition apply_opt (cb : option (C → C)) (c : C) : C :=
  match cb with
  | Some f => f c
  | None => c
  end.

(** [this.cb?.()] *)
Definition call_opt (cb : option (C → C)) (s : Sys) : Sys :=
  match cb with
  | Some f => with_client (f (client s)) s
  | None => s
  end.

Definition signal_error (msg : string) (s : Sys) : Sys :=
  call_opt ((λ f, f msg) <$> onError (svc s)) s.

(** [connect()]: the new promise's index is returned.  The executor runs
    at once: it constructs the socket, stores it in [this.ws] and installs
    the handlers; a constructor exception rejects the promise. *)
Definition connect (s : Sys) : Sys * nat :=
  let b := browser s in
  let p := length (promises b) in
  if valid_url b (url (svc s)) then
    let id := length (sockets b) in
    (with_svc (with_ws (Some id) (svc s))
       (with_browser
          (with_sockets (sockets b ++ [{| readyState := CONNECTING; promise := p |}])
             (with_promises (promises b ++ [Pending]) b)) s), p)
  else
    (with_browser (with_promises (promises b ++ [Rejected]) b) s, p).

(** [disconnect()] *)
Definition disconnect (s : Sys) : Sys :=
  match ws (svc s) with
  | Some id =>
      with_svc (with_ws None (svc s)) (with_browser (close id (browser s)) s)
  | None => s
  end.

(** [send(message)] *)
Definition send (message : Json) (s : Sys) : Sys :=
  match ws (svc s) with
  | Some id =>
      if decide (readyState_of id (browser s) = Some OPEN)
      then with_browser
             (with_outbox (outbox (browser s) ++ [(id, message)]) (browser s)) s
      else s
  | None => s
  end.

(** [this.messageHandlers.get(type)] *)
Definition handler_for (type : Json) (t : WebSocketService)
  : option (Json → C → C) :=
  match type with
  | JStr k => messageHandlers t !! k
  | _ => None
  end.

(** [handleMessage(message)] *)
Definition handleMessage (message : Json) (s : Sys) : Outcome Sys :=
  type ← get message "type";
  match handler_for type (svc s) with
  | Some handler => mret (with_client (handler message (client s)) s)
  | None => mret s
  end.

(** [attemptReconnect()] *)
Definition attemptReconnect (s : Sys) : Sys :=
  if decide (reconnectAttempts (svc s) < maxReconnectAttempts) then
    let n := reconnectAttempts (svc s) + 1 in
    with_svc (with_reconnectAttempts n (svc s))
      (with_browser
         (with_timeouts (timeouts (browser s) ++ [reconnectDelay * n]) (browser s))
         s)
  else
    signal_error "Failed to reconnect after maximum attempts" s.

(** The handlers [connect] installs on the socket whose promise is [p]. *)
Definition onopen (p : nat) (s : Sys) : Sys :=
  let s := with_svc (with_reconnectAttempts 0 (svc s)) s in
  let s := call_opt (onConnect (svc s)) s in
  with_browser (settle p Fulfilled (browser s)) s.

Definition onclose (s : Sys) : Sys :=
  let s := call_opt (onDisconnect (svc s)) s in
  attemptReconnect s.

Definition onerror (p : nat) (s : Sys) : Sys :=
  let s := signal_error "WebSocket connection error" s in
  with_browser (settle p Rejected (browser s)) s.

(** [onmessage]; [parsed] is the result of [JSON.parse(event.data)]. *)
Definition onmessage (parsed : Outcome Json) (s : Sys) : Sys :=
  match try_catch (message ← parsed; handleMessage message s)
                  (λ error, mret s) with
  | Returned s' => s'
  | Thrown _ => s
  end.

(** The reconnect timer's callback: [this.connect().catch(...)]. *)
Definition reconnect_timer (s : Sys) : Sys := fst (connect s).

(** Convenience methods. *)
Definition startSession (sessionId : Json) (s : Sys) : Sys :=
  send (JObj [("type", JStr "start_session"); ("session_id", sessionId)]) s.

(** [{ type: 'vlm_query', ...params }]; [params] has no [type] key. *)
Definition queryVLM (params : list (string * Json)) (s : Sys) : Sys :=
  send (JObj (("type", JStr "vlm_query") :: params)) s.

Definition getSessionStats (sessionId : Json) (s : Sys) : Sys :=
  send (JObj [("type", JStr "get_session_stats"); ("session_id", sessionId)]) s.

Definition updateContextWindow (contextWindow : Json) (s : Sys) : Sys :=
  send (JObj [("type", JStr "update_context_window");
              ("context_window", contextWindow)]) s.

Definition getSummary (model summaryPrompt : Json) (s : Sys) : Sys :=
  send (JObj [("type", JStr "get_summary"); ("model", model);
              ("summary_prompt", summaryPrompt)]) s.

Definition ping (s : Sys) : Sys := send (JObj [("type", JStr "ping")]) s.

Definition isConnected (s : Sys) : bool :=
  match ws (svc s) with
  | Some id => bool_decide (readyState_of id (browser s) = Some OPEN)
  | None => false
  end.

(** What the browser can do to the service: fire an event of a socket, or
    run a due reconnect timer. *)
Inductive Event :=
| Open (id : nat)
| Close (id : nat)
| Err (id : nat)
| Message (id : nat) (parsed : Outcome Json)
| Timeout (k : nat).

(** [deliver e s] is [None] when the browser cannot raise [e] in [s]:
    a socket opens from [CONNECTING] only, closes once, raises errors
    until it is closed and receives messages while [OPEN]; a timer fires
    if it is pending. *)
Definition deliver (e : Event) (s : Sys) : option Sys :=
  match e with
  | Open id =>
      k ← sockets (browser s) !! id;
      if decide (readyState k = CONNECTING)
      then Some (onopen (promise k)
                   (with_browser (set_readyState id OPEN (browser s)) s))
      else None
  | Close id =>
      k ← sockets (browser s) !! id;
      if decide (readyState k = CLOSED) then None
      else Some (onclose (with_browser (set_readyState id CLOSED (browser s)) s))
  | Err id =>
      k ← sockets (browser s) !! id;
      if decide (readyState k = CLOSED) then None
      else Some (onerror (promise k) s)
  | Message id parsed =>
      k ← sockets (browser s) !! id;
      if decide (readyState k = OPEN) then Some (onmessage parsed s) else None
  | Timeout k =>
      _ ← timeouts (browser s) !! k;
      Some (reconnect_timer
              (with_browser (with_timeouts (delete k (timeouts (browser s)))
                               (browser s)) s))
  end.

Fixpoint run (tr : list Event) (s : Sys) : option Sys :=
  match tr with
  | [] => Some s
  | e :: tr => s' ← deliver e s; run tr s'
  end.

End Service.
Arguments WebSocketService : clear implicits.
Arguments Sys : clear implicits.

Definition is_close (e : Event) : bool :=
  match e with Close _ => true | _ => false end.
Definition is_open (e : Event) : bool :=
  match e with Open _ => true | _ => false end.

Definition closes (tr : list Event) : nat := length (filter is_close tr).

(** A socket that has not closed yet. *)
Definition is_live (k : Socket) : bool :=
  negb (bool_decide (readyState k = CLOSED)).

(** Connections that exist or are about to: the sockets not yet closed
    and the pending reconnect timers. *)
Definition live (b : Browser) : nat :=
  length (filter is_live (sockets b)) + length (timeouts b).

(** A delay [attemptReconnect] can ask for. *)
Definition backoff_delay (d : nat) : Prop :=
  ∃ n, 1 ≤ n ≤ maxReconnectAttempts ∧ d = reconnectDelay * n.

(** A browser in which nothing has happened yet. *)
Definition fresh_browser : Browser :=
  {| valid_url := λ _, true; sockets := []; promises := [];
     timeouts := []; outbox := [] |}.

(** A service whose callbacks record the signals they receive, newest
    first, in a browser where nothing has happened yet. *)
Definition recording_service : WebSocketService (list string) :=
  new "ws://localhost:8000/ws"
    (Some (cons "connected")) (Some (cons "disconnected")) (Some cons).

Definition recording_sys : Sys (list string) :=
  {| svc := recording_service; browser := fresh_browser; client := [] |}.

(** The same after [connect()] and the open event of its socket. *)
Definition connected_sys : Sys (list string) :=
  default recording_sys (run [Open 0] (fst (connect recording_sys))).

End Ws.

(** ** The orchestrator ([App]) *)
Module App.
Import Js Store.

(** What the socket callbacks and the message handlers act on: the
    store, and the reading of [new Date().toISOString()]. *)
Record Client := {
  store : AppState;
  clock : string;
}.

Definition on_store (f : AppState → AppState) (c : Client) : Client :=
  {| store := f (store c); clock := clock c |}.

(** The handler registered for [session_started]. *)
Definition on_session_started (data : Json) : Client → Client :=
  on_store (setCurrentSession (field data "session_id")).

(** The handler registered for [vlm_response]. *)
Definition on_vlm_response (data : Json) (c : Client) : Client :=
  let c :=
    if truthy (field data "success") then
      let c := on_store (addFrame
                 {| timestamp := clock c;
                    frame_id := field data "frame_id";
                    response := field data "response";
                    model := field data "model";
                    processing_time := field data "processing_time";
                    frame_prompt := field data "prompt";
                    detected_objects := [];
                    temporal_context := field data "temporal_context" |}) c in
      on_store (setTemporalContext (field data "temporal_context")) c
    else
      on_store (setError (or_else (field data "error") (JStr "VLM query failed"))) c
  in
  on_store (setProcessingStatus false) c.

(** The handler registered for [session_stats]. *)
Definition on_session_stats (data : Json) : Client → Client :=
  on_store (setSessionStats (field data "stats")).

(** The handler registered for [session_error]. *)
Definition on_session_error (data : Json) : Client → Client :=
  on_store (setError (field data "error")).

(** The service as [initializeApp] builds it, before [connect()]. *)
Definition appService : Ws.WebSocketService Client :=
  Ws.onMessage "session_error" on_session_error
    (Ws.onMessage "session_stats" on_session_stats
       (Ws.onMessage "vlm_response" on_vlm_response
          (Ws.onMessage "session_started" on_session_started
             (Ws.new "ws://localhost:8000/ws"
                (Some (on_store (setConnectionStatus true)))
                (Some (on_store (setConnectionStatus false)))
                (Some (λ error, on_store (setError (JStr error)))))))).

(** The callback handed to [setInterval] by the streaming effect: its
    period in milliseconds and the values of the render it closes over
    ([captureFrame] is recreated when the camera's [isStreaming]
    changes, and closes over it). *)
Record Interval := {
  period : Qc;
  cb_isProcessing : bool;
  cb_settings : AppSettings;
  cb_currentSession : Json;
  cb_cameraIsStreaming : bool;
}.

(** The component instance.  [outstanding] is a ghost counter, not
    program state: the [vlm_query] messages handed to the socket and not
    yet answered by a [vlm_response]. *)
Record World := {
  client : Client;
  wsRef : option (Ws.WebSocketService Client);
  browser : Ws.Browser;
  intervalRef : option Interval;
  cameraIsStreaming : bool;
  initPromise : option nat;
  outstanding : nat;
}.

Definition with_client (v : Client) (w : World) : World :=
  {| client := v; wsRef := wsRef w; browser := browser w;
     intervalRef := intervalRef w; cameraIsStreaming := cameraIsStreaming w;
     initPromise := initPromise w; outstanding := outstanding w |}.
Definition with_wsRef (v : option (Ws.WebSocketService Client)) (w : World)
  : World :=
  {| client := client w; wsRef := v; browser := browser w;
     intervalRef := intervalRef w; cameraIsStreaming := cameraIsStreaming w;
     initPromise := initPromise w; outstanding := outstanding w |}.
Definition with_intervalRef (v : option Interval) (w : World) : World :=
  {| client := client w; wsRef := wsRef w; browser := browser w;
     intervalRef := v; cameraIsStreaming := cameraIsStreaming w;
     initPromise := initPromise w; outstanding := outstanding w |}.
Definition with_cameraIsStreaming (v : bool) (w : World) : World :=
  {| client := client w; wsRef := wsRef w; browser := browser w;
     intervalRef := intervalRef w; cameraIsStreaming := v;
     initPromise := initPromise w; outstanding := outstanding w |}.
Definition with_initPromise (v : option nat) (w : World) : World :=
  {| client := client w; wsRef := wsRef w; browser := browser w;
     intervalRef := intervalRef w; cameraIsStreaming := cameraIsStreaming w;
     initPromise := v; outstanding := outstanding w |}.
Definition with_outstanding (v : nat) (w : World) : World :=
  {| client := client w; wsRef := wsRef w; browser := browser w;
     intervalRef := intervalRef w; cameraIsStreaming := cameraIsStreaming w;
     initPromise := initPromise w; outstanding := v |}.

Definition state (w : World) : AppState := store (client w).

(** A store action called from the component. *)
Definition act (f : AppState → AppState) (w : World) : World :=
  with_client (on_store f (client w)) w.

(** A method of [wsRef.current], when the ref is set. *)
Definition with_service (f : Ws.Sys Client → Ws.Sys Client) (w : World) : World :=
  match wsRef w with
  | Some t =>
      let s := f {| Ws.svc := t; Ws.browser := browser w; Ws.client := client w |} in
      {| client := Ws.client s; wsRef := Some (Ws.svc s); browser := Ws.browser s;
         intervalRef := intervalRef w; cameraIsStreaming := cameraIsStreaming w;
         initPromise := initPromise w; outstanding := outstanding w |}
  | None => w
  end.

(** *** The streaming effect *)

(** Its dependency array:
    [[isStreaming, isConnected, isProcessing, settings, currentSession,
    captureFrame]]. *)
Definition deps (w : World)
  : bool * bool * bool * AppSettings * Json * bool :=
  (isStreaming (state w), isConnected (state w), isProcessing (state w),
   settings (state w), currentSession (state w), cameraIsStreaming w).

(** The cleanup the effect returns. *)
Definition streaming_cleanup (w : World) : World :=
  match intervalRef w with
  | Some _ => with_intervalRef None w
  | None => w
  end.

(** The effect's body, run with the values of the current render. *)
Definition streaming_effect (w : World) : World :=
  let st := state w in
  if isStreaming st && isConnected st && negb (isProcessing st) then
    with_intervalRef
      (Some {| period := (delaySeconds (settings st) * Q2Qc 1000)%Qc;
               cb_isProcessing := isProcessing st;
               cb_settings := settings st;
               cb_currentSession := currentSession st;
               cb_cameraIsStreaming := cameraIsStreaming w |}) w
  else
    match intervalRef w with
    | Some _ => with_intervalRef None w
    | None => w
    end.

(** The render that follows an event: when a dependency changed, the
    previous cleanup runs and then the effect. *)
Definition rerender (before after : World) : World :=
  if decide (deps before = deps after) then after
  else streaming_effect (streaming_cleanup after).

(** The parameters of the [vlm_query] built by the interval callback. *)
Definition query_params (cb : Interval) (frameData : Json) (now : string)
  : list (string * Json) :=
  [("model", JStr (selectedModel (cb_settings cb)));
   ("image_b64", frameData);
   ("prompt", JStr (prompt (cb_settings cb)));
   ("session_id", or_else (cb_currentSession cb) JUndefined);
   ("use_temporal_context", JBool (useTemporalContext (cb_settings cb)));
   ("settings", JObj [("max_tokens", maxTokens (cb_settings cb));
                      ("temperature", temperature (cb_settings cb));
                      ("delay_seconds", JNum (delaySeconds (cb_settings cb)))]);
   ("timestamp", JStr now)].

(** The interval callback [cb], with the elements the camera refs hold
    when it runs. *)
Definition interval_callback (cb : Interval)
    (videoRef : option Camera.Video) (canvasRef : option Camera.Canvas)
    (w : World) : World :=
  if negb (cb_isProcessing cb) && bool_decide (is_Some (wsRef w)) then
    match Camera.captureFrame videoRef canvasRef (cb_cameraIsStreaming cb) with
    | Returned frameData =>
        if truthy frameData then
          let w := act (setProcessingStatus true) w in
          with_service
            (Ws.queryVLM (query_params cb frameData (clock (client w)))) w
        else w
    | Thrown _ => w
    end
  else w.

(** *** Commands *)

Definition handleStartAnalysis (w : World) : World :=
  if negb (bool_decide (is_Some (wsRef w))) || negb (isConnected (state w)) then
    act (setError (JStr "WebSocket not connected")) w
  else
    let w :=
      if negb (truthy (currentSession (state w)))
      then with_service (Ws.startSession JUndefined) w
      else w in
    let w := act (setStreamingStatus true) w in
    act clearFrameHistory w.

Definition handleStopAnalysis (w : World) : World :=
  let w := act (setStreamingStatus false) w in
  act (setProcessingStatus false) w.

Definition handleClearHistory (w : World) : World :=
  let w := act clearFrameHistory w in
  let w := act (setTemporalContext JNull) w in
  act (setSessionStats JNull) w.

(** *** Initialisation *)

Definition init_failed (w : World) : World :=
  act (setError (JStr "Failed to initialize application")) w.

(** [initializeApp]; its fetches are taken to complete before any other
    event.  The final [await] of [connect()] is left pending in
    [initPromise]. *)
Definition initializeApp (fetch : Api.Fetch) (w : World) : World :=
  match Api.healthCheck fetch with
  | Thrown _ => init_failed w
  | Returned false =>
      act (setError
             (JStr "Backend is not available. Please start the FastAPI server.")) w
  | Returned true =>
      match Api.getModels fetch with
      | Thrown _ => init_failed w
      | Returned models =>
          let w := act (setAvailableModels models) w in
          match Api.getContextWindow fetch with
          | Thrown _ => init_failed w
          | Returned contextWindow =>
              let w := act (updateSettings_contextWindow contextWindow) w in
              let w := with_wsRef (Some appService) w in
              let s := Ws.connect {| Ws.svc := appService;
                                     Ws.browser := browser w;
                                     Ws.client := client w |} in
              {| client := Ws.client (fst s); wsRef := Some (Ws.svc (fst s));
                 browser := Ws.browser (fst s); intervalRef := intervalRef w;
                 cameraIsStreaming := cameraIsStreaming w;
                 initPromise := Some (snd s); outstanding := outstanding w |}
          end
      end
  end.

(** The continuation of [await wsRef.current.connect()]: nothing more to
    do when the promise is fulfilled, the [catch] block when it is
    rejected. *)
Definition resume_init (w : World) : World :=
  match initPromise w with
  | Some p =>
      match Ws.promises (browser w) !! p with
      | Some Ws.Rejected => init_failed (with_initPromise None w)
      | Some Ws.Fulfilled => with_initPromise None w
      | _ => w
      end
  | None => w
  end.

(** The component before it is mounted. *)
Definition unmounted (b : Ws.Browser) (now : string) : World :=
  {| client := {| store := initial; clock := now |}; wsRef := None;
     browser := b; intervalRef := None; cameraIsStreaming := false;
     initPromise := None; outstanding := 0 |}.

(** Mounting runs both effects. *)
Definition mount (fetch : Api.Fetch) (b : Ws.Browser) (now : string) : World :=
  let w := unmounted b now in
  let w := resume_init (initializeApp fetch w) in
  streaming_effect w.

(** *** Events *)

Inductive Event :=
| Tick (videoRef : option Camera.Video) (canvasRef : option Camera.Canvas)
| Socket (e : Ws.Event)
| StartAnalysis
| StopAnalysis
| ClearHistory
| DismissError
| CameraStreaming (on : bool)
| UpdateSettings (v : AppSettings).

Definition is_vlm_query (m : nat * Json) : bool :=
  bool_decide (field (snd m) "type" = JStr "vlm_query").

(** The [vlm_query] messages handed to a socket so far. *)
Definition sent_queries (w : World) : nat :=
  length (filter is_vlm_query (Ws.outbox (browser w))).

(** An inbound frame that parses to a [vlm_response] message. *)
Definition is_vlm_response (parsed : Outcome Json) : bool :=
  match parsed with
  | Returned m =>
      match get m "type" with
      | Returned type => bool_decide (type = JStr "vlm_response")
      | Thrown _ => false
      end
  | Thrown _ => false
  end.

Definition answers (e : Event) : nat :=
  match e with
  | Socket (Ws.Message _ parsed) => if is_vlm_response parsed then 1 else 0
  | _ => 0
  end.

(** Ghost accounting for an event that took [before] to [after]. *)
Definition account (e : Event) (before after : World) : World :=
  with_outstanding
    (outstanding before + (sent_queries after - sent_queries before) - answers e)
    after.

(** The handler an event runs; [None] when the event cannot occur. *)
Definition handle (e : Event) (w : World) : option World :=
  match e with
  | Tick videoRef canvasRef =>
      cb ← intervalRef w;
      Some (interval_callback cb videoRef canvasRef w)
  | Socket e =>
      t ← wsRef w;
      s ← Ws.deliver e {| Ws.svc := t; Ws.browser := browser w;
                          Ws.client := client w |};
      Some (resume_init
              {| client := Ws.client s; wsRef := Some (Ws.svc s);
                 browser := Ws.browser s; intervalRef := intervalRef w;
                 cameraIsStreaming := cameraIsStreaming w;
                 initPromise := initPromise w; outstanding := outstanding w |})
  | StartAnalysis => Some (handleStartAnalysis w)
  | StopAnalysis => Some (handleStopAnalysis w)
  | ClearHistory => Some (handleClearHistory w)
  | DismissError => Some (act (setError JNull) w)
  | CameraStreaming on => Some (with_cameraIsStreaming on w)
  | UpdateSettings v => Some (act (with_settings v) w)
  end.

(** The world in which a handler runs when the clock reads [now]. *)
Definition at_time (now : string) (w : World) : World :=
  with_client {| store := state w; clock := now |} w.

(** One event at wall-clock reading [now]: the handler runs to
    completion, then the component re-renders. *)
Definition deliver (now : string) (e : Event) (w : World) : option World :=
  let w0 := at_time now w in
  w1 ← handle e w0;
  Some (rerender w0 (account e w0 w1)).

Fixpoint run (tr : list (string * Event)) (w : World) : option World :=
  match tr with
  | [] => Some w
  | (now, e) :: tr => w' ← deliver now e w; run tr w'
  end.

(** The state after a trace, or the starting state if the trace cannot
    occur. *)
Definition after (tr : list (string * Event)) (w : World) : World :=
  default w (run tr w).

(** The commands as a caller sees them: handler, then re-render. *)
Definition start (w : World) : World := rerender w (handleStartAnalysis w).
Definition stop (w : World) : World := rerender w (handleStopAnalysis w).
Definition reset (w : World) : World := rerender w (handleClearHistory w).


(** An armed interval was created while the in-flight flag was clear,
    and the flag is still clear. *)
Definition armed_ok (w : World) : Prop :=
  ∀ cb, intervalRef w = Some cb →
        cb_isProcessing cb = false ∧ isProcessing (state w) = false.

(** The backpressure invariant: at most one query is outstanding, and
    none while the in-flight flag is clear. *)
Definition backpressure (w : World) : Prop :=
  outstanding w ≤ 1
  ∧ (isProcessing (state w) = false → outstanding w = 0)
  ∧ armed_ok w.

(** The service in [wsRef] dispatches [vlm_response] to the handler
    [initializeApp] registered. *)
Definition wired (w : World) : Prop :=
  ∃ t, wsRef w = Some t
       ∧ Ws.messageHandlers t !! "vlm_response" = Some on_vlm_response.

(** [initializeApp] is not suspended on a promise that has settled. *)
Definition init_quiet (w : World) : Prop :=
  match initPromise w with
  | Some p => Ws.promises (browser w) !! p = Some Ws.Pending
  | None => True
  end.

(** The record [on_vlm_response] appends for a successful payload. *)
Definition frame_of (now : string) (data : Json) : FrameData :=
  {| timestamp := now;
     frame_id := field data "frame_id";
     response := field data "response";
     model := field data "model";
     processing_time := field data "processing_time";
     frame_prompt := field data "prompt";
     detected_objects := [];
     temporal_context := field data "temporal_context" |}.

(** *** Sample environments *)

(** A backend that answers every request with status 200 and the same
    body. *)
Definition online : Api.Fetch :=
  λ _, Returned {| Api.ok := true;
                   Api.json := Returned (JObj [("models", JArr []);
                                               ("context_window", num 10)]) |}.

(** A camera that is on and yields a JPEG frame. *)
Definition sample_canvas : Camera.Canvas :=
  Camera.working_canvas "data:image/jpeg;base64,/9j/4AAQ".

Definition camera_tick : Event :=
  Tick (Some Camera.sample_video) (Some sample_canvas).

(** A successful and a failed [vlm_response] frame on socket 0. *)
Definition success_response (frame : string) : Event :=
  Socket (Ws.Message 0 (Returned (JObj [
    ("type", JStr "vlm_response"); ("success", JBool true);
    ("frame_id", JStr frame); ("response", JStr "a desk");
    ("model", JStr "gemini-1.5-flash"); ("processing_time", num 1);
    ("temporal_context", JObj [("recent_responses", JArr [JStr "a desk"]);
                               ("last_update", JStr frame)])]))).

Definition failure_response : Event :=
  Socket (Ws.Message 0 (Returned (JObj [
    ("type", JStr "vlm_response"); ("success", JBool false);
    ("error", JStr "model unavailable")]))).

(** Mounted against a live backend, socket open, camera on, analysis
    started. *)
Definition streaming_world : World :=
  after [("t1", Socket (Ws.Open 0)); ("t2", CameraStreaming true);
         ("t3", StartAnalysis)]
    (mount online Ws.fresh_browser "t0").



(** The same with one query answered by a failure and a second query
    in flight. *)
Definition errored_world : World :=
  after [("t4", camera_tick); ("t5", failure_response); ("t6", camera_tick)]
    streaming_world.

(** The payload of [success_response frame]. *)
Definition success_data (frame : string) : Json :=
  match success_response frame with
  | Socket (Ws.Message _ (Returned data)) => data
  | _ => JNull
  end.

(** What the streaming effect makes of the current render: the
    interval it arms, if any. *)
Definition pacer_of (w : World) : option Interval :=
  if isStreaming (state w) && isConnected (state w)
     && negb (isProcessing (state w))
  then Some {| period := (delaySeconds (settings (state w)) * Q2Qc 1000)%Qc;
               cb_isProcessing := isProcessing (state w);
               cb_settings := settings (state w);
               cb_currentSession := currentSession (state w);
               cb_cameraIsStreaming := cameraIsStreaming w |}
  else None.

(** The interval in place is the one the effect makes of the current
    store. *)
Definition coherent (w : World) : Prop := intervalRef w = pacer_of w.

(** A service with the handlers and callbacks [initializeApp] gave it. *)
Definition app_wiring (t : Ws.WebSocketService Client) : Prop :=
  Ws.messageHandlers t = Ws.messageHandlers appService
  ∧ Ws.onConnect t = Ws.onConnect appService
  ∧ Ws.onDisconnect t = Ws.onDisconnect appService
  ∧ Ws.onError t = Ws.onError appService
  ∧ Ws.url t = Ws.url appService.

Definition serviced (w : World) : Prop :=
  ∀ t, wsRef w = Some t → app_wiring t.

(** The states the component can be in: mounted in some environment,
    then any events. *)
Definition reachable (w : World) : Prop :=
  ∃ fetch b now tr, run tr (mount fetch b now) = Some w.

(** An event that can clear the in-flight flag: a [vlm_response], or the
    stop command. *)
Definition releases (e : Event) : bool :=
  match e with
  | StopAnalysis => true
  | Socket (Ws.Message _ parsed) => is_vlm_response parsed
  | _ => false
  end.

(** The event of an inbound message that parses to [data]. *)
Definition inbound (id : nat) (data : Json) : Event :=
  Socket (Ws.Message id (Returned data)).

End App.

(** ** The camera hook's state ([useCamera]) *)
Module CameraHook.
Import Js.

(** [MediaDeviceInfo]: the fields read. *)
Record Device := {
  kind : string;
  deviceId : string;
}.

(** A [MediaStream], as the tracks [getTracks()] returns; a track is
    named by a number. *)
Abbreviation Stream := (list nat).

(** The hook's refs and state.  [video] is [videoRef.current] with its
    [srcObject]; [ended] holds the tracks on which [stop()] was called. *)
Record Hook := {
  video : option (option Stream);
  streamRef : option Stream;
  isStreaming : bool;
  error : Json;
  availableDevices : list Device;
  selectedDeviceId : Json;
  ended : gset nat;
}.

Definition with_video (v : option (option Stream)) (h : Hook) : Hook :=
  {| video := v; streamRef := streamRef h; isStreaming := isStreaming h;
     error := error h; availableDevices := availableDevices h;
     selectedDeviceId := selectedDeviceId h; ended := ended h |}.
Definition with_streamRef (v : option Stream) (h : Hook) : Hook :=
  {| video := video h; streamRef := v; isStreaming := isStreaming h;
     error := error h; availableDevices := availableDevices h;
     selectedDeviceId := selectedDeviceId h; ended := ended h |}.
Definition setIsStreaming (v : bool) (h : Hook) : Hook :=
  {| video := video h; streamRef := streamRef h; isStreaming := v;
     error := error h; availableDevices := availableDevices h;
     selectedDeviceId := selectedDeviceId h; ended := ended h |}.
Definition setError (v : Json) (h : Hook) : Hook :=
  {| video := video h; streamRef := streamRef h; isStreaming := isStreaming h;
     error := v; availableDevices := availableDevices h;
     selectedDeviceId := selectedDeviceId h; ended := ended h |}.
Definition setAvailableDevices (v : list Device) (h : Hook) : Hook :=
  {| video := video h; streamRef := streamRef h; isStreaming := isStreaming h;
     error := error h; availableDevices := v;
     selectedDeviceId := selectedDeviceId h; ended := ended h |}.
Definition setSelectedDeviceId (v : Json) (h : Hook) : Hook :=
  {| video := video h; streamRef := streamRef h; isStreaming := isStreaming h;
     error := error h; availableDevices := availableDevices h;
     selectedDeviceId := v; ended := ended h |}.
Definition with_ended (v : gset nat) (h : Hook) : Hook :=
  {| video := video h; streamRef := streamRef h; isStreaming := isStreaming h;
     error := error h; availableDevices := availableDevices h;
     selectedDeviceId := selectedDeviceId h; ended := v |}.

(** The hook at its first render, with the video element mounted or
    not. *)
Definition initial (mounted : bool) : Hook :=
  {| video := if mounted then Some None else None; streamRef := None;
     isStreaming := false; error := JNull; availableDevices := [];
     selectedDeviceId := JUndefined; ended := ∅ |}.

(** [stream.getTracks().forEach(track => track.stop())] *)
Definition stop_tracks (stream : Stream) (h : Hook) : Hook :=
  with_ended (ended h ∪ list_to_set stream) h.

(** [getAvailableDevices], given what [enumerateDevices()] settles to. *)
Definition getAvailableDevices (enumerateDevices : Outcome (list Device))
    (h : Hook) : Hook :=
  match enumerateDevices with
  | Returned devices =>
      let videoDevices := filter (λ d, kind d = "videoinput") devices in
      let h' := setAvailableDevices videoDevices h in
      match videoDevices with
      | first :: _ =>
          if negb (truthy (selectedDeviceId h))
          then setSelectedDeviceId (JStr (deviceId first)) h'
          else h'
      | [] => h'
      end
  | Thrown _ => setError (JStr "Failed to get camera devices") h
  end.

(** The [MediaStreamConstraints] built by [startCamera]. *)
Definition constraints (deviceId : Json) (settings : Store.CameraSettings)
  : Json :=
  JObj [("video",
         JObj [("deviceId",
                if truthy deviceId then JObj [("exact", deviceId)]
                else JUndefined);
               ("width", JObj [("ideal", num (Store.width settings))]);
               ("height", JObj [("ideal", num (Store.height settings))]);
               ("frameRate", JObj [("ideal", num (Store.frameRate settings))])]);
        ("audio", JBool false)].

(** The [catch] block of [startCamera]. *)
Definition start_failed (h : Hook) : Hook :=
  setIsStreaming false
    (setError (JStr "Failed to start camera. Please check permissions.") h).

(** [startCamera(deviceId)], given what [getUserMedia] settles to for a
    constraints object and what [video.play()] settles to. *)
Definition startCamera (getUserMedia : Json → Outcome Stream)
    (play : Outcome unit) (settings : Store.CameraSettings)
    (deviceId : Json) (h : Hook) : Hook :=
  let h := setError JNull h in
  let h := match streamRef h with
           | Some old => stop_tracks old h
           | None => h
           end in
  match getUserMedia (constraints deviceId settings) with
  | Returned stream =>
      let h := with_streamRef (Some stream) h in
      match video h with
      | Some _ =>
          let h := with_video (Some (Some stream)) h in
          match play with
          | Returned _ => setSelectedDeviceId deviceId (setIsStreaming true h)
          | Thrown _ => start_failed h
          end
      | None => h
      end
  | Thrown _ => start_failed h
  end.

(** [stopCamera] *)
Definition stopCamera (h : Hook) : Hook :=
  let h := match streamRef h with
           | Some stream => with_streamRef None (stop_tracks stream h)
           | None => h
           end in
  let h := match video h with
           | Some _ => with_video (Some None) h
           | None => h
           end in
  setIsStreaming false h.

(** [switchDevice] *)
Definition switchDevice (getUserMedia : Json → Outcome Stream)
    (play : Outcome unit) (settings : Store.CameraSettings)
    (deviceId : string) (h : Hook) : Hook :=
  startCamera getUserMedia play settings (JStr deviceId) h.

(** The effect that asks for permission on mount. *)
Definition requestPermissions (getUserMedia : Json → Outcome Stream)
    (enumerateDevices : Outcome (list Device)) (h : Hook) : Hook :=
  match getUserMedia (JObj [("video", JBool true)]) with
  | Returned _ => getAvailableDevices enumerateDevices h
  | Thrown _ => setError (JStr "Camera permission is required") h
  end.

(** [captureFrame] as the hook returns it: [videoRef.current] is the
    element of [video], whose dimensions are [dims] when it is read. *)
Definition captureFrame (dims : Camera.Video) (canvasRef : option Camera.Canvas)
    (h : Hook) : Outcome Json :=
  Camera.captureFrame (match video h with Some _ => Some dims | None => None end)
    canvasRef (isStreaming h).

(** The calls a component makes on the hook, each with what the browser
    answers while it runs. *)
Inductive Call :=
| StartCamera (getUserMedia : Json → Outcome Stream) (play : Outcome unit)
    (settings : Store.CameraSettings) (deviceId : Json)
| StopCamera
| SwitchDevice (getUserMedia : Json → Outcome Stream) (play : Outcome unit)
    (settings : Store.CameraSettings) (deviceId : string)
| GetAvailableDevices (enumerateDevices : Outcome (list Device))
| RequestPermissions (getUserMedia : Json → Outcome Stream)
    (enumerateDevices : Outcome (list Device)).

Definition call (c : Call) (h : Hook) : Hook :=
  match c with
  | StartCamera getUserMedia play settings deviceId =>
      startCamera getUserMedia play settings deviceId h
  | StopCamera => stopCamera h
  | SwitchDevice getUserMedia play settings deviceId =>
      switchDevice getUserMedia play settings deviceId h
  | GetAvailableDevices enumerateDevices =>
      getAvailableDevices enumerateDevices h
  | RequestPermissions getUserMedia enumerateDevices =>
      requestPermissions getUserMedia enumerateDevices h
  end.


(** The tracks of the stream in [streamRef]. *)
Definition held (h : Hook) : list nat := default [] (streamRef h).

(** Sample environments: a camera that grants tracks 1 and 2, one that
    refuses, and three enumerated devices. *)
Definition granting : Json → Outcome Stream := λ _, Returned [1; 2].
Definition refusing : Json → Outcome Stream :=
  λ _, Thrown {| exn_name := "NotAllowedError"; exn_message := "Permission denied" |}.
Definition sample_devices : list Device :=
  [{| kind := "audioinput"; deviceId := "mic" |};
   {| kind := "videoinput"; deviceId := "front" |};
   {| kind := "videoinput"; deviceId := "back" |}].

End CameraHook.

(** ** The summary panel ([AnalysisPanel]) *)
Module Panel.
Import Js Store.

(** What the panel's message handlers act on: the store and the local
    [isLoadingSummary] state. *)
Record Client := {
  store : AppState;
  isLoadingSummary : bool;
}.

Definition on_store (f : AppState → AppState) (c : Client) : Client :=
  {| store := f (store c); isLoadingSummary := isLoadingSummary c |}.
Definition setIsLoadingSummary (v : bool) (c : Client) : Client :=
  {| store := store c; isLoadingSummary := v |}.

(** The phrases the panel treats as placeholders. *)
Definition placeholders : list string :=
  ["No video frames"; "No recent frames"; "No session data"].

(** [data.summary && (data.summary.includes(a) || ... )] as a condition. *)
Definition is_placeholder (summary : Json) : Outcome bool :=
  if truthy summary then
    a ← includes summary "No video frames";
    if a : bool then mret true else
    b ← includes summary "No recent frames";
    if b : bool then mret true else
    includes summary "No session data"
  else mret false.

(** The handler registered for [summary_response]; it can throw only
    while evaluating its condition, before any update. *)
Definition on_summary_response (data : Json) (c : Client) : Outcome Client :=
  hit ← is_placeholder (field data "summary");
  let c := if hit : bool
           then on_store (setGeneralSummary (JStr "")) c
           else on_store (setGeneralSummary (field data "summary")) c in
  mret (setIsLoadingSummary false c).

(** The handler registered for [summary_error]. *)
Definition on_summary_error (data : Json) (c : Client) : Client :=
  setIsLoadingSummary false (on_store (setGeneralSummary (JStr "")) c).

(** A handler whose exception reaches the [catch] of the service's
    [onmessage]: the state is as it was when it threw. *)
Definition caught (h : Json → Client → Outcome Client) (data : Json)
    (c : Client) : Client :=
  match h data c with
  | Returned c' => c'
  | Thrown _ => c
  end.

(** The service the panel's effect builds: [new WebSocketService()] with
    the two handlers. *)
Definition panelService : Ws.WebSocketService Client :=
  Ws.onMessage "summary_error" on_summary_error
    (Ws.onMessage "summary_response" (caught on_summary_response)
       (Ws.new "ws://localhost:8000/ws" None None None)).

(** The panel: its state, the service held in [wsService] and the
    browser side of that service. *)
Record World := {
  client : Client;
  wsService : option (Ws.WebSocketService Client);
  summaryPrompt : string;
  browser : Ws.Browser;
}.

Definition sys_of (t : Ws.WebSocketService Client) (w : World) : Ws.Sys Client :=
  {| Ws.svc := t; Ws.browser := browser w; Ws.client := client w |}.

Definition of_sys (s : Ws.Sys Client) (w : World) : World :=
  {| client := Ws.client s; wsService := Some (Ws.svc s);
     summaryPrompt := summaryPrompt w; browser := Ws.browser s |}.

(** The effect run on mount: build the service, keep it in state, and
    connect. *)
Definition mount (w : World) : World :=
  of_sys (fst (Ws.connect (sys_of panelService w))) w.

(** [handleGetSummary] *)
Definition handleGetSummary (w : World) : World :=
  match wsService w with
  | None => w
  | Some t =>
      if negb (Ws.isConnected (sys_of t w)) then w
      else
        let w := {| client := setIsLoadingSummary true (client w);
                    wsService := wsService w;
                    summaryPrompt := summaryPrompt w;
                    browser := browser w |} in
        of_sys (Ws.getSummary
                  (JStr (summaryModel (settings (store (client w)))))
                  (JStr (summaryPrompt w)) (sys_of t w)) w
  end.

(** The summary button: [setGeneralSummary(''); handleGetSummary()]. *)
Definition summary_button (w : World) : World :=
  handleGetSummary
    {| client := on_store (setGeneralSummary (JStr "")) (client w);
       wsService := wsService w; summaryPrompt := summaryPrompt w;
       browser := browser w |}.

(** A socket event of the panel's service. *)
Definition deliver (e : Ws.Event) (w : World) : option World :=
  t ← wsService w;
  s ← Ws.deliver e (sys_of t w);
  Some (of_sys s w).

(** A panel that has not run its effect yet. *)
Definition unmounted : World :=
  {| client := {| store := Store.initial; isLoadingSummary := false |};
     wsService := None; summaryPrompt := "Summarise."; browser := Ws.fresh_browser |}.

(** A panel whose socket is open and whose summary request is
    pending. *)
Definition loading_panel : World :=
  {| client := {| store := Store.initial; isLoadingSummary := true |};
     wsService := Some (Ws.with_ws (Some 0) panelService);
     summaryPrompt := "Summarise.";
     browser := {| Ws.valid_url := λ _, true;
                   Ws.sockets := [{| Ws.readyState := Ws.OPEN; Ws.promise := 0 |}];
                   Ws.promises := [Ws.Fulfilled]; Ws.timeouts := [];
                   Ws.outbox := [] |} |}.

End Panel.

(** ** The settings panel's backend sync ([SettingsPanel]) *)
Module Settings.
Import Js Store.

(** The patch [{ contextWindow: v }]. *)
Definition contextWindow_patch (v : Json) : SettingsPatch :=
  {| p_selectedModel := None; p_summaryModel := None; p_prompt := None;
     p_maxTokens := None; p_temperature := None; p_delaySeconds := None;
     p_useTemporalContext := None; p_autoStart := None;
     p_contextWindow := Some v; p_summaryWindow := None |}.

(** The patch [{ summaryWindow: v }]. *)
Definition summaryWindow_patch (v : Json) : SettingsPatch :=
  {| p_selectedModel := None; p_summaryModel := None; p_prompt := None;
     p_maxTokens := None; p_temperature := None; p_delaySeconds := None;
     p_useTemporalContext := None; p_autoStart := None;
     p_contextWindow := None; p_summaryWindow := Some v |}.

(** [handleContextWindowChange], from the parsed input value on: the
    new store and what the handler's promise settles to. *)
Definition handleContextWindowChange (fetch : Api.Fetch)
    (newContextWindow : Json) (s : AppState) : AppState * Outcome unit :=
  (updateSettings (contextWindow_patch newContextWindow) s,
   try_catch (Api.updateContextWindow fetch newContextWindow)
             (λ error, mret ())).

(** [handleSummaryWindowChange], likewise. *)
Definition handleSummaryWindowChange (fetch : Api.Fetch)
    (newSummaryWindow : Json) (s : AppState) : AppState * Outcome unit :=
  (updateSettings (summaryWindow_patch newSummaryWindow) s,
   try_catch (Api.updateSummaryWindow fetch newSummaryWindow)
             (λ error, mret ())).

End Settings.

(* ================================================================== *)
(** * Properties *)

Section FrameHistory.
Import Js Store.

Lemma slice_neg_drop {A} (n : nat) (l : list A) :
  0 < n → slice (- Z.of_nat n) l = drop (length l - n) l.
Proof.
  intros Hn. unfold slice. cbv zeta. f_equal.
  destruct (Z.ltb_spec (- Z.of_nat n) 0); lia.
Qed.

Lemma addFrame_history f s :
  frameHistory (addFrame f s)
  = drop (length (frameHistory s) + 1 - historyCap) (frameHistory s ++ [f]).
Proof.
  unfold addFrame, historyCap. cbn [frameHistory with_frameHistory].
  change (-50)%Z with (- Z.of_nat 50)%Z. rewrite slice_neg_drop by lia.
  by rewrite length_app.
Qed.

Lemma addFrames_history fs : ∀ s,
  length (frameHistory s) ≤ historyCap →
  frameHistory (addFrames fs s)
  = drop (length (frameHistory s) + length fs - historyCap)
         (frameHistory s ++ fs).
Proof.
  induction fs as [|f fs IH]; intros s Hs; cbn [addFrames foldl].
  - rewrite app_nil_r, Nat.add_0_r.
    replace (length (frameHistory s) - historyCap) with 0 by lia. done.
  - fold (addFrames fs (addFrame f s)).
    assert (Hk : length (frameHistory s) + 1 - historyCap
                 ≤ length (frameHistory s ++ [f])).
    { rewrite length_app. cbn [length]. lia. }
    rewrite IH; rewrite addFrame_history.
    + rewrite <- drop_app_le by exact Hk.
      rewrite drop_drop, <- app_assoc. cbn [app]. f_equal.
      rewrite length_drop, length_app. cbn [length].
      unfold historyCap in *. lia.
    + rewrite length_drop, length_app. cbn [length].
      unfold historyCap. lia.
Qed.

Lemma addFrame_length_le f s :
  length (frameHistory (addFrame f s)) ≤ 50.
Proof.
  rewrite addFrame_history, length_drop, length_app. cbn [length].
  unfold historyCap. lia.
Qed.

Example addFrames_three f1 f2 f3 :
  frameHistory (addFrames [f1; f2; f3] initial) = [f1; f2; f3].
Proof. reflexivity. Qed.

Example slice_keeps_last_two :
  slice (-2) [1; 2; 3; 4; 5] = [4; 5] ∧ slice (-7) [1; 2; 3] = [1; 2; 3].
Proof. split; reflexivity. Qed.

(** C2.  After any sequence of [addFrame] calls on the initial store the
    history holds at most 50 records; it is exactly the last 50 frames
    added, in the order they were added; and a further [addFrame] appends
    the new frame at the end, dropping the first (oldest) record when the
    history already holds 50 and nothing otherwise.  Whatever the store
    held before, the history holds at most 50 records after an
    [addFrame]. *)
Theorem addFrame_cap_fifo (fs : list FrameData) (f : FrameData) :
  let s := addFrames fs initial in
  (∀ s0, length (frameHistory (addFrame f s0)) ≤ 50)
  ∧ length (frameHistory s) ≤ 50
  ∧ frameHistory s = drop (length fs - 50) fs
  ∧ frameHistory (addFrame f s)
    = (if decide (length (frameHistory s) < 50)
       then frameHistory s else tail (frameHistory s)) ++ [f].
Proof.
  cbv zeta.
  assert (Hh : frameHistory (addFrames fs initial) = drop (length fs - 50) fs).
  { rewrite addFrames_history by (cbn; lia). reflexivity. }
  assert (Hlen : length (frameHistory (addFrames fs initial)) ≤ 50).
  { rewrite Hh, length_drop. lia. }
  split; [intros s0; apply addFrame_length_le|].
  split; [exact Hlen|]. split; [exact Hh|].
  rewrite addFrame_history. unfold historyCap.
  destruct (frameHistory (addFrames fs initial)) as [|x h] eqn:E.
  - reflexivity.
  - cbn [length] in *. case_decide.
    + replace (S (length h) + 1 - 50) with 0 by lia. reflexivity.
    + replace (S (length h) + 1 - 50) with 1 by lia. reflexivity.
Qed.

End FrameHistory.

Section ApiSurface.
Import Js Api.

Ltac run_fetch fetch :=
  match goal with
  | H : failed (fetch ?r) |- _ =>
      destruct (fetch r) as [[[] j]|e]; cbn in H |- *;
      try discriminate H; eauto
  end.

Example healthCheck_offline : healthCheck offline = Returned false.
Proof. reflexivity. Qed.

Example getContextWindow_offline : getContextWindow offline = Returned (num 10).
Proof. reflexivity. Qed.

Example getModels_offline : getModels offline = Thrown (TypeError "Failed to fetch").
Proof. reflexivity. Qed.

(** C7, as stated, fails: the liveness probe reports a failed request as
    [false] instead of propagating it. *)
Lemma healthCheck_swallows_failure :
  ¬ (∀ m fetch, failed (fetch (request_of m)) → throws (call m fetch)).
Proof.
  intros H. destruct (H HealthCheck offline I) as [e He]. discriminate He.
Qed.

(** C7, amended.  When the request of a method fails (the transport
    rejects or the status is not 2xx), every method propagates an
    exception to its caller, except [healthCheck], which returns [false],
    and [getContextWindow], which returns the fallback 10. *)
Theorem api_failure_contract (m : Method) (fetch : Fetch) :
  failed (fetch (request_of m)) →
  match m with
  | HealthCheck => call m fetch = Returned (JBool false)
  | GetContextWindow => call m fetch = Returned (num 10)
  | _ => throws (call m fetch)
  end.
Proof.
  intros H. unfold throws.
  destruct m; cbn in H |- *;
    unfold getModels, getSettings, queryVLM, queryVLMWithContext, startSession,
      getSessionStats, clearSession, healthCheck, getContextWindow,
      updateContextWindow, updateSummaryWindow, updateWindows;
    run_fetch fetch.
Qed.

Lemma api_failure_contract_witness :
  throws (call GetModels offline)
  ∧ call HealthCheck offline = Returned (JBool false)
  ∧ call GetContextWindow offline = Returned (num 10).
Proof.
  split; [|split].
  - exact (api_failure_contract GetModels offline I).
  - exact (api_failure_contract HealthCheck offline I).
  - exact (api_failure_contract GetContextWindow offline I).
Defined.

End ApiSurface.

Section CaptureFrame.
Import Js Camera.

Lemma split_no_sep sep s : occurs sep s = false → split sep s = [s].
Proof.
  induction s as [|c s IH]; cbn; [done|].
  case_decide; [done|]. intros Hs. by rewrite IH.
Qed.

Lemma split_header sep header rest :
  occurs sep header = false →
  split sep (header +:+ String sep rest) = header :: split sep rest.
Proof.
  induction header as [|c h IH].
  - intros _. change ("" +:+ String sep rest) with (String sep rest). cbn.
    case_decide; [done|congruence].
  - change (String c h +:+ String sep rest)
      with (String c (h +:+ String sep rest)). cbn.
    case_decide; [done|]. intros Hh. by rewrite IH.
Qed.

Example captureFrame_jpeg :
  captureFrame (Some sample_video)
    (Some (working_canvas "data:image/jpeg;base64,/9j/4AAQ")) true
  = Returned (JStr "/9j/4AAQ").
Proof. reflexivity. Qed.

Example captureFrame_empty_canvas :
  captureFrame (Some sample_video) (Some (working_canvas "data:,")) true
  = Returned (JStr "").
Proof. reflexivity. Qed.

Example captureFrame_tainted :
  captureFrame (Some sample_video) (Some tainted_canvas) true = Returned JNull.
Proof. reflexivity. Qed.

(** C10.  [captureFrame] never throws.  It returns [null] when the video
    or the canvas element is absent, when the camera is not streaming,
    when the 2D context is unavailable, and when getting the context,
    drawing or encoding throws.  Otherwise it returns what follows the
    comma of the data URL produced by the encoder: for a data URL
    [header,payload] it returns [payload]. *)
Theorem captureFrame_total (videoRef : option Video) (canvasRef : option Canvas)
    (isStreaming : bool) :
  (∃ v, captureFrame videoRef canvasRef isStreaming = Returned v)
  ∧ (videoRef = None ∨ canvasRef = None ∨ isStreaming = false →
     captureFrame videoRef canvasRef isStreaming = Returned JNull)
  ∧ (∀ video canvas,
       videoRef = Some video → canvasRef = Some canvas → isStreaming = true →
       (getContext canvas "2d" = Returned None ∨ throws (getContext canvas "2d") →
        captureFrame videoRef canvasRef isStreaming = Returned JNull)
       ∧ (∀ ctx, getContext canvas "2d" = Returned (Some ctx) →
          let w := videoWidth video in
          let h := videoHeight video in
          (throws (drawImage ctx video 0 0 w h)
           ∨ throws (toDataURL (resize w h canvas) "image/jpeg" (Q2Qc (8 # 10))) →
           captureFrame videoRef canvasRef isStreaming = Returned JNull)
          ∧ (∀ header payload,
               drawImage ctx video 0 0 w h = Returned () →
               toDataURL (resize w h canvas) "image/jpeg" (Q2Qc (8 # 10))
                 = Returned (header +:+ String comma payload) →
               occurs comma header = false → occurs comma payload = false →
               captureFrame videoRef canvasRef isStreaming
                 = Returned (JStr payload)))).
Proof.
  split; [|split].
  - unfold captureFrame.
    destruct videoRef as [video|], canvasRef as [canvas|], isStreaming; eauto.
    destruct (getContext canvas "2d") as [[ctx|]|e]; cbn; eauto.
    destruct (drawImage ctx video _ _ _ _) as [[]|e]; cbn; eauto.
    destruct (toDataURL _ _ _) as [u|e]; cbn; eauto.
  - intros [-> | [-> | ->]]; unfold captureFrame.
    + reflexivity.
    + by destruct videoRef.
    + by destruct videoRef, canvasRef.
  - intros video canvas -> -> ->. unfold captureFrame. split.
    + intros [-> | [e ->]]; reflexivity.
    + intros ctx ->. cbv zeta. cbn. split.
      * intros [[e ->] | [e He]]; [reflexivity|].
        destruct (drawImage ctx video _ _ _ _) as [[]|e']; cbn; [|reflexivity].
        cbn in He. by rewrite He.
      * intros header payload -> Hurl Hh Hp. cbn in Hurl |- *. rewrite Hurl. cbn.
        rewrite split_header by exact Hh. rewrite split_no_sep by exact Hp.
        reflexivity.
Qed.

Lemma captureFrame_total_witness :
  captureFrame (Some sample_video)
    (Some (working_canvas ("data:image/jpeg;base64" +:+ String comma "/9j/4AAQ")))
    true
  = Returned (JStr "/9j/4AAQ")
  ∧ captureFrame None (Some tainted_canvas) true = Returned JNull
  ∧ captureFrame (Some sample_video) (Some tainted_canvas) true = Returned JNull.
Proof.
  split; [|split].
  - pose proof (captureFrame_total (Some sample_video)
        (Some (working_canvas ("data:image/jpeg;base64" +:+ String comma "/9j/4AAQ")))
        true) as (_ & _ & H).
    destruct (H _ _ eq_refl eq_refl eq_refl) as [_ Hctx].
    destruct (Hctx _ eq_refl) as [_ Hurl].
    exact (Hurl "data:image/jpeg;base64" "/9j/4AAQ" eq_refl eq_refl eq_refl eq_refl).
  - pose proof (captureFrame_total None (Some tainted_canvas) true) as (_ & H & _).
    exact (H (or_introl eq_refl)).
  - pose proof (captureFrame_total (Some sample_video) (Some tainted_canvas) true)
      as (_ & _ & H).
    destruct (H _ _ eq_refl eq_refl eq_refl) as [_ Hctx].
    destruct (Hctx _ eq_refl) as [Hthrow _].
    exact (Hthrow (or_intror (ex_intro _ _ eq_refl))).
Defined.

End CaptureFrame.

Section Transport.
Import Js Ws.
Context {C : Type}.
Implicit Types (s : Sys C) (e : Event) (tr : list Event).

Lemma client_call_opt cb s :
  client (call_opt cb s) = apply_opt cb (client s).
Proof. by destruct cb. Qed.

Lemma svc_call_opt cb s : svc (call_opt cb s) = svc s.
Proof. by destruct cb. Qed.

Lemma browser_call_opt cb s : browser (call_opt cb s) = browser s.
Proof. by destruct cb. Qed.

Lemma svc_onmessage parsed s : svc (onmessage parsed s) = svc s.
Proof.
  unfold onmessage, handleMessage.
  destruct parsed as [m|x]; cbn; [|done].
  destruct (get m "type") as [t|x]; cbn; [|done].
  by destruct (handler_for t (svc s)).
Qed.

Lemma browser_onmessage parsed s : browser (onmessage parsed s) = browser s.
Proof.
  unfold onmessage, handleMessage.
  destruct parsed as [m|x]; cbn; [|done].
  destruct (get m "type") as [t|x]; cbn; [|done].
  by destruct (handler_for t (svc s)).
Qed.

(** The attempt counter after one event. *)
Lemma deliver_reconnectAttempts e s s' :
  deliver e s = Some s' →
  reconnectAttempts (svc s')
  = match e with
    | Open _ => 0
    | Close _ =>
        if decide (reconnectAttempts (svc s) < maxReconnectAttempts)
        then reconnectAttempts (svc s) + 1 else reconnectAttempts (svc s)
    | _ => reconnectAttempts (svc s)
    end.
Proof.
  destruct e as [id|id|id|id parsed|k]; cbn;
    destruct (_ !! _) as [x|]; cbn; try discriminate.
  - case_decide; [|discriminate]. intros [= <-]. unfold onopen. cbn.
    by rewrite svc_call_opt.
  - case_decide; [discriminate|]. intros [= <-].
    unfold onclose, attemptReconnect. rewrite !svc_call_opt. cbn.
    case_decide; cbn; [done|]. unfold signal_error. by rewrite !svc_call_opt.
  - case_decide; [discriminate|]. intros [= <-].
    unfold onerror, signal_error. cbn. by rewrite svc_call_opt.
  - case_decide; [|discriminate]. intros [= <-]. by rewrite svc_onmessage.
  - intros [= <-]. unfold reconnect_timer, connect. cbn. by case_match.
Qed.

Lemma closes_cons e tr :
  closes (e :: tr) = (if is_close e then 1 else 0) + closes tr.
Proof. unfold closes. by destruct e. Qed.

(** Closes in a row, counted from a reset counter, saturate at the cap. *)
Lemma run_reconnectAttempts tr : ∀ s s',
  reconnectAttempts (svc s) ≤ maxReconnectAttempts →
  forallb (λ e, negb (is_open e)) tr = true →
  run tr s = Some s' →
  reconnectAttempts (svc s')
  = Nat.min (reconnectAttempts (svc s) + closes tr) maxReconnectAttempts.
Proof.
  induction tr as [|e tr IH]; intros s s' Hle Hno Hrun.
  - cbn in Hrun. injection Hrun as <-. unfold closes. cbn. lia.
  - cbn in Hrun, Hno. apply andb_prop in Hno as [He Hno].
    destruct (deliver e s) as [s1|] eqn:Hd; [|discriminate]. cbn in Hrun.
    pose proof (deliver_reconnectAttempts _ _ _ Hd) as H1.
    assert (Hle1 : reconnectAttempts (svc s1) ≤ maxReconnectAttempts).
    { destruct e; try (rewrite H1; exact Hle); [discriminate|].
      rewrite H1. case_decide; lia. }
    rewrite (IH _ _ Hle1 Hno Hrun), closes_cons, H1.
    destruct e; cbn [is_close]; try reflexivity; [discriminate|].
    case_decide; lia.
Qed.

Lemma deliver_Close id s s' :
  deliver (Close id) s = Some s' →
  s' = onclose (with_browser (set_readyState id CLOSED (browser s)) s).
Proof.
  cbn. destruct (_ !! _) as [k|]; cbn; [|discriminate].
  case_decide; [discriminate|]. by intros [= <-].
Qed.

(** What [onclose] leaves behind, by the value of the attempt counter. *)
Lemma onclose_spec s :
  let a := reconnectAttempts (svc s) in
  let c := apply_opt (onDisconnect (svc s)) (client s) in
  if decide (a < maxReconnectAttempts) then
    reconnectAttempts (svc (onclose s)) = a + 1
    ∧ timeouts (browser (onclose s))
      = timeouts (browser s) ++ [reconnectDelay * (a + 1)]
    ∧ client (onclose s) = c
  else
    reconnectAttempts (svc (onclose s)) = a
    ∧ timeouts (browser (onclose s)) = timeouts (browser s)
    ∧ client (onclose s)
      = apply_opt ((λ f, f "Failed to reconnect after maximum attempts")
                     <$> onError (svc s)) c.
Proof.
  cbv zeta. unfold onclose, attemptReconnect. rewrite svc_call_opt.
  case_decide; cbn.
  - by rewrite browser_call_opt, client_call_opt.
  - unfold signal_error.
    by rewrite !svc_call_opt, !browser_call_opt, !client_call_opt.
Qed.

Lemma deliver_timeouts_exhausted e s s' :
  is_open e = false →
  reconnectAttempts (svc s) = maxReconnectAttempts →
  deliver e s = Some s' →
  length (timeouts (browser s')) ≤ length (timeouts (browser s)).
Proof.
  intros He Ha.
  destruct e as [id|id|id|id parsed|k]; [discriminate| | | |]; cbn;
    destruct (_ !! _) as [x|] eqn:Hx; cbn; try discriminate.
  - case_decide; [discriminate|]. intros [= <-].
    pose proof (onclose_spec
      (with_browser (set_readyState id CLOSED (browser s)) s)) as H1.
    cbv zeta in H1. cbn [svc with_browser] in H1. rewrite Ha in H1.
    rewrite decide_False in H1 by lia.
    destruct H1 as (_ & -> & _). done.
  - case_decide; [discriminate|]. intros [= <-].
    unfold onerror, signal_error, settle. cbn. rewrite browser_call_opt.
    by repeat case_match.
  - case_decide; [|discriminate]. intros [= <-]. by rewrite browser_onmessage.
  - intros [= <-]. unfold reconnect_timer, connect. cbn.
    case_match; cbn; rewrite length_delete; eauto; lia.
Qed.

Example backoff_delays :
  (s ← run [Close 0; Timeout 0; Close 1; Timeout 0; Close 2]
         (fst (connect recording_sys));
   Some (timeouts (browser s), reconnectAttempts (svc s)))
  = Some ([3000], 3).
Proof. reflexivity. Qed.

Example backoff_exhausted :
  (s ← run [Close 0; Timeout 0; Close 1; Timeout 0; Close 2; Timeout 0;
            Close 3; Timeout 0; Close 4; Timeout 0; Close 5]
         (fst (connect recording_sys));
   Some (timeouts (browser s), reconnectAttempts (svc s), head (client s)))
  = Some ([], 5, Some "Failed to reconnect after maximum attempts").
Proof. reflexivity. Qed.

(** C4.  Start from a reset attempt counter and let any events other
    than a successful open happen; the next close is then the n-th in a
    row, n being one more than the closes so far.  For n up to 5 that
    close schedules one reconnect timer with delay 1000 * n ms and sets
    the counter to n.  For n above 5 it schedules nothing and invokes
    the error callback exactly once.  With the counter at 5, no event
    other than an open schedules a timer or changes the counter, so a
    new attempt needs an explicit [connect()].  Every successful open
    resets the counter to zero. *)
Theorem reconnect_linear_backoff s s' s'' tr id :
  reconnectAttempts (svc s) = 0 →
  forallb (λ e, negb (is_open e)) tr = true →
  run tr s = Some s' →
  deliver (Close id) s' = Some s'' →
  let n := closes tr + 1 in
  let disconnected := apply_opt (onDisconnect (svc s')) (client s') in
  reconnectDelay = 1000 ∧ maxReconnectAttempts = 5
  ∧ (if decide (n ≤ 5) then
       reconnectAttempts (svc s'') = n
       ∧ timeouts (browser s'') = timeouts (browser s') ++ [1000 * n]
       ∧ client s'' = disconnected
     else
       reconnectAttempts (svc s'') = 5
       ∧ timeouts (browser s'') = timeouts (browser s')
       ∧ client s''
         = apply_opt ((λ f, f "Failed to reconnect after maximum attempts")
                        <$> onError (svc s')) disconnected)
  ∧ (∀ (t : Sys C) e (t' : Sys C),
       reconnectAttempts (svc t) = 5 → is_open e = false →
       deliver e t = Some t' →
       reconnectAttempts (svc t') = 5
       ∧ length (timeouts (browser t')) ≤ length (timeouts (browser t)))
  ∧ (∀ (t : Sys C) j (t' : Sys C),
       deliver (Open j) t = Some t' → reconnectAttempts (svc t') = 0).
Proof.
  intros H0 Hno Hrun Hclose. cbv zeta.
  split; [reflexivity|]. split; [reflexivity|]. split; [|split].
  - pose proof (run_reconnectAttempts tr s s') as Ha.
    rewrite H0 in Ha. specialize (Ha ltac:(unfold maxReconnectAttempts; lia) Hno Hrun).
    apply deliver_Close in Hclose as ->.
    pose proof (onclose_spec
      (with_browser (set_readyState id CLOSED (browser s')) s')) as H1.
    cbv zeta in H1. cbn [svc client browser with_browser] in H1.
    change (timeouts (set_readyState id CLOSED (browser s')))
      with (timeouts (browser s')) in H1.
    rewrite Ha in H1. unfold maxReconnectAttempts, reconnectDelay in *.
    repeat case_decide; try lia.
    + destruct H1 as (-> & -> & ->). split; [lia|]. split; [|done].
      do 2 f_equal. lia.
    + destruct H1 as (-> & -> & ->). split; [lia|]. done.
  - intros t e t' Ht He Hd. split.
    + rewrite (deliver_reconnectAttempts _ _ _ Hd).
      destruct e; try done. rewrite decide_False; [done|].
      rewrite Ht. unfold maxReconnectAttempts. lia.
    + by apply (deliver_timeouts_exhausted e).
  - intros t j t' Hd. by rewrite (deliver_reconnectAttempts _ _ _ Hd).
Qed.

Lemma close_spec id (b : Browser) k :
  sockets b !! id = Some k → readyState k ≠ CLOSED →
  sockets (close id b) !! id
  = Some {| readyState := CLOSING; promise := promise k |}
  ∧ length (sockets (close id b)) = length (sockets b)
  ∧ timeouts (close id b) = timeouts b
  ∧ promises (close id b) = promises b
  ∧ valid_url (close id b) = valid_url b.
Proof.
  intros Hk Hr. unfold close, readyState_of. rewrite Hk. cbn.
  destruct k as [[] p]; cbn in *; try done;
    rewrite ?list_lookup_alter_eq, ?length_alter, ?Hk; done.
Qed.

Example disconnect_then_close :
  (s ← run [Open 0] (fst (connect recording_sys));
   s' ← deliver (Close 0) (disconnect s);
   Some (ws (svc s'), timeouts (browser s'), reconnectAttempts (svc s')))
  = Some (None, [1000], 1).
Proof. reflexivity. Qed.

(** C9.  [disconnect()] leaves the close handler in place.  Every close
    event runs [onDisconnect] and then [attemptReconnect].  In particular,
    after [disconnect()] on a socket that is not yet closed, the socket's
    close event is still delivered; with the attempt counter below the
    maximum it increments the counter and schedules a reconnect timer,
    and that timer, when it fires, calls [connect()], which opens a new
    socket. *)
Theorem disconnect_does_not_stop_reconnect s id k :
  ws (svc s) = Some id →
  sockets (browser s) !! id = Some k →
  readyState k ≠ CLOSED →
  reconnectAttempts (svc s) < maxReconnectAttempts →
  (∀ (t : Sys C) j (t' : Sys C),
     deliver (Close j) t = Some t' →
     t' = attemptReconnect
            (call_opt (onDisconnect (svc t))
               (with_browser (set_readyState j CLOSED (browser t)) t)))
  ∧ ∃ s' s'',
      deliver (Close id) (disconnect s) = Some s'
      ∧ reconnectAttempts (svc s') = reconnectAttempts (svc s) + 1
      ∧ timeouts (browser s')
        = timeouts (browser s)
          ++ [reconnectDelay * (reconnectAttempts (svc s) + 1)]
      ∧ deliver (Timeout (length (timeouts (browser s)))) s' = Some s''
      ∧ (valid_url (browser s) (url (svc s)) = true →
         ws (svc s'') = Some (length (sockets (browser s)))
         ∧ readyState_of (length (sockets (browser s))) (browser s'')
           = Some CONNECTING).
Proof.
  intros Hws Hk Hr Ha. split.
  { intros t j t' Hd. by apply deliver_Close in Hd. }
  destruct (close_spec id (browser s) k Hk Hr) as (Hk' & Hlen & Ht & Hp & Hv).
  set (s1 := disconnect s).
  assert (Hs1 : s1 = with_svc (with_ws None (svc s))
                       (with_browser (close id (browser s)) s)).
  { unfold s1, disconnect. by rewrite Hws. }
  set (s' := onclose (with_browser (set_readyState id CLOSED (browser s1)) s1)).
  assert (Hd : deliver (Close id) s1 = Some s').
  { unfold s'. rewrite Hs1. cbn. rewrite Hk'. cbn. by rewrite decide_False. }
  pose proof (onclose_spec
    (with_browser (set_readyState id CLOSED (browser s1)) s1)) as H1.
  cbv zeta in H1. fold s' in H1. rewrite Hs1 in H1.
  cbn [svc client browser with_browser with_svc with_ws reconnectAttempts] in H1.
  rewrite decide_True in H1 by exact Ha.
  change (timeouts (set_readyState id CLOSED (close id (browser s))))
    with (timeouts (close id (browser s))) in H1.
  rewrite Ht in H1. destruct H1 as (Hatt & Htm & _).
  exists s'. eexists. split; [exact Hd|]. split; [exact Hatt|].
  split; [exact Htm|]. split.
  - cbn. rewrite Htm, list_lookup_middle by done. cbn. reflexivity.
  - intros Hurl. unfold reconnect_timer, connect. cbn.
    assert (Hb : valid_url (browser s') = valid_url (browser s)
                 ∧ url (svc s') = url (svc s)
                 ∧ length (sockets (browser s')) = length (sockets (browser s))).
    { unfold s', onclose, attemptReconnect. rewrite svc_call_opt. rewrite Hs1.
      cbn [svc with_browser with_svc with_ws reconnectAttempts].
      rewrite decide_True by exact Ha. cbn. rewrite browser_call_opt. cbn.
      rewrite Hv, length_alter, Hlen. done. }
    destruct Hb as (-> & -> & Hl). rewrite Hurl. cbn. rewrite Hl.
    split; [done|]. unfold readyState_of. cbn.
    rewrite <- Hl, list_lookup_middle by done. done.
Qed.

Lemma settle_pending p st (b : Browser) :
  promises b !! p = Some Pending → promises (settle p st b) !! p = Some st.
Proof.
  intros Hp. unfold settle. rewrite Hp. cbn.
  apply list_lookup_insert_eq. by apply lookup_lt_is_Some_1.
Qed.

Example connect_twice :
  (s ← run [Open 0] (fst (connect recording_sys));
   let s' := fst (connect s) in
   Some (ws (svc s), ws (svc s'), readyState <$> sockets (browser s')))
  = Some (Some 0, Some 1, [OPEN; CONNECTING]).
Proof. reflexivity. Qed.

(** C6, amended.  [connect()] closes nothing: every socket that exists
    keeps its state, whether or not [this.ws] refers to it.  When the
    constructor accepts the URL, a new socket in state CONNECTING is
    stored in [this.ws] and the returned promise is pending; when the
    constructor throws, the returned promise is rejected at once and
    [this.ws] is unchanged.  A pending promise is fulfilled by the open
    event of its socket and rejected by an error event of its socket. *)
Theorem connect_replaces_without_closing s :
  let s' := fst (connect s) in
  let p := snd (connect s) in
  let id := length (sockets (browser s)) in
  (∀ j k, sockets (browser s) !! j = Some k → sockets (browser s') !! j = Some k)
  ∧ (if valid_url (browser s) (url (svc s)) then
       ws (svc s') = Some id
       ∧ sockets (browser s') !! id
         = Some {| readyState := CONNECTING; promise := p |}
       ∧ promises (browser s') !! p = Some Pending
     else
       ws (svc s') = ws (svc s)
       ∧ sockets (browser s') = sockets (browser s)
       ∧ promises (browser s') !! p = Some Rejected)
  ∧ (∀ (t t' : Sys C) j k,
       sockets (browser t) !! j = Some k →
       promises (browser t) !! promise k = Some Pending →
       (deliver (Open j) t = Some t' →
        promises (browser t') !! promise k = Some Fulfilled)
       ∧ (deliver (Err j) t = Some t' →
          promises (browser t') !! promise k = Some Rejected)).
Proof.
  cbv zeta. unfold connect. split; [|split].
  - intros j k Hk. case_match; cbn; [|done]. by apply lookup_app_l_Some.
  - case_match; cbn.
    + split; [done|]. split; by rewrite list_lookup_middle.
    + split; [done|]. split; [done|]. by rewrite list_lookup_middle.
  - intros t t' j k Hk Hp. split; cbn; rewrite Hk; cbn.
    + case_decide; [|discriminate]. intros [= <-]. unfold onopen. cbn.
      rewrite browser_call_opt. cbn. by apply settle_pending.
    + case_decide; [discriminate|]. intros [= <-]. unfold onerror. cbn.
      unfold signal_error. rewrite browser_call_opt. by apply settle_pending.
Qed.

End Transport.

(** C6, as stated, fails: a [connect()] on a service whose socket is open
    leaves that socket open. *)
Lemma connect_leaves_old_socket_open :
  ¬ (∀ (s : Ws.Sys (list string)) id,
       Ws.ws (Ws.svc s) = Some id →
       Ws.readyState_of id (Ws.browser s) = Some Ws.OPEN →
       Ws.readyState_of id (Ws.browser (fst (Ws.connect s))) = Some Ws.CLOSING
       ∨ Ws.readyState_of id (Ws.browser (fst (Ws.connect s))) = Some Ws.CLOSED).
Proof.
  intros H.
  destruct (H Ws.connected_sys 0 eq_refl eq_refl) as [Hc | Hc]; discriminate Hc.
Qed.

Lemma connect_replaces_without_closing_witness :
  Ws.readyState_of 0 (Ws.browser (fst (Ws.connect Ws.connected_sys)))
  = Some Ws.OPEN
  ∧ ∃ s', Ws.deliver (Ws.Open 1) (fst (Ws.connect Ws.connected_sys)) = Some s'
          ∧ Ws.promises (Ws.browser s') !! 1 = Some Ws.Fulfilled.
Proof.
  pose proof (connect_replaces_without_closing Ws.connected_sys)
    as (Hold & _ & Hsettle).
  split.
  - unfold Ws.readyState_of. by rewrite (Hold 0 _ eq_refl).
  - eexists. split; [reflexivity|].
    exact (proj1 (Hsettle (fst (Ws.connect Ws.connected_sys)) _ 1
                    {| Ws.readyState := Ws.CONNECTING; Ws.promise := 1 |}
                    eq_refl eq_refl) eq_refl).
Defined.

Lemma disconnect_does_not_stop_reconnect_witness :
  ∃ s', Ws.deliver (Ws.Close 0) (Ws.disconnect Ws.connected_sys) = Some s'
        ∧ Ws.timeouts (Ws.browser s') = [1000].
Proof.
  pose proof (disconnect_does_not_stop_reconnect Ws.connected_sys 0 _
                eq_refl eq_refl ltac:(discriminate) ltac:(vm_compute; lia))
    as (_ & s' & s'' & Hd & _ & Ht & _).
  exists s'. split; [exact Hd|]. exact Ht.
Defined.

Lemma reconnect_linear_backoff_witness :
  ∃ s' s'',
    Ws.run [Ws.Err 0; Ws.Close 0; Ws.Timeout 0; Ws.Err 1]
      (fst (Ws.connect Ws.recording_sys)) = Some s'
    ∧ Ws.deliver (Ws.Close 1) s' = Some s''
    ∧ Ws.timeouts (Ws.browser s'') = [2000]
    ∧ Ws.reconnectAttempts (Ws.svc s'') = 2.
Proof.
  eexists _, _. split; [reflexivity|]. split; [reflexivity|].
  pose proof (reconnect_linear_backoff
    (fst (Ws.connect Ws.recording_sys)) _ _
    [Ws.Err 0; Ws.Close 0; Ws.Timeout 0; Ws.Err 1] 1
    eq_refl eq_refl eq_refl eq_refl) as (_ & _ & H & _).
  cbv zeta in H. rewrite decide_True in H by (vm_compute; lia).
  destruct H as (Ha & Ht & _). split; [exact Ht | exact Ha].
Defined.

Section Orchestrator.
Import Js Store App.

Lemma state_act f w : state (act f w) = f (state w).
Proof. reflexivity. Qed.

Lemma state_rerender a b : state (rerender a b) = state b.
Proof.
  unfold rerender, streaming_effect, streaming_cleanup.
  repeat case_match; reflexivity.
Qed.

Lemma state_rerender_effect w :
  state (streaming_effect (streaming_cleanup w)) = state w.
Proof.
  unfold streaming_effect, streaming_cleanup. repeat case_match; reflexivity.
Qed.

Lemma browser_rerender a b : browser (rerender a b) = browser b.
Proof.
  unfold rerender, streaming_effect, streaming_cleanup.
  repeat case_match; reflexivity.
Qed.

Lemma wsRef_rerender a b : wsRef (rerender a b) = wsRef b.
Proof.
  unfold rerender, streaming_effect, streaming_cleanup.
  repeat case_match; reflexivity.
Qed.



Lemma intervalRef_effect_cleanup w :
  intervalRef (streaming_effect (streaming_cleanup w))
  = if isStreaming (state w) && isConnected (state w)
       && negb (isProcessing (state w))
    then Some {| period := (delaySeconds (settings (state w)) * Q2Qc 1000)%Qc;
                 cb_isProcessing := isProcessing (state w);
                 cb_settings := settings (state w);
                 cb_currentSession := currentSession (state w);
                 cb_cameraIsStreaming := cameraIsStreaming w |}
    else None.
Proof.
  unfold streaming_effect, streaming_cleanup, state.
  destruct (intervalRef w) eqn:E; cbn; case_match; cbn; rewrite ?E; done.
Qed.

(** An unchanged dependency array leaves the interval alone. *)
Lemma rerender_same_deps a b : deps a = deps b → rerender a b = b.
Proof. intros H. unfold rerender. by rewrite decide_True. Qed.

(** A re-render keeps the interval sound, whatever the handler did to
    the store, as long as the handler itself left the interval alone. *)
Lemma rerender_armed_ok a b :
  armed_ok a → intervalRef b = intervalRef a → armed_ok (rerender a b).
Proof.
  intros Ha Hi cb. unfold rerender. case_decide as Hd.
  - rewrite Hi. intros Hcb. destruct (Ha cb Hcb) as [H1 H2]. split; [done|].
    unfold deps in Hd. injection Hd as _ _ <- _ _ _. done.
  - rewrite intervalRef_effect_cleanup, state_rerender_effect.
    destruct (isStreaming _ && isConnected _ && negb (isProcessing _)) eqn:E;
      [|discriminate].
    intros [= <-]. cbn. apply andb_prop in E as [_ E].
    by destruct (isProcessing _).
Qed.

Lemma with_service_send m w :
  client (with_service (Ws.send m) w) = client w
  ∧ intervalRef (with_service (Ws.send m) w) = intervalRef w
  ∧ outstanding (with_service (Ws.send m) w) = outstanding w
  ∧ (browser (with_service (Ws.send m) w) = browser w
     ∨ ∃ id, Ws.outbox (browser (with_service (Ws.send m) w))
             = Ws.outbox (browser w) ++ [(id, m)]).
Proof.
  unfold with_service, Ws.send.
  destruct (wsRef w) as [t|]; cbn; [|by auto].
  destruct (Ws.ws t) as [id|]; cbn; [|by auto].
  case_decide; cbn; eauto 6.
Qed.


Lemma interval_callback_cases cb v c w :
  interval_callback cb v c w = w
  ∨ (cb_isProcessing cb = false
     ∧ ∃ frameData,
         interval_callback cb v c w
         = with_service
             (Ws.queryVLM (query_params cb frameData (clock (client w))))
             (act (setProcessingStatus true) w)).
Proof.
  unfold interval_callback.
  destruct (cb_isProcessing cb); cbn; [by left|].
  case_bool_decide; cbn; [|by left].
  destruct (Camera.captureFrame _ _ _) as [frameData|]; [|by left].
  destruct (truthy frameData); [|by left].
  right. eauto.
Qed.

Lemma resume_init_frame w :
  browser (resume_init w) = browser w
  ∧ intervalRef (resume_init w) = intervalRef w
  ∧ outstanding (resume_init w) = outstanding w
  ∧ wsRef (resume_init w) = wsRef w.
Proof. unfold resume_init. repeat case_match; done. Qed.




Example second_tick_not_armed :
  run [("t4", camera_tick); ("t5", camera_tick)] streaming_world = None.
Proof. reflexivity. Qed.

Example three_responses_in_order :
  (w ← run [("t4", camera_tick); ("t5", success_response "1");
            ("t6", camera_tick); ("t7", success_response "2");
            ("t8", camera_tick); ("t9", success_response "3")] streaming_world;
   Some (frame_id <$> frameHistory (state w), outstanding w))
  = Some ([JStr "1"; JStr "2"; JStr "3"], 0).
Proof. reflexivity. Qed.

(** Outside the pacing loop: [handleStopAnalysis] clears the in-flight
    flag while a query is unanswered, so a stop followed by a start lets
    the next tick send a second query. *)
Remark stop_then_start_sends_again :
  (w ← run [("t4", camera_tick); ("t5", StopAnalysis); ("t6", StartAnalysis);
            ("t7", camera_tick)] streaming_world;
   Some (outstanding w))
  = Some 2.
Proof. reflexivity. Qed.

(** No handler touches the interval: only the streaming effect does. *)
Lemma handle_intervalRef e w w' :
  handle e w = Some w' → intervalRef w' = intervalRef w.
Proof.
  destruct e as [v c|e| | | | | |]; cbn -[resume_init].
  - destruct (intervalRef w) as [cb|] eqn:Hcb; cbn; [|discriminate].
    intros [= <-].
    destruct (interval_callback_cases cb v c w) as [-> | (_ & frameData & ->)];
      [done|].
    destruct (with_service_send
                (JObj (("type", JStr "vlm_query")
                         :: query_params cb frameData (clock (client w))))
                (act (setProcessingStatus true) w)) as (_ & Hi & _).
    rewrite <- Hcb. exact Hi.
  - destruct (wsRef w) as [t|]; cbn -[resume_init]; [|discriminate].
    destruct (Ws.deliver e _) as [s|]; cbn -[resume_init]; [|discriminate].
    intros [= <-].
    match goal with |- context [resume_init ?x] =>
      by destruct (resume_init_frame x) as (_ & -> & _) end.
  - intros [= <-]. unfold handleStartAnalysis. repeat case_match; try done.
    exact (proj1 (proj2 (with_service_send
      (JObj [("type", JStr "start_session"); ("session_id", JUndefined)]) w))).
  - by intros [= <-].
  - by intros [= <-].
  - by intros [= <-].
  - by intros [= <-].
  - by intros [= <-].
Qed.

(** So every event, a stop included, keeps an armed interval sound. *)
Lemma armed_ok_deliver now e w w' :
  armed_ok w → deliver now e w = Some w' → armed_ok w'.
Proof.
  intros Ha. unfold deliver.
  destruct (handle e (at_time now w)) as [w1|] eqn:Hh; cbn; [|discriminate].
  intros [= <-]. apply rerender_armed_ok; [exact Ha|].
  exact (handle_intervalRef _ _ _ Hh).
Qed.

(** The invariant holds when the component is mounted. *)
Lemma backpressure_mount fetch b now : backpressure (mount fetch b now).
Proof.
  assert (Hs : isStreaming (state (resume_init (initializeApp fetch (unmounted b now))))
               = false
             ∧ intervalRef (resume_init (initializeApp fetch (unmounted b now)))
               = None
             ∧ outstanding (resume_init (initializeApp fetch (unmounted b now)))
               = 0).
  { unfold resume_init, initializeApp, Ws.connect.
    repeat (case_match; cbn; try done). }
  destruct Hs as (Hs & Hi & Ho).
  unfold mount, streaming_effect. cbv zeta. rewrite Hs, Hi. cbn.
  split; [lia|]. split; [by intros _|]. intros cb. by rewrite Hi.
Qed.





Lemma resume_init_quiet w c :
  init_quiet w → resume_init (with_client c w) = with_client c w.
Proof.
  unfold init_quiet, resume_init. cbn.
  destruct (initPromise w) as [p|]; [|done]. by intros ->.
Qed.

(** What a [vlm_response] frame does to the world, up to the re-render. *)
Lemma deliver_vlm_response now id data w w' :
  wired w → init_quiet w →
  get data "type" = Returned (JStr "vlm_response") →
  deliver now (Socket (Ws.Message id (Returned data))) w = Some w' →
  state w' = store (on_vlm_response data {| store := state w; clock := now |}).
Proof.
  intros (t & Ht & Hh) Hq Hty. unfold deliver. cbn [handle].
  change (wsRef (at_time now w)) with (wsRef w). rewrite Ht.
  cbn -[resume_init Ws.onmessage].
  destruct (_ !! id) as [k|]; cbn -[resume_init Ws.onmessage]; [|discriminate].
  case_decide; [|discriminate]. cbn -[resume_init Ws.onmessage].
  intros [= <-]. rewrite state_rerender.
  unfold Ws.onmessage, Ws.handleMessage. cbn -[resume_init].
  rewrite Hty. cbn -[resume_init]. rewrite Hh. cbn -[resume_init].
  match goal with |- context [resume_init ?x] =>
    change x with (with_client
      (on_vlm_response data {| store := state w; clock := now |})
      (with_wsRef (Some t) w))
  end.
  rewrite resume_init_quiet; [reflexivity|exact Hq].
Qed.

Lemma on_vlm_response_success_error data st now :
  truthy (field data "success") = true →
  error (store (on_vlm_response data {| store := st; clock := now |}))
  = error st.
Proof. unfold on_vlm_response. by intros ->. Qed.

(** C3, amended.  When a [vlm_response] message reaches the handler
    registered by [initializeApp], the in-flight flag is cleared.  If
    its [success] field is truthy, a new record built from the payload is
    appended to the history (through [addFrame]), the temporal context
    is replaced by the payload's [temporal_context], and the error field
    is left as it was.  Otherwise the error field is set to the
    payload's [error], or to "VLM query failed" when that is missing or
    empty, and history and temporal context are unchanged. *)
Theorem vlm_response_routing now id data w w' :
  wired w → init_quiet w →
  get data "type" = Returned (JStr "vlm_response") →
  deliver now (Socket (Ws.Message id (Returned data))) w = Some w' →
  isProcessing (state w') = false
  ∧ if truthy (field data "success") then
      frameHistory (state w')
      = slice (-50) (frameHistory (state w) ++ [frame_of now data])
      ∧ temporalContext (state w') = field data "temporal_context"
      ∧ error (state w') = error (state w)
    else
      error (state w') = or_else (field data "error") (JStr "VLM query failed")
      ∧ frameHistory (state w') = frameHistory (state w)
      ∧ temporalContext (state w') = temporalContext (state w).
Proof.
  intros Hw Hq Hty Hd.
  rewrite (deliver_vlm_response _ _ _ _ _ Hw Hq Hty Hd).
  unfold on_vlm_response. destruct (truthy (field data "success")); done.
Qed.

(** C8.  For every state, stopping twice gives the same state as
    stopping once. *)
Theorem stop_idempotent w : stop (stop w) = stop w.
Proof.
  assert (Hfix : ∀ u, isStreaming (state u) = false →
                      isProcessing (state u) = false →
                      handleStopAnalysis u = u).
  { intros [[[] ?] ? ? ? ? ? ?]. cbn. by intros -> ->. }
  unfold stop at 1.
  rewrite Hfix.
  - by apply rerender_same_deps.
  - unfold stop. by rewrite state_rerender.
  - unfold stop. by rewrite state_rerender.
Qed.

Lemma reset_is_handler w : reset w = handleClearHistory w.
Proof. unfold reset. by apply rerender_same_deps. Qed.

Lemma ws_deliver_messageHandlers {C} e (s s' : Ws.Sys C) :
  Ws.deliver e s = Some s' →
  Ws.messageHandlers (Ws.svc s') = Ws.messageHandlers (Ws.svc s).
Proof.
  destruct e as [id|id|id|id parsed|k]; cbn;
    destruct (_ !! _) as [x|]; cbn; try discriminate.
  - case_decide; [|discriminate]. intros [= <-]. unfold Ws.onopen. cbn.
    by rewrite svc_call_opt.
  - case_decide; [discriminate|]. intros [= <-].
    unfold Ws.onclose, Ws.attemptReconnect. rewrite !svc_call_opt. cbn.
    case_decide; cbn; [done|]. unfold Ws.signal_error. by rewrite !svc_call_opt.
  - case_decide; [discriminate|]. intros [= <-].
    unfold Ws.onerror, Ws.signal_error. cbn. by rewrite svc_call_opt.
  - case_decide; [|discriminate]. intros [= <-]. by rewrite svc_onmessage.
  - intros [= <-]. unfold Ws.reconnect_timer, Ws.connect. cbn. by case_match.
Qed.

Lemma wired_with_service_send m w :
  wired w → wired (with_service (Ws.send m) w).
Proof.
  intros (t & Ht & Hh). unfold wired, with_service, Ws.send. rewrite Ht. cbn.
  destruct (Ws.ws t); cbn; [case_decide; cbn|]; eauto.
Qed.

Lemma wired_deliver now e w w' :
  wired w → deliver now e w = Some w' → wired w'.
Proof.
  intros Hw. unfold deliver.
  destruct (handle e (at_time now w)) as [w1|] eqn:Hh; cbn; [|discriminate].
  intros [= <-]. unfold wired. rewrite wsRef_rerender.
  change (wsRef (account e (at_time now w) w1)) with (wsRef w1).
  assert (Hw0 : wired (at_time now w)) by exact Hw.
  destruct e as [v c|e| | | | | |]; cbn -[resume_init] in Hh.
  - destruct (intervalRef w) as [cb|]; cbn in Hh; [|discriminate].
    injection Hh as <-.
    destruct (interval_callback_cases cb v c (at_time now w))
      as [-> | (_ & frameData & ->)]; [exact Hw|].
    apply (wired_with_service_send _ (act (setProcessingStatus true) (at_time now w))).
    exact Hw.
  - destruct Hw as (t & Ht & Hl). rewrite Ht in Hh. cbn -[resume_init] in Hh.
    destruct (Ws.deliver e _) as [s|] eqn:Hs; cbn -[resume_init] in Hh;
      [|discriminate].
    injection Hh as <-.
    match goal with |- context [resume_init ?x] =>
      destruct (resume_init_frame x) as (_ & _ & _ & ->) end.
    cbn. eexists. split; [reflexivity|].
    by rewrite (ws_deliver_messageHandlers _ _ _ Hs).
  - injection Hh as <-. unfold handleStartAnalysis.
    case_match; [exact Hw|]. case_match; [|exact Hw].
    exact (wired_with_service_send
             (JObj [("type", JStr "start_session"); ("session_id", JUndefined)])
             _ Hw0).
  - injection Hh as <-. exact Hw.
  - injection Hh as <-. exact Hw.
  - injection Hh as <-. exact Hw.
  - injection Hh as <-. exact Hw.
  - injection Hh as <-. exact Hw.
Qed.

Lemma wired_run tr : ∀ w w', wired w → run tr w = Some w' → wired w'.
Proof.
  induction tr as [|[now e] tr IH]; intros w w' Hw Hr; cbn in Hr.
  - by injection Hr as <-.
  - destruct (deliver now e w) as [w1|] eqn:Hd; [|discriminate].
    eapply IH; [|exact Hr]. by eapply wired_deliver.
Qed.

Lemma wired_after tr w : wired w → wired (after tr w).
Proof.
  intros Hw. unfold after. destruct (run tr w) as [w'|] eqn:E; [|exact Hw].
  by eapply wired_run.
Qed.

Lemma wired_mount_online now : wired (mount online Ws.fresh_browser now).
Proof. eexists. split; reflexivity. Qed.

Lemma wired_streaming_world : wired streaming_world.
Proof. unfold streaming_world. apply wired_after, wired_mount_online. Qed.

Lemma wired_errored_world : wired errored_world.
Proof. unfold errored_world. apply wired_after, wired_streaming_world. Qed.

Lemma init_quiet_errored_world : init_quiet errored_world.
Proof. vm_compute. exact I. Qed.


Lemma success_after_error_runs :
  is_Some (deliver "t7" (success_response "2") errored_world).
Proof.
  assert (H : (if deliver "t7" (success_response "2") errored_world is Some _
               then true else false) = true) by (vm_compute; reflexivity).
  destruct (deliver _ _ _) as [w'|]; [by exists w'|discriminate H].
Qed.

(** C3, as stated, fails: a successful response leaves an error that
    was set before it in place. *)
Lemma success_keeps_error :
  ¬ (∀ now id data w w',
       wired w → init_quiet w →
       get data "type" = Returned (JStr "vlm_response") →
       truthy (field data "success") = true →
       deliver now (Socket (Ws.Message id (Returned data))) w = Some w' →
       error (state w') = JNull).
Proof.
  intros H. destruct success_after_error_runs as [w' Hd].
  pose proof (H "t7" 0 (success_data "2") errored_world w'
                wired_errored_world init_quiet_errored_world
                eq_refl eq_refl Hd) as Hnull.
  rewrite (deliver_vlm_response "t7" 0 (success_data "2") errored_world w'
             wired_errored_world init_quiet_errored_world eq_refl Hd) in Hnull.
  rewrite on_vlm_response_success_error in Hnull by reflexivity.
  assert (Herr : error (state errored_world) = JStr "model unavailable")
    by (vm_compute; reflexivity).
  rewrite Herr in Hnull. discriminate Hnull.
Qed.

Lemma vlm_response_routing_witness :
  ∃ w', deliver "t7" (success_response "2") errored_world = Some w'
        ∧ isProcessing (state w') = false
        ∧ temporalContext (state w') = field (success_data "2") "temporal_context".
Proof.
  destruct success_after_error_runs as [w' Hd]. exists w'.
  split; [exact Hd|].
  pose proof (vlm_response_routing "t7" 0 (success_data "2") errored_world w'
                wired_errored_world init_quiet_errored_world eq_refl Hd)
    as (Hp & Hr).
  change (truthy (field (success_data "2") "success")) with true in Hr.
  destruct Hr as (_ & Ht & _). split; [exact Hp | exact Ht].
Defined.

Lemma interval_callback_browser cb v c u u' :
  wsRef u = wsRef u' → browser u = browser u' →
  clock (client u) = clock (client u') →
  browser (interval_callback cb v c u) = browser (interval_callback cb v c u').
Proof.
  intros Hw Hb Hc. unfold interval_callback. rewrite Hw.
  repeat case_match; try done.
  unfold with_service, act. cbn. rewrite Hw, Hb, Hc.
  destruct (wsRef u'); cbn; [|done]. unfold Ws.queryVLM, Ws.send. cbn.
  repeat case_match; done.
Qed.

(** C5, amended.  [handleClearHistory] empties the frame history and
    sets the temporal context and the session statistics to null.  It
    leaves the session id, the connection flag, the streaming and
    in-flight flags, the settings, the error, the armed interval, the
    service and every socket unchanged; in particular the pacer stays
    armed, and the next tick hands the socket the same messages, with the
    same session id, as it would have without the reset. *)
Theorem reset_effects w :
  let w' := reset w in
  frameHistory (state w') = []
  ∧ temporalContext (state w') = JNull
  ∧ sessionStats (state w') = JNull
  ∧ currentSession (state w') = currentSession (state w)
  ∧ isConnected (state w') = isConnected (state w)
  ∧ isStreaming (state w') = isStreaming (state w)
  ∧ isProcessing (state w') = isProcessing (state w)
  ∧ settings (state w') = settings (state w)
  ∧ error (state w') = error (state w)
  ∧ intervalRef w' = intervalRef w
  ∧ wsRef w' = wsRef w
  ∧ browser w' = browser w
  ∧ ∀ now v c,
      browser <$> deliver now (Tick v c) w' = browser <$> deliver now (Tick v c) w.
Proof.
  cbv zeta. rewrite reset_is_handler. repeat (split; [reflexivity|]).
  intros now v c. unfold deliver. cbn [handle].
  change (intervalRef (at_time now (handleClearHistory w))) with (intervalRef w).
  change (intervalRef (at_time now w)) with (intervalRef w).
  destruct (intervalRef w) as [cb|]; cbn; [|done].
  rewrite !browser_rerender. f_equal.
  change (browser (account ?e ?a ?b)) with (browser b).
  by apply interval_callback_browser.
Qed.

Lemma streaming_world_armed : is_Some (intervalRef (reset streaming_world)).
Proof.
  assert (H : (if intervalRef (reset streaming_world) is Some _
               then true else false) = true) by (vm_compute; reflexivity).
  destruct (intervalRef _) as [cb|]; [by exists cb|discriminate H].
Qed.

(** C5, as stated, fails: a reset while streaming leaves the interval
    armed. *)
Lemma reset_leaves_pacer_armed : ¬ (∀ w, intervalRef (reset w) = None).
Proof.
  intros H. destruct streaming_world_armed as [cb Hcb].
  rewrite H in Hcb. discriminate Hcb.
Qed.

Example stop_twice :
  intervalRef (stop streaming_world) = None
  ∧ isStreaming (state (stop streaming_world)) = false.
Proof. split; vm_compute; reflexivity. Qed.

End Orchestrator.

Section TransportSend.
Import Js Ws.
Context {C : Type}.
Implicit Types (s : Sys C) (e : Event) (tr : list Event).

(** X1.  [send] transmits exactly when [isConnected()] holds: on an open
    socket the message is handed to that socket, once, after everything
    queued before it, and nothing else changes; otherwise the call has
    no effect at all (the message is dropped, not queued for later). *)
Theorem send_iff_connected (m : Json) s :
  if isConnected s then
    ∃ id, ws (svc s) = Some id
          ∧ outbox (browser (send m s)) = outbox (browser s) ++ [(id, m)]
          ∧ svc (send m s) = svc s ∧ client (send m s) = client s
          ∧ sockets (browser (send m s)) = sockets (browser s)
          ∧ timeouts (browser (send m s)) = timeouts (browser s)
  else send m s = s.
Proof.
  unfold isConnected, send. destruct (ws (svc s)) as [id|]; [|done].
  case_bool_decide as H.
  - rewrite decide_True by done. by exists id.
  - by rewrite decide_False.
Qed.

Lemma outbox_call_opt cb s : outbox (browser (call_opt cb s)) = outbox (browser s).
Proof. by rewrite browser_call_opt. Qed.

Lemma deliver_outbox e s s' :
  deliver e s = Some s' → outbox (browser s') = outbox (browser s).
Proof.
  destruct e as [id|id|id|id parsed|k]; cbn;
    destruct (_ !! _) as [x|]; cbn; try discriminate.
  - case_decide; [|discriminate]. intros [= <-]. unfold onopen, settle. cbn.
    rewrite browser_call_opt. cbn. by repeat case_match.
  - case_decide; [discriminate|]. intros [= <-].
    unfold onclose, attemptReconnect. rewrite !svc_call_opt. cbn.
    case_decide; cbn; [by rewrite browser_call_opt|].
    unfold signal_error. by rewrite !browser_call_opt.
  - case_decide; [discriminate|]. intros [= <-].
    unfold onerror, signal_error, settle. cbn. rewrite browser_call_opt.
    by repeat case_match.
  - case_decide; [|discriminate]. intros [= <-]. by rewrite browser_onmessage.
  - intros [= <-]. unfold reconnect_timer, connect. cbn. by case_match.
Qed.

(** X2.  The service never sends on its own: over any sequence of socket
    events and reconnect timers (open, close, error, inbound message,
    reconnection) the messages handed to the sockets stay exactly as
    they were. *)
Theorem events_never_send tr : ∀ s s',
  run tr s = Some s' → outbox (browser s') = outbox (browser s).
Proof.
  induction tr as [|e tr IH]; intros s s' Hr; cbn in Hr.
  - by injection Hr as <-.
  - destruct (deliver e s) as [s1|] eqn:Hd; [|discriminate]. cbn in Hr.
    rewrite (IH _ _ Hr). by apply (deliver_outbox e).
Qed.

End TransportSend.

Section TransportEvents.
Import Js Ws.
Context {C : Type}.
Implicit Types (s : Sys C) (e : Event) (tr : list Event).


(** X4.  An inbound frame that does not parse, a message whose [type]
    cannot be read, and a message of a type no handler is registered for
    are dropped: the state after the event is the state before it. *)
Theorem unroutable_message_dropped id parsed s s' :
  deliver (Message id parsed) s = Some s' →
  match parsed with
  | Thrown _ => True
  | Returned data =>
      match get data "type" with
      | Thrown _ => True
      | Returned type => handler_for type (svc s) = None
      end
  end →
  s' = s.
Proof.
  cbn. destruct (_ !! id) as [k|]; cbn; [|discriminate].
  case_decide; [|discriminate]. intros [= <-].
  unfold onmessage, handleMessage.
  destruct parsed as [data|x]; cbn; [|done].
  destruct (get data "type") as [type|x]; cbn; [|done].
  by intros ->.
Qed.

Lemma pending_app (l : list nat) d :
  Forall backoff_delay l → backoff_delay d → Forall backoff_delay (l ++ [d]).
Proof. intros Hl Hd. apply Forall_app. split; [done|]. by constructor. Qed.

Lemma deliver_bounds e s s' :
  reconnectAttempts (svc s) ≤ maxReconnectAttempts →
  Forall backoff_delay (timeouts (browser s)) →
  deliver e s = Some s' →
  reconnectAttempts (svc s') ≤ maxReconnectAttempts
  ∧ Forall backoff_delay (timeouts (browser s')).
Proof.
  intros Ha Ht Hd. split.
  - rewrite (deliver_reconnectAttempts _ _ _ Hd).
    destruct e; try done; [lia|]. case_decide; lia.
  - revert Hd.
    destruct e as [id|id|id|id parsed|k]; cbn;
      destruct (_ !! _) as [x|] eqn:Hx; cbn; try discriminate.
    + case_decide; [|discriminate]. intros [= <-]. unfold onopen, settle. cbn.
      rewrite browser_call_opt. cbn. by repeat case_match.
    + case_decide; [discriminate|]. intros [= <-].
      pose proof (onclose_spec
        (with_browser (set_readyState id CLOSED (browser s)) s)) as H1.
      cbv zeta in H1. cbn [svc with_browser browser] in H1.
      change (timeouts (set_readyState id CLOSED (browser s)))
        with (timeouts (browser s)) in H1.
      case_decide.
      * destruct H1 as (_ & -> & _). apply pending_app; [done|].
        exists (reconnectAttempts (svc s) + 1). split; [lia|done].
      * by destruct H1 as (_ & -> & _).
    + case_decide; [discriminate|]. intros [= <-].
      unfold onerror, signal_error, settle. cbn. rewrite browser_call_opt.
      by repeat case_match.
    + case_decide; [|discriminate]. intros [= <-]. by rewrite browser_onmessage.
    + intros [= <-]. unfold reconnect_timer, connect. cbn.
      assert (Hdel : Forall backoff_delay (delete k (timeouts (browser s))))
        by (by apply Forall_delete).
      by case_match.
Qed.

(** X5.  Starting within the budget, over any sequence of events the
    attempt counter never exceeds 5, and every pending reconnect timer
    has a delay of [1000 * n] milliseconds with [n] between 1 and 5. *)
Theorem reconnect_budget_bounds tr : ∀ s s',
  reconnectAttempts (svc s) ≤ maxReconnectAttempts →
  Forall backoff_delay (timeouts (browser s)) →
  run tr s = Some s' →
  reconnectAttempts (svc s') ≤ 5
  ∧ ∀ d, d ∈ timeouts (browser s') → 1000 ≤ d ≤ 5000 ∧ ∃ n, d = 1000 * n.
Proof.
  induction tr as [|e tr IH]; intros s s' Ha Ht Hr; cbn in Hr.
  - injection Hr as <-. split; [exact Ha|].
    intros d Hd. rewrite list.Forall_forall in Ht.
    destruct (Ht d Hd) as (n & Hn & ->).
    unfold maxReconnectAttempts, reconnectDelay in *. split; [lia|by exists n].
  - destruct (deliver e s) as [s1|] eqn:Hd; [|discriminate]. cbn in Hr.
    destruct (deliver_bounds _ _ _ Ha Ht Hd) as [Ha1 Ht1].
    exact (IH _ _ Ha1 Ht1 Hr).
Qed.

Lemma live_count_alter (f : Socket → Socket) (l : list Socket) i k :
  l !! i = Some k →
  length (filter is_live (alter f i l)) + (if is_live k then 1 else 0)
  = length (filter is_live l) + (if is_live (f k) then 1 else 0).
Proof.
  revert i. induction l as [|x l IH]; intros [|i] Hk; try discriminate.
  - injection Hk as ->. change (alter f 0 (k :: l)) with (f k :: l).
    rewrite !filter_cons.
    destruct (is_live k), (is_live (f k)); cbn;
      repeat case_decide; cbn; try done; lia.
  - cbn in Hk. specialize (IH i Hk).
    change (alter f (S i) (x :: l)) with (x :: alter f i l).
    rewrite !filter_cons. case_decide; cbn; lia.
Qed.

Lemma live_connect s :
  live (browser (fst (connect s))) ≤ S (live (browser s)).
Proof.
  unfold connect, live. case_match; cbn -[filter]; [|lia].
  rewrite list.filter_app, length_app.
  match goal with |- context [length (filter ?P [?x])] =>
    pose proof (length_filter P [x]) as H1 end.
  cbn [length] in H1. lia.
Qed.

Lemma live_settle p st (b : Browser) : live (settle p st b) = live b.
Proof. unfold settle. by repeat case_match. Qed.

Lemma live_set_readyState id r (b : Browser) k :
  sockets b !! id = Some k →
  live (set_readyState id r b) + (if is_live k then 1 else 0)
  = live b + (if is_live {| readyState := r; promise := promise k |} then 1 else 0).
Proof.
  intros Hk. unfold live, set_readyState. cbn [sockets with_sockets timeouts].
  pose proof (live_count_alter
    (λ k, {| readyState := r; promise := promise k |}) _ _ _ Hk) as H.
  cbv beta in H. lia.
Qed.

Lemma deliver_live e s s' :
  deliver e s = Some s' → live (browser s') ≤ live (browser s).
Proof.
  destruct e as [id|id|id|id parsed|k]; cbn [deliver];
    destruct (_ !! _) as [x|] eqn:Hx; cbn [mbind option_bind]; try discriminate.
  - case_decide as Hr; [|discriminate]. intros [= <-]. unfold onopen.
    cbn [browser with_browser]. rewrite live_settle, browser_call_opt.
    cbn [browser with_browser with_svc].
    pose proof (live_set_readyState id OPEN _ _ Hx) as H.
    assert (Hk : is_live x = true) by (unfold is_live; by rewrite Hr).
    rewrite Hk in H.
    change (is_live {| readyState := OPEN; promise := promise x |})
      with true in H. cbv iota in H. lia.
  - case_decide as Hr; [discriminate|]. intros [= <-].
    pose proof (onclose_spec
      (with_browser (set_readyState id CLOSED (browser s)) s)) as H1.
    cbv zeta in H1. cbn [svc with_browser browser] in H1.
    assert (Hs : sockets (browser (onclose
                   (with_browser (set_readyState id CLOSED (browser s)) s)))
                 = sockets (set_readyState id CLOSED (browser s))).
    { unfold onclose, attemptReconnect, signal_error. rewrite svc_call_opt.
      cbn [svc with_browser]. case_decide; cbn [browser with_browser with_svc];
        rewrite ?browser_call_opt; reflexivity. }
    pose proof (live_set_readyState id CLOSED _ _ Hx) as H.
    assert (Hk : is_live x = true)
      by (unfold is_live; by rewrite (bool_decide_eq_false_2 _ Hr)).
    rewrite Hk in H.
    change (is_live {| readyState := CLOSED; promise := promise x |})
      with false in H. cbv iota in H.
    unfold live in *. rewrite Hs.
    case_decide; destruct H1 as (_ & -> & _); rewrite ?length_app;
      cbn [length]; lia.
  - case_decide; [discriminate|]. intros [= <-].
    unfold onerror. cbn [browser with_browser]. rewrite live_settle.
    unfold signal_error. by rewrite browser_call_opt.
  - case_decide; [|discriminate]. intros [= <-]. by rewrite browser_onmessage.
  - intros [= <-]. unfold reconnect_timer.
    match goal with |- context [connect ?x] => pose proof (live_connect x) as H end.
    etrans; [exact H|]. unfold live. cbn [browser with_browser timeouts with_timeouts sockets].
    rewrite length_delete by (by eexists).
    apply lookup_lt_Some in Hx. lia.
Qed.

(** X6.  Reconnection replaces connections, it does not add to them: the
    number of sockets not yet closed plus the number of pending
    reconnect timers never grows under any sequence of events. *)
Theorem reconnect_never_multiplies tr : ∀ s s',
  run tr s = Some s' → live (browser s') ≤ live (browser s).
Proof.
  induction tr as [|e tr IH]; intros s s' Hr; cbn in Hr.
  - by injection Hr as <-.
  - destruct (deliver e s) as [s1|] eqn:Hd; [|discriminate]. cbn in Hr.
    etrans; [exact (IH _ _ Hr)|]. by apply (deliver_live e).
Qed.

End TransportEvents.

Section ReachableStates.
Import Js Store App.

Lemma run_app tr1 tr2 w :
  run (tr1 ++ tr2) w = (w1 ← run tr1 w; run tr2 w1).
Proof.
  revert w. induction tr1 as [|[now e] tr1 IH]; intros w; cbn; [done|].
  destruct (deliver now e w) as [w1|]; cbn; [apply IH|done].
Qed.

Lemma reachable_mount fetch b now : reachable (mount fetch b now).
Proof. by exists fetch, b, now, []. Qed.

Lemma reachable_run tr w w' : reachable w → run tr w = Some w' → reachable w'.
Proof.
  intros (fetch & b & now & tr0 & H0) Hr. exists fetch, b, now, (tr0 ++ tr).
  rewrite run_app, H0. exact Hr.
Qed.

Lemma reachable_deliver now e w w' :
  reachable w → deliver now e w = Some w' → reachable w'.
Proof.
  intros Hw Hd. apply (reachable_run [(now, e)] w); [done|]. cbn. by rewrite Hd.
Qed.

(** *** The interval follows the store *)

Lemma pacer_of_deps a b : deps a = deps b → pacer_of a = pacer_of b.
Proof.
  unfold deps, pacer_of. intros [= H1 H2 H3 H4 H5 H6].
  by rewrite H1, H2, H3, H4, H5, H6.
Qed.

Lemma coherent_rerender a b :
  coherent a → intervalRef b = intervalRef a → coherent (rerender a b).
Proof.
  unfold coherent, rerender. intros Ha Hi. case_decide as Hd.
  - rewrite Hi, Ha. by apply pacer_of_deps.
  - rewrite intervalRef_effect_cleanup. unfold pacer_of.
    rewrite state_rerender_effect.
    unfold streaming_effect, streaming_cleanup. by repeat case_match.
Qed.

Lemma coherent_deliver now e w w' :
  coherent w → deliver now e w = Some w' → coherent w'.
Proof.
  intros Hc. unfold deliver.
  destruct (handle e (at_time now w)) as [w1|] eqn:Hh; cbn; [|discriminate].
  intros [= <-]. apply coherent_rerender; [exact Hc|].
  exact (handle_intervalRef _ _ _ Hh).
Qed.

Lemma mount_idle fetch b now :
  isStreaming (state (mount fetch b now)) = false
  ∧ intervalRef (mount fetch b now) = None.
Proof.
  assert (Hs : isStreaming (state (resume_init (initializeApp fetch (unmounted b now))))
               = false
             ∧ intervalRef (resume_init (initializeApp fetch (unmounted b now)))
               = None).
  { unfold resume_init, initializeApp, Ws.connect.
    repeat (case_match; cbn; try done). }
  destruct Hs as (Hs & Hi).
  unfold mount, streaming_effect. cbv zeta. unfold state in *. rewrite Hs, Hi. cbn.
  by rewrite Hs.
Qed.

Lemma coherent_mount fetch b now : coherent (mount fetch b now).
Proof.
  destruct (mount_idle fetch b now) as [Hs Hi].
  unfold coherent, pacer_of. by rewrite Hi, Hs.
Qed.

End ReachableStates.

Section ServiceWiring.
Import Js Store App.

(** *** The service keeps its wiring *)

Lemma ws_deliver_wiring {C} e (s s' : Ws.Sys C) :
  Ws.deliver e s = Some s' →
  Ws.messageHandlers (Ws.svc s') = Ws.messageHandlers (Ws.svc s)
  ∧ Ws.onConnect (Ws.svc s') = Ws.onConnect (Ws.svc s)
  ∧ Ws.onDisconnect (Ws.svc s') = Ws.onDisconnect (Ws.svc s)
  ∧ Ws.onError (Ws.svc s') = Ws.onError (Ws.svc s)
  ∧ Ws.url (Ws.svc s') = Ws.url (Ws.svc s).
Proof.
  destruct e as [id|id|id|id parsed|k]; cbn;
    destruct (_ !! _) as [x|]; cbn; try discriminate.
  - case_decide; [|discriminate]. intros [= <-]. unfold Ws.onopen. cbn.
    by rewrite svc_call_opt.
  - case_decide; [discriminate|]. intros [= <-].
    unfold Ws.onclose, Ws.attemptReconnect. rewrite !svc_call_opt. cbn.
    case_decide; cbn; [done|]. unfold Ws.signal_error. by rewrite !svc_call_opt.
  - case_decide; [discriminate|]. intros [= <-].
    unfold Ws.onerror, Ws.signal_error. cbn. by rewrite svc_call_opt.
  - case_decide; [|discriminate]. intros [= <-]. by rewrite svc_onmessage.
  - intros [= <-]. unfold Ws.reconnect_timer, Ws.connect. cbn. by case_match.
Qed.

Lemma wsRef_with_service_send m w :
  wsRef (with_service (Ws.send m) w) = wsRef w.
Proof.
  unfold with_service, Ws.send. destruct (wsRef w) as [t|] eqn:Ht; cbn; [|done].
  destruct (Ws.ws t) eqn:E; cbn; [case_decide|]; cbn; done.
Qed.

(** What a handler does to the service reference. *)
Lemma handle_wsRef e w w1 :
  handle e w = Some w1 →
  wsRef w1 = wsRef w
  ∨ ∃ e' t s, e = Socket e' ∧ wsRef w = Some t
              ∧ Ws.deliver e' {| Ws.svc := t; Ws.browser := browser w;
                                 Ws.client := client w |} = Some s
              ∧ wsRef w1 = Some (Ws.svc s).
Proof.
  destruct e as [v c|e| | | | | |]; cbn -[resume_init].
  - destruct (intervalRef w) as [cb|]; cbn; [|discriminate]. intros [= <-]. left.
    destruct (interval_callback_cases cb v c w) as [-> | (_ & frameData & ->)];
      [done|].
    exact (wsRef_with_service_send _ (act (setProcessingStatus true) w)).
  - destruct (wsRef w) as [t|] eqn:Ht; cbn -[resume_init]; [|discriminate].
    destruct (Ws.deliver e _) as [s|] eqn:Hs; cbn -[resume_init]; [|discriminate].
    intros [= <-]. right. exists e, t, s. repeat (split; [done|]).
    match goal with |- context [resume_init ?x] =>
      by destruct (resume_init_frame x) as (_ & _ & _ & ->) end.
  - intros [= <-]. left. unfold handleStartAnalysis. repeat case_match; try done.
    exact (wsRef_with_service_send _ w).
  - intros [= <-]. by left.
  - intros [= <-]. by left.
  - intros [= <-]. by left.
  - intros [= <-]. by left.
  - intros [= <-]. by left.
Qed.

Lemma serviced_deliver now e w w' :
  serviced w → deliver now e w = Some w' → serviced w'.
Proof.
  intros Hw. unfold deliver.
  destruct (handle e (at_time now w)) as [w1|] eqn:Hh; cbn; [|discriminate].
  intros [= <-]. unfold serviced. rewrite wsRef_rerender.
  change (wsRef (account e (at_time now w) w1)) with (wsRef w1).
  destruct (handle_wsRef _ _ _ Hh) as [-> | (e' & t & s & _ & Ht & Hs & ->)].
  - exact Hw.
  - intros t' [= <-]. specialize (Hw t Ht).
    destruct (ws_deliver_wiring _ _ _ Hs) as (H1 & H2 & H3 & H4 & H5).
    destruct Hw as (G1 & G2 & G3 & G4 & G5). cbn in *.
    unfold app_wiring. by rewrite H1, H2, H3, H4, H5.
Qed.

Lemma serviced_mount fetch b now : serviced (mount fetch b now).
Proof.
  unfold serviced, mount, streaming_effect, resume_init, initializeApp, init_failed,
    Ws.connect.
  intros t. repeat (case_match; cbn; try done); intros [= <-]; done.
Qed.

End ServiceWiring.

Section StartupPromise.
Import Js Store App.

(** *** The suspended initialisation *)

Lemma settle_is_Some q st (b : Ws.Browser) p :
  is_Some (Ws.promises b !! p) → is_Some (Ws.promises (Ws.settle q st b) !! p).
Proof.
  unfold Ws.settle. repeat case_match; try done. cbn.
  rewrite !lookup_lt_is_Some, length_insert. done.
Qed.

Lemma ws_deliver_promises {C} e (s s' : Ws.Sys C) p :
  Ws.deliver e s = Some s' →
  is_Some (Ws.promises (Ws.browser s) !! p) →
  is_Some (Ws.promises (Ws.browser s') !! p).
Proof.
  destruct e as [id|id|id|id parsed|k]; cbn;
    destruct (_ !! _) as [x|]; cbn; try discriminate.
  - case_decide; [|discriminate]. intros [= <-] Hp. unfold Ws.onopen. cbn.
    rewrite browser_call_opt. cbn. by apply settle_is_Some.
  - case_decide; [discriminate|]. intros [= <-] Hp.
    unfold Ws.onclose, Ws.attemptReconnect. rewrite !svc_call_opt. cbn.
    case_decide; cbn; [by rewrite browser_call_opt|].
    unfold Ws.signal_error. by rewrite !browser_call_opt.
  - case_decide; [discriminate|]. intros [= <-] Hp.
    unfold Ws.onerror, Ws.signal_error. cbn. rewrite browser_call_opt.
    by apply settle_is_Some.
  - case_decide; [|discriminate]. intros [= <-] Hp. by rewrite browser_onmessage.
  - intros [= <-] Hp. unfold Ws.reconnect_timer, Ws.connect. cbn.
    case_match; cbn; rewrite lookup_lt_is_Some, length_app;
      apply lookup_lt_is_Some in Hp; lia.
Qed.

Lemma init_quiet_resume w :
  (∀ p, initPromise w = Some p → is_Some (Ws.promises (browser w) !! p)) →
  init_quiet (resume_init w).
Proof.
  unfold init_quiet, resume_init. intros H.
  destruct (initPromise w) as [p|] eqn:Hp; [|by rewrite Hp].
  destruct (H p eq_refl) as [[] Hl]; rewrite Hl; cbn; rewrite ?Hp; done.
Qed.

Lemma init_quiet_with_service_send m w :
  init_quiet w → init_quiet (with_service (Ws.send m) w).
Proof.
  unfold init_quiet, with_service, Ws.send.
  destruct (wsRef w) as [t|]; cbn; [|done].
  destruct (Ws.ws t); cbn; [case_decide|]; cbn; done.
Qed.

Lemma handle_init_quiet e w w1 :
  init_quiet w → handle e w = Some w1 → init_quiet w1.
Proof.
  intros Hq.
  destruct e as [v c|e| | | | | |]; cbn -[resume_init].
  - destruct (intervalRef w) as [cb|]; cbn; [|discriminate]. intros [= <-].
    destruct (interval_callback_cases cb v c w) as [-> | (_ & frameData & ->)];
      [done|].
    by apply (init_quiet_with_service_send _ (act (setProcessingStatus true) w)).
  - destruct (wsRef w) as [t|] eqn:Ht; cbn -[resume_init]; [|discriminate].
    destruct (Ws.deliver e _) as [s|] eqn:Hs; cbn -[resume_init]; [|discriminate].
    intros [= <-]. apply init_quiet_resume. cbn. intros p Hp.
    apply (ws_deliver_promises _ _ _ p Hs). cbn.
    unfold init_quiet in Hq. rewrite Hp in Hq. by rewrite Hq.
  - intros [= <-]. unfold handleStartAnalysis. repeat case_match; try exact Hq.
    by apply (init_quiet_with_service_send _ w).
  - intros [= <-]. exact Hq.
  - intros [= <-]. exact Hq.
  - intros [= <-]. exact Hq.
  - intros [= <-]. exact Hq.
  - intros [= <-]. exact Hq.
Qed.

Lemma initPromise_rerender a b : initPromise (rerender a b) = initPromise b.
Proof.
  unfold rerender, streaming_effect, streaming_cleanup.
  repeat case_match; reflexivity.
Qed.

Lemma init_quiet_rerender a b : init_quiet b → init_quiet (rerender a b).
Proof.
  unfold init_quiet. by rewrite initPromise_rerender, browser_rerender.
Qed.

Lemma account_init_quiet e a b : init_quiet b → init_quiet (account e a b).
Proof. done. Qed.

Lemma init_quiet_deliver now e w w' :
  init_quiet w → deliver now e w = Some w' → init_quiet w'.
Proof.
  intros Hq. unfold deliver.
  destruct (handle e (at_time now w)) as [w1|] eqn:Hh; cbn; [|discriminate].
  intros [= <-]. apply init_quiet_rerender.
  apply account_init_quiet.
  exact (handle_init_quiet e (at_time now w) w1 Hq Hh).
Qed.

Lemma init_quiet_mount fetch b now : init_quiet (mount fetch b now).
Proof.
  assert (H : init_quiet (resume_init (initializeApp fetch (unmounted b now)))).
  { apply init_quiet_resume. unfold initializeApp, init_failed, Ws.connect.
    repeat (case_match; cbn; try done); intros p [= <-];
      rewrite lookup_lt_is_Some, length_app; cbn; lia. }
  unfold mount. cbv zeta.
  set (w := resume_init _) in *.
  assert (Hi : initPromise (streaming_effect w) = initPromise w
               ∧ browser (streaming_effect w) = browser w)
    by (unfold streaming_effect; repeat case_match; done).
  unfold init_quiet. destruct Hi as [-> ->]. exact H.
Qed.

(** Every reachable state is sound. *)
Lemma reachable_sound w :
  reachable w → coherent w ∧ serviced w ∧ init_quiet w.
Proof.
  intros (fetch & b & now & tr & Hr).
  assert (H0 : coherent (mount fetch b now) ∧ serviced (mount fetch b now)
               ∧ init_quiet (mount fetch b now))
    by (split; [apply coherent_mount|split;
                [apply serviced_mount|apply init_quiet_mount]]).
  revert Hr H0. generalize (mount fetch b now). clear fetch b now.
  induction tr as [|[now e] tr IH]; intros w0 Hr H0; cbn in Hr.
  - by injection Hr as <-.
  - destruct (deliver now e w0) as [w1|] eqn:Hd; [|discriminate]. cbn in Hr.
    apply (IH w1 Hr). destruct H0 as (H1 & H2 & H3).
    split; [by eapply coherent_deliver|].
    split; [by eapply serviced_deliver|by eapply init_quiet_deliver].
Qed.

Lemma reachable_coherent w : reachable w → intervalRef w = pacer_of w.
Proof. intros Hr. by destruct (reachable_sound w Hr) as (Hc & _). Qed.

End StartupPromise.

Section SocketEvents.
Import Js Store App.

(** The state the callbacks leave behind, event by event. *)
Lemma ws_deliver_client {C} e (s s' : Ws.Sys C) :
  Ws.deliver e s = Some s' →
  Ws.client s'
  = match e with
    | Ws.Open _ => Ws.apply_opt (Ws.onConnect (Ws.svc s)) (Ws.client s)
    | Ws.Close _ =>
        let c := Ws.apply_opt (Ws.onDisconnect (Ws.svc s)) (Ws.client s) in
        if decide (Ws.reconnectAttempts (Ws.svc s) < Ws.maxReconnectAttempts)
        then c
        else Ws.apply_opt
               ((λ f, f "Failed to reconnect after maximum attempts")
                  <$> Ws.onError (Ws.svc s)) c
    | Ws.Err _ =>
        Ws.apply_opt ((λ f, f "WebSocket connection error")
                        <$> Ws.onError (Ws.svc s)) (Ws.client s)
    | Ws.Message _ parsed => Ws.client (Ws.onmessage parsed s)
    | Ws.Timeout _ => Ws.client s
    end.
Proof.
  destruct e as [id|id|id|id parsed|k]; cbn -[Ws.onmessage];
    destruct (_ !! _) as [x|]; cbn -[Ws.onmessage]; try discriminate.
  - case_decide; [|discriminate]. intros [= <-]. unfold Ws.onopen. cbn.
    by rewrite client_call_opt.
  - case_decide; [discriminate|]. intros [= <-].
    pose proof (onclose_spec
      (Ws.with_browser (Ws.set_readyState id Ws.CLOSED (Ws.browser s)) s)) as H1.
    cbv zeta in H1. cbn [Ws.svc Ws.with_browser Ws.client] in H1.
    case_decide; by destruct H1 as (_ & _ & ->).
  - case_decide; [discriminate|]. intros [= <-].
    unfold Ws.onerror, Ws.signal_error. cbn. by rewrite client_call_opt.
  - case_decide; [|discriminate]. by intros [= <-].
  - intros [= <-]. unfold Ws.reconnect_timer, Ws.connect. cbn. by case_match.
Qed.

Lemma appService_handlers k h :
  Ws.messageHandlers appService !! k = Some h →
  (k = "session_error" ∧ h = on_session_error)
  ∨ (k = "session_stats" ∧ h = on_session_stats)
  ∨ (k = "vlm_response" ∧ h = on_vlm_response)
  ∨ (k = "session_started" ∧ h = on_session_started).
Proof.
  unfold appService, Ws.onMessage, Ws.new. cbn.
  rewrite !lookup_insert_Some, lookup_empty.
  intros [[<- <-]|[_ [[<- <-]|[_ [[<- <-]|[_ [[<- <-]|[_ ?]]]]]]]];
    eauto 6; discriminate.
Qed.

(** What an inbound message does to the state, whatever it is. *)
Lemma onmessage_app_client parsed (s : Ws.Sys Client) :
  Ws.messageHandlers (Ws.svc s) = Ws.messageHandlers appService →
  Ws.client (Ws.onmessage parsed s) = Ws.client s
  ∨ ∃ data, parsed = Returned data
      ∧ ((get data "type" = Returned (JStr "session_error")
          ∧ Ws.client (Ws.onmessage parsed s) = on_session_error data (Ws.client s))
         ∨ (get data "type" = Returned (JStr "session_stats")
            ∧ Ws.client (Ws.onmessage parsed s) = on_session_stats data (Ws.client s))
         ∨ (get data "type" = Returned (JStr "vlm_response")
            ∧ Ws.client (Ws.onmessage parsed s) = on_vlm_response data (Ws.client s))
         ∨ (get data "type" = Returned (JStr "session_started")
            ∧ Ws.client (Ws.onmessage parsed s)
              = on_session_started data (Ws.client s))).
Proof.
  intros Hh. unfold Ws.onmessage, Ws.handleMessage.
  destruct parsed as [data|x]; cbn; [|by left].
  destruct (get data "type") as [type|x] eqn:Hty; cbn; [|by left].
  unfold Ws.handler_for. destruct type as [| | | |k| |]; try by left.
  rewrite Hh. destruct (_ !! k) as [h|] eqn:Hk; cbn; [|by left].
  right. exists data. split; [done|].
  destruct (appService_handlers _ _ Hk) as [[-> ->]|[[-> ->]|[[-> ->]|[-> ->]]]];
    eauto 10.
Qed.

Lemma resume_init_store w :
  isProcessing (state (resume_init w)) = isProcessing (state w)
  ∧ isStreaming (state (resume_init w)) = isStreaming (state w)
  ∧ frameHistory (state (resume_init w)) = frameHistory (state w)
  ∧ settings (state (resume_init w)) = settings (state w)
  ∧ temporalContext (state (resume_init w)) = temporalContext (state w)
  ∧ currentSession (state (resume_init w)) = currentSession (state w)
  ∧ isConnected (state (resume_init w)) = isConnected (state w).
Proof. unfold resume_init. repeat case_match; done. Qed.

(** A socket event other than a [vlm_response] leaves the pacing state
    and the history alone and sends nothing. *)
Lemma socket_quiet e w w1 :
  serviced w → releases (Socket e) = false →
  handle (Socket e) w = Some w1 →
  isProcessing (state w1) = isProcessing (state w)
  ∧ isStreaming (state w1) = isStreaming (state w)
  ∧ frameHistory (state w1) = frameHistory (state w)
  ∧ settings (state w1) = settings (state w)
  ∧ Ws.outbox (browser w1) = Ws.outbox (browser w).
Proof.
  intros Hs Hrel. cbn -[resume_init].
  destruct (wsRef w) as [t|] eqn:Ht; cbn -[resume_init]; [|discriminate].
  destruct (Ws.deliver e _) as [s|] eqn:Hd; cbn -[resume_init]; [|discriminate].
  intros [= <-]. destruct (Hs t Ht) as (G1 & G2 & G3 & G4 & _).
  match goal with |- context [resume_init ?x] =>
    destruct (resume_init_store x) as (-> & -> & -> & -> & _);
    destruct (resume_init_frame x) as (-> & _) end.
  cbn [browser]. rewrite (deliver_outbox _ _ _ Hd). cbn [Ws.browser].
  split; [|split; [|split; [|split; [|done]]]];
    unfold state; cbn [client];
    rewrite (ws_deliver_client _ _ _ Hd); cbn [Ws.svc Ws.client];
    (destruct e as [id|id|id|id parsed|k];
     [ rewrite G2; done
     | rewrite G3, G4; cbv zeta; case_decide; done
     | rewrite G4; done
     | cbn in Hrel;
       destruct (onmessage_app_client parsed
                   {| Ws.svc := t; Ws.browser := browser w; Ws.client := client w |}
                   G1)
         as [-> | (data & -> & [[_ ->]|[[_ ->]|[[Hty _]|[_ ->]]]])];
       try done;
       cbn in Hrel; rewrite Hty in Hrel; discriminate Hrel
     | done ]).
Qed.

End SocketEvents.

Section Pacer.
Import Js Store App.

Lemma serviced_wired w t : serviced w → wsRef w = Some t → wired w.
Proof.
  intros Hs Ht. exists t. split; [done|].
  destruct (Hs t Ht) as (-> & _). unfold appService, Ws.onMessage. cbn.
  rewrite lookup_insert_ne by done. rewrite lookup_insert_ne by done.
  by rewrite lookup_insert_eq.
Qed.

(** X7.  In every state the component can reach, an interval is armed
    exactly when the store says streaming, connected and not processing,
    and the armed interval has the period [delaySeconds * 1000] and a
    callback closed over the store's current settings and session, with
    the in-flight flag clear. *)
Theorem pacer_tracks_store w :
  reachable w →
  (is_Some (intervalRef w)
   ↔ isStreaming (state w) = true ∧ isConnected (state w) = true
     ∧ isProcessing (state w) = false)
  ∧ ∀ cb, intervalRef w = Some cb →
      period cb = (delaySeconds (settings (state w)) * Q2Qc 1000)%Qc
      ∧ cb_isProcessing cb = false
      ∧ cb_settings cb = settings (state w)
      ∧ cb_currentSession cb = currentSession (state w)
      ∧ cb_cameraIsStreaming cb = cameraIsStreaming w.
Proof.
  intros Hr. rewrite (reachable_coherent w Hr). unfold pacer_of.
  destruct (isStreaming (state w)), (isConnected (state w)),
    (isProcessing (state w)) eqn:Hp; cbn [andb negb];
    first [ split; [split; [intros [? [=]]|intros (? & ? & ?); discriminate]
                   |intros ? [=]]
          | split; [split; [done|by eexists]|by intros cb [= <-]] ].
Qed.

Lemma deliver_frame now e w w' w1 :
  handle e (at_time now w) = Some w1 →
  deliver now e w = Some w' →
  state w' = state w1 ∧ browser w' = browser w1 ∧ wsRef w' = wsRef w1.
Proof.
  intros Hh. unfold deliver. rewrite Hh. cbn. intros [= <-].
  by rewrite state_rerender, browser_rerender, wsRef_rerender.
Qed.

(** X8.  In a reachable state, a tick that sends a query sends exactly
    one message, a [vlm_query] built from the settings and the session
    the store holds at that moment and stamped with the current time:
    the callback never works from stale settings. *)
Theorem query_carries_current_store now v c w w' :
  reachable w →
  deliver now (Tick v c) w = Some w' →
  sent_queries w' = S (sent_queries w) →
  ∃ id frameData cb,
    intervalRef w = Some cb
    ∧ cb_settings cb = settings (state w)
    ∧ cb_currentSession cb = currentSession (state w)
    ∧ Ws.outbox (browser w')
      = Ws.outbox (browser w)
        ++ [(id, JObj (("type", JStr "vlm_query")
                         :: query_params cb frameData now))].
Proof.
  intros Hr Hd Hs. pose proof (reachable_coherent w Hr) as Hc.
  assert (Hh : ∃ w1, handle (Tick v c) (at_time now w) = Some w1).
  { unfold deliver in Hd. destruct (handle _ _) as [w1|]; [by exists w1|done]. }
  destruct Hh as [w1 Hh]. destruct (deliver_frame _ _ _ _ _ Hh Hd) as (_ & Hb & _).
  cbn [handle] in Hh. change (intervalRef (at_time now w)) with (intervalRef w) in Hh.
  destruct (intervalRef w) as [cb|] eqn:Hcb; cbn in Hh; [|discriminate].
  injection Hh as <-.
  assert (Hcb' : cb_settings cb = settings (state w)
                 ∧ cb_currentSession cb = currentSession (state w)).
  { unfold pacer_of in Hc. case_match; [|discriminate]. by injection Hc as ->. }
  unfold sent_queries in Hs. rewrite Hb in Hs.
  destruct (interval_callback_cases cb v c (at_time now w))
    as [Heq | (_ & frameData & Heq)]; rewrite Heq in Hs, Hb.
  { change (browser (at_time now w)) with (browser w) in Hs. lia. }
  destruct (with_service_send
              (JObj (("type", JStr "vlm_query")
                       :: query_params cb frameData now))
              (act (setProcessingStatus true) (at_time now w)))
    as (_ & _ & _ & [Hsame | [id Hout]]).
  - change (Ws.send (C:=Client) (JObj (("type", JStr "vlm_query")
              :: query_params cb frameData now)))
      with (Ws.queryVLM (C:=Client) (query_params cb frameData now)) in Hsame.
    change (clock (client (at_time now w))) with now in Hs.
    rewrite Hsame in Hs. change (browser (act _ (at_time now w))) with (browser w) in Hs.
    lia.
  - exists id, frameData, cb. repeat (split; [tauto|]).
    rewrite Hb. exact Hout.
Qed.

End Pacer.

Section InFlight.
Import Js Store App.

Lemma deliver_socket_wsRef now e w w' : 
  deliver now (Socket e) w = Some w' → ∃ t, wsRef w = Some t.
Proof.
  unfold deliver. cbn -[resume_init]. change (wsRef (at_time now w)) with (wsRef w).
  destruct (wsRef w) as [t|]; [by exists t|discriminate].
Qed.

(** X9.  While streaming and connected, any inbound [vlm_response],
    successful or failed, clears the in-flight flag and leaves an
    interval armed with the current settings and session. *)
Theorem response_rearms_pacer now id data w w' :
  reachable w →
  isStreaming (state w) = true → isConnected (state w) = true →
  get data "type" = Returned (JStr "vlm_response") →
  deliver now (inbound id data) w = Some w' →
  isProcessing (state w') = false
  ∧ ∃ cb, intervalRef w' = Some cb
          ∧ cb_settings cb = settings (state w)
          ∧ cb_currentSession cb = currentSession (state w).
Proof.
  intros Hr Hs Hc Hty Hd.
  destruct (reachable_sound w Hr) as (_ & Hsv & Hq).
  destruct (deliver_socket_wsRef _ _ _ _ Hd) as [t Ht].
  pose proof (deliver_vlm_response now id data w w'
                (serviced_wired w t Hsv Ht) Hq Hty Hd) as Hst.
  pose proof (reachable_coherent w' (reachable_deliver _ _ _ _ Hr Hd)) as Hp.
  assert (Hf : isProcessing (state w') = false
               ∧ isStreaming (state w') = true ∧ isConnected (state w') = true
               ∧ settings (state w') = settings (state w)
               ∧ currentSession (state w') = currentSession (state w)).
  { rewrite Hst. unfold on_vlm_response.
    destruct (truthy (field data "success")); cbn; by rewrite Hs, Hc. }
  destruct Hf as (Hf1 & Hf2 & Hf3 & Hf4 & Hf5). split; [done|].
  unfold pacer_of in Hp. rewrite Hf1, Hf2, Hf3 in Hp. cbn in Hp.
  eexists. split; [exact Hp|]. cbn. by rewrite Hf4, Hf5.
Qed.

Lemma sent_queries_send_other m w :
  field m "type" ≠ JStr "vlm_query" →
  sent_queries (with_service (Ws.send m) w) = sent_queries w.
Proof.
  intros Hm. destruct (with_service_send m w) as (_ & _ & _ & [Hb | [id Hb]]);
    unfold sent_queries; rewrite Hb; [done|].
  rewrite list.filter_app, length_app.
  rewrite filter_cons_False, filter_nil; [cbn; lia|].
  intros Hq. apply Hm. unfold is_vlm_query in Hq. cbn [snd] in Hq.
  by apply bool_decide_unpack in Hq.
Qed.

Lemma handleStartAnalysis_store w :
  isProcessing (state (handleStartAnalysis w)) = isProcessing (state w)
  ∧ sent_queries (handleStartAnalysis w) = sent_queries w.
Proof.
  assert (Hact : ∀ x,
    isProcessing (state (act clearFrameHistory (act (setStreamingStatus true) x)))
    = isProcessing (state x)
    ∧ sent_queries (act clearFrameHistory (act (setStreamingStatus true) x))
      = sent_queries x) by done.
  unfold handleStartAnalysis. case_match; [done|]. cbv zeta.
  case_match; [|apply Hact].
  destruct (Hact (with_service (Ws.startSession JUndefined) w)) as [-> ->].
  change (Ws.startSession (C:=Client) JUndefined)
    with (Ws.send (C:=Client)
            (JObj [("type", JStr "start_session"); ("session_id", JUndefined)])).
  split.
  - unfold state.
    by destruct (with_service_send
      (JObj [("type", JStr "start_session"); ("session_id", JUndefined)]) w)
      as (-> & _).
  - exact (sent_queries_send_other
      (JObj [("type", JStr "start_session"); ("session_id", JUndefined)]) w
      ltac:(discriminate)).
Qed.

(** While the flag is set, an event that is neither a [vlm_response] nor
    a stop leaves it set and sends no query. *)
Lemma stalled_step now e w w' :
  coherent w → serviced w →
  isProcessing (state w) = true → releases e = false →
  deliver now e w = Some w' →
  isProcessing (state w') = true ∧ sent_queries w' = sent_queries w.
Proof.
  intros Hc Hs Hp Hrel Hd.
  assert (Hh : ∃ w1, handle e (at_time now w) = Some w1).
  { unfold deliver in Hd. destruct (handle _ _) as [w1|]; [by exists w1|done]. }
  destruct Hh as [w1 Hh].
  destruct (deliver_frame _ _ _ _ _ Hh Hd) as (Hst & Hb & _).
  unfold sent_queries. rewrite Hst, Hb.
  destruct e as [v c|e| | | | | |]; try discriminate Hrel.
  - cbn in Hh. change (intervalRef (at_time now w)) with (intervalRef w) in Hh.
    rewrite Hc in Hh. unfold pacer_of in Hh. rewrite Hp in Hh.
    rewrite andb_false_r in Hh. discriminate Hh.
  - destruct (socket_quiet e (at_time now w) w1 Hs Hrel Hh) as (-> & _ & _ & _ & ->).
    done.
  - injection Hh as <-.
    destruct (handleStartAnalysis_store (at_time now w)) as [-> Hq].
    split; [exact Hp|exact Hq].
  - by injection Hh as <-.
  - by injection Hh as <-.
  - by injection Hh as <-.
  - by injection Hh as <-.
Qed.

(** X10.  A query in flight blocks the pacer until a [vlm_response]
    arrives or the user stops: over any other events (the socket closing
    and reopening, errors, other messages, settings changes, camera
    changes, a reset, a start) the in-flight flag stays set, no interval
    is armed and no further query is sent. *)
Theorem in_flight_persists tr : ∀ w w',
  reachable w →
  isProcessing (state w) = true →
  forallb (λ x, negb (releases (snd x))) tr = true →
  run tr w = Some w' →
  isProcessing (state w') = true
  ∧ intervalRef w' = None
  ∧ sent_queries w' = sent_queries w.
Proof.
  induction tr as [|[now e] tr IH]; intros w w' Hr Hp Htr Hrun; cbn in Hrun.
  - injection Hrun as <-. split; [done|]. split; [|done].
    rewrite (reachable_coherent w Hr). unfold pacer_of. rewrite Hp.
    by rewrite andb_false_r.
  - cbn in Htr. apply andb_prop in Htr as [He Htr].
    apply negb_true_iff in He.
    destruct (deliver now e w) as [w1|] eqn:Hd; [|discriminate]. cbn in Hrun.
    destruct (reachable_sound w Hr) as (Hc & Hs & _).
    destruct (stalled_step _ _ _ _ Hc Hs Hp He Hd) as [Hp1 Hq1].
    destruct (IH w1 w' (reachable_deliver _ _ _ _ Hr Hd) Hp1 Htr Hrun)
      as (H1 & H2 & H3).
    split; [done|]. split; [done|]. by rewrite H3.
Qed.

End InFlight.

Section HistoryBound.
Import Js Store App.

Lemma client_queryVLM params w :
  client (with_service (Ws.queryVLM params) w) = client w.
Proof.
  change (Ws.queryVLM (C:=Client) params)
    with (Ws.send (C:=Client) (JObj (("type", JStr "vlm_query") :: params))).
  by destruct (with_service_send
                 (JObj (("type", JStr "vlm_query") :: params)) w) as (-> & _).
Qed.

Lemma interval_callback_history cb v c w :
  frameHistory (state (interval_callback cb v c w)) = frameHistory (state w).
Proof.
  destruct (interval_callback_cases cb v c w) as [-> | (_ & frameData & ->)];
    [done|].
  unfold state. by rewrite client_queryVLM.
Qed.

Lemma handleStartAnalysis_history w :
  frameHistory (state (handleStartAnalysis w)) = frameHistory (state w)
  ∨ frameHistory (state (handleStartAnalysis w)) = [].
Proof. unfold handleStartAnalysis. repeat case_match; cbn; auto. Qed.

Lemma history_step now e w w' :
  serviced w → init_quiet w →
  length (frameHistory (state w)) ≤ 50 →
  deliver now e w = Some w' →
  length (frameHistory (state w')) ≤ 50.
Proof.
  intros Hs Hq Hlen Hd.
  assert (Hh : ∃ w1, handle e (at_time now w) = Some w1).
  { unfold deliver in Hd. destruct (handle _ _) as [w1|]; [by exists w1|done]. }
  destruct Hh as [w1 Hh].
  destruct (deliver_frame _ _ _ _ _ Hh Hd) as (Hst & _).
  destruct (releases e) eqn:Hrel.
  - destruct e as [v c|[| | |id [data|x]|]| | | | | |]; try discriminate Hrel.
    + cbn in Hrel.
      destruct (get data "type") as [type|] eqn:Hty; [|discriminate].
      apply bool_decide_eq_true in Hrel as ->.
      destruct (deliver_socket_wsRef _ _ _ _ Hd) as [t Ht].
      rewrite (deliver_vlm_response now id data w w'
                 (serviced_wired w t Hs Ht) Hq Hty Hd).
      unfold on_vlm_response. destruct (truthy _); cbn; [|exact Hlen].
      apply addFrame_length_le.
    + rewrite Hst. by injection Hh as <-.
  - rewrite Hst.
    destruct e as [v c|e| | | | | |]; try discriminate Hrel.
    + cbn in Hh. destruct (intervalRef _) as [cb|]; [|discriminate].
      injection Hh as <-. by rewrite interval_callback_history.
    + by destruct (socket_quiet e (at_time now w) w1 Hs Hrel Hh) as (_ & _ & -> & _).
    + injection Hh as <-.
      destruct (handleStartAnalysis_history (at_time now w)) as [-> | ->];
        [done|cbn; lia].
    + injection Hh as <-. cbn. lia.
    + by injection Hh as <-.
    + by injection Hh as <-.
    + by injection Hh as <-.
Qed.

(** In every reachable state the history holds at most 50 records. *)
Lemma reachable_history w :
  reachable w → length (frameHistory (state w)) ≤ 50.
Proof.
  intros Hr. pose proof Hr as (fetch & b & now & tr & Hrun).
  assert (H0 : length (frameHistory (state (mount fetch b now))) ≤ 50).
  { unfold mount, streaming_effect, resume_init, initializeApp, init_failed,
      Ws.connect.
    repeat (case_match; cbn; try lia). }
  pose proof (reachable_mount fetch b now) as Hr0.
  clear Hr. revert Hrun H0 Hr0. generalize (mount fetch b now). clear fetch b now.
  induction tr as [|[now e] tr IH]; intros w0 Hrun H0 Hr0; cbn in Hrun.
  - by injection Hrun as <-.
  - destruct (deliver now e w0) as [w1|] eqn:Hd; [|discriminate]. cbn in Hrun.
    destruct (reachable_sound w0 Hr0) as (_ & Hs & Hq).
    apply (IH w1 Hrun).
    + by apply (history_step now e w0).
    + by apply (reachable_deliver now e w0).
Qed.

(** X11.  Whatever the backend answers at start-up and whatever events
    follow, the frame history of the store never holds more than 50
    records. *)
Theorem history_bounded fetch b now tr w :
  run tr (mount fetch b now) = Some w →
  length (frameHistory (state w)) ≤ 50.
Proof.
  intros Hrun. apply reachable_history. by exists fetch, b, now, tr.
Qed.

End HistoryBound.

Section Responses.
Import Js Store App.

Lemma addFrames_ext fs : ∀ s1 s2,
  frameHistory s1 = frameHistory s2 →
  frameHistory (addFrames fs s1) = frameHistory (addFrames fs s2).
Proof.
  induction fs as [|f fs IH]; intros s1 s2 H; [done|].
  cbn [addFrames foldl]. apply IH. unfold addFrame. cbn. by rewrite H.
Qed.

(** X12.  From a reachable state, a run of successful [vlm_response]
    messages is recorded in arrival order: the history is the old history
    followed by one record per response, each stamped with its arrival
    time, cut to the last 50; and the temporal context is the one of the
    last response. *)
Theorem responses_recorded_in_order (rs : list (string * nat * Json)) : ∀ w w',
  reachable w →
  Forall (λ r, get r.2 "type" = Returned (JStr "vlm_response")
               ∧ truthy (field r.2 "success") = true) rs →
  run ((λ r, (r.1.1, inbound r.1.2 r.2)) <$> rs) w = Some w' →
  frameHistory (state w')
  = drop (length (frameHistory (state w)) + length rs - 50)
         (frameHistory (state w) ++ ((λ r, frame_of r.1.1 r.2) <$> rs))
  ∧ temporalContext (state w')
    = from_option (λ r, field r.2 "temporal_context")
        (temporalContext (state w)) (list.last rs).
Proof.
  intros w w' Hr Hall Hrun.
  assert (H : frameHistory (state w')
              = frameHistory (addFrames ((λ r, frame_of r.1.1 r.2) <$> rs) (state w))
              ∧ temporalContext (state w')
                = from_option (λ r, field r.2 "temporal_context")
                    (temporalContext (state w)) (list.last rs)).
  { revert w Hr Hrun. induction Hall as [|[[now id] data] rs [Hty Hok] Hall IH];
      intros w Hr Hrun.
    - injection Hrun as <-. done.
    - rewrite fmap_cons in Hrun. cbn [run fst snd] in Hrun.
      cbn [fst snd] in *.
      destruct (deliver now (inbound id data) w) as [w1|] eqn:Hd; [|discriminate].
      cbn in Hrun.
      destruct (reachable_sound w Hr) as (_ & Hs & Hq).
      destruct (deliver_socket_wsRef _ _ _ _ Hd) as [t Ht].
      pose proof (deliver_vlm_response now id data w w1
                    (serviced_wired w t Hs Ht) Hq Hty Hd) as Hst.
      destruct (IH w1 (reachable_deliver _ _ _ _ Hr Hd) Hrun) as [IH1 IH2].
      assert (Hh : frameHistory (state w1)
                   = frameHistory (addFrame (frame_of now data) (state w))
                 ∧ temporalContext (state w1) = field data "temporal_context").
      { rewrite Hst. unfold on_vlm_response. rewrite Hok. done. }
      destruct Hh as [Hh1 Hh2]. split.
      + rewrite IH1. cbn [fmap list_fmap addFrames foldl fst snd].
        by apply addFrames_ext.
      + rewrite IH2, Hh2. rewrite last_cons. by destruct (list.last rs). }
  destruct H as [H1 H2]. split; [|exact H2].
  rewrite H1, addFrames_history by (apply reachable_history; exact Hr).
  by rewrite length_fmap.
Qed.





End Responses.

Section StartCommand.
Import Js Store App.

(** X15.  Start, in a reachable state.  With a service and a connected
    store: streaming is switched on, the history is emptied, the error
    and the session are left as they are, an interval is armed unless a
    query is in flight, and [start_session] is sent only when the store
    holds no session.  Otherwise the only effect is the error
    "WebSocket not connected": nothing is sent and the interval is left
    as it was. *)
Theorem start_analysis_effects now w w' :
  reachable w →
  deliver now StartAnalysis w = Some w' →
  if bool_decide (is_Some (wsRef w)) && isConnected (state w) then
    isStreaming (state w') = true
    ∧ frameHistory (state w') = []
    ∧ error (state w') = error (state w)
    ∧ currentSession (state w') = currentSession (state w)
    ∧ (isProcessing (state w) = false → is_Some (intervalRef w'))
    ∧ (if truthy (currentSession (state w)) then browser w' = browser w
       else browser w' = browser w
            ∨ ∃ id, Ws.outbox (browser w')
                    = Ws.outbox (browser w)
                      ++ [(id, JObj [("type", JStr "start_session");
                                     ("session_id", JUndefined)])])
  else
    state w' = setError (JStr "WebSocket not connected") (state w)
    ∧ browser w' = browser w
    ∧ intervalRef w' = intervalRef w.
Proof.
  intros Hr Hd.
  pose proof (reachable_coherent w' (reachable_deliver _ _ _ _ Hr Hd)) as Hc'.
  assert (Hh : handle StartAnalysis (at_time now w)
               = Some (handleStartAnalysis (at_time now w))) by done.
  destruct (deliver_frame _ _ _ _ _ Hh Hd) as (Hst & Hb & _).
  unfold handleStartAnalysis in *.
  change (wsRef (at_time now w)) with (wsRef w) in *.
  change (state (at_time now w)) with (state w) in *.
  destruct (bool_decide (is_Some (wsRef w))) eqn:Hws;
    destruct (isConnected (state w)) eqn:Hcon; cbn [negb orb andb] in *.
  - destruct (with_service_send
        (JObj [("type", JStr "start_session"); ("session_id", JUndefined)])
        (at_time now w)) as (Hcl & _ & _ & Hout).
    change (Ws.send (C:=Client)
              (JObj [("type", JStr "start_session"); ("session_id", JUndefined)]))
      with (Ws.startSession (C:=Client) JUndefined) in Hcl, Hout.
    assert (Hfields : isStreaming (state w') = true
                      ∧ frameHistory (state w') = []
                      ∧ error (state w') = error (state w)
                      ∧ currentSession (state w') = currentSession (state w)
                      ∧ isConnected (state w') = true
                      ∧ isProcessing (state w') = isProcessing (state w)).
    { rewrite Hst. destruct (truthy (currentSession (state w))); cbn;
        rewrite ?Hcl; cbn; by rewrite ?Hcon. }
    destruct Hfields as (F1 & F2 & F3 & F4 & F5 & F6).
    repeat (split; [done|]). split.
    + intros Hp. rewrite Hc'. unfold pacer_of. rewrite F1, F5, F6, Hp. by eexists.
    + rewrite Hb. destruct (truthy (currentSession (state w))); cbn; [done|].
      destruct Hout as [-> | [id Hout]]; [by left|right].
      exists id. exact Hout.
  - unfold deliver in Hd. cbn in Hd. unfold handleStartAnalysis in Hd.
    change (wsRef (at_time now w)) with (wsRef w) in Hd.
    change (state (at_time now w)) with (state w) in Hd.
    rewrite Hws, Hcon in Hd. cbn [negb orb] in Hd.
    rewrite rerender_same_deps in Hd by reflexivity. by injection Hd as <-.
  - unfold deliver in Hd. cbn in Hd. unfold handleStartAnalysis in Hd.
    change (wsRef (at_time now w)) with (wsRef w) in Hd.
    change (state (at_time now w)) with (state w) in Hd.
    rewrite Hws, Hcon in Hd. cbn [negb orb] in Hd.
    rewrite rerender_same_deps in Hd by reflexivity. by injection Hd as <-.
  - unfold deliver in Hd. cbn in Hd. unfold handleStartAnalysis in Hd.
    change (wsRef (at_time now w)) with (wsRef w) in Hd.
    change (state (at_time now w)) with (state w) in Hd.
    rewrite Hws, Hcon in Hd. cbn [negb orb] in Hd.
    rewrite rerender_same_deps in Hd by reflexivity. by injection Hd as <-.
Qed.

End StartCommand.

Section CameraHookProps.
Import Js CameraHook.

Lemma ended_startCamera getUserMedia play settings deviceId h :
  ended (startCamera getUserMedia play settings deviceId h)
  = ended h ∪ list_to_set (held h).
Proof.
  unfold startCamera, held. cbn.
  destruct (streamRef h) as [old|]; cbn;
    destruct (getUserMedia _) as [stream|x]; cbn;
    destruct (video h); cbn; try destruct play; cbn;
    by rewrite ?list_to_set_nil, ?(right_id_L ∅ (∪)).
Qed.










(** X17.  [stopCamera]: the video element loses its source, the hook is
    not streaming, the error and the device state are untouched, a second
    call changes nothing, and [captureFrame] returns [null] afterwards. *)
Theorem stopCamera_idempotent (h : Hook) :
  let h' := stopCamera h in
  (video h' = match video h with Some _ => Some None | None => None end)
  ∧ streamRef h' = None
  ∧ isStreaming h' = false
  ∧ error h' = error h
  ∧ availableDevices h' = availableDevices h
  ∧ selectedDeviceId h' = selectedDeviceId h
  ∧ stopCamera h' = h'
  ∧ ∀ dims canvasRef, captureFrame dims canvasRef h' = Returned JNull.
Proof.
  unfold stopCamera.
  destruct h as [v s i e a d n]. cbn.
  destruct s as [old|]; cbn; destruct v as [src|]; cbn;
    repeat split; try done;
    intros dims [c|]; reflexivity.
Qed.

(** X18.  [startCamera]: the stream held before is always stopped, and the
    stream obtained is never stopped by the call.  When [getUserMedia]
    rejects, the hook reports the failure, is not streaming, and still
    holds the old (stopped) stream.  When it grants a stream, the stream
    is held; with a video element it becomes the element's source, and
    the hook is streaming with the device selected and no error if
    playback starts, or reports the failure if it does not; without a
    video element the streaming flag and the selection stay as they
    were. *)
Theorem startCamera_outcomes getUserMedia play settings deviceId (h : Hook) :
  let h' := startCamera getUserMedia play settings deviceId h in
  let failure := JStr "Failed to start camera. Please check permissions." in
  ended h' = ended h ∪ list_to_set (held h)
  ∧ availableDevices h' = availableDevices h
  ∧ match getUserMedia (constraints deviceId settings) with
    | Thrown _ =>
        error h' = failure ∧ isStreaming h' = false
        ∧ streamRef h' = streamRef h ∧ video h' = video h
        ∧ selectedDeviceId h' = selectedDeviceId h
    | Returned stream =>
        streamRef h' = Some stream
        ∧ match video h, play with
          | None, _ =>
              video h' = None ∧ isStreaming h' = isStreaming h
              ∧ error h' = JNull ∧ selectedDeviceId h' = selectedDeviceId h
          | Some _, Returned _ =>
              video h' = Some (Some stream) ∧ isStreaming h' = true
              ∧ error h' = JNull ∧ selectedDeviceId h' = deviceId
          | Some _, Thrown _ =>
              video h' = Some (Some stream) ∧ isStreaming h' = false
              ∧ error h' = failure ∧ selectedDeviceId h' = selectedDeviceId h
          end
    end.
Proof.
  cbv zeta. split; [apply ended_startCamera|].
  unfold startCamera. cbn.
  destruct (streamRef h) as [old|] eqn:Hs; cbn;
    destruct (getUserMedia _) as [stream|x]; cbn;
    destruct (video h) as [src|] eqn:Hv; cbn; try destruct play; cbn;
    rewrite ?Hs, ?Hv; done.
Qed.

(** X19.  Switching device while streaming: the first stream's tracks are
    stopped whether or not the second request is granted; if it is
    refused the hook is left not streaming, with the stopped stream
    still in place, and [captureFrame] returns [null]. *)
Theorem switchDevice_refused g1 g2 play settings d1 d2 stream h :
  g1 (constraints d1 settings) = Returned stream →
  throws (g2 (constraints (JStr d2) settings)) →
  let h1 := startCamera g1 (Returned ()) settings d1 h in
  let h2 := switchDevice g2 play settings d2 h1 in
  list_to_set stream ⊆ ended h2
  ∧ streamRef h2 = Some stream
  ∧ isStreaming h2 = false
  ∧ error h2 = JStr "Failed to start camera. Please check permissions."
  ∧ ∀ dims canvasRef, captureFrame dims canvasRef h2 = Returned JNull.
Proof.
  intros H1 [x H2]. cbv zeta. unfold switchDevice.
  pose proof (startCamera_like := ended_startCamera g2 play settings (JStr d2)
                (startCamera g1 (Returned ()) settings d1 h)).
  assert (Hheld : streamRef (startCamera g1 (Returned ()) settings d1 h)
                  = Some stream).
  { unfold startCamera. cbn. rewrite H1.
    destruct (streamRef h); cbn; by destruct (video h). }
  split; [|].
  - rewrite startCamera_like. unfold held. rewrite Hheld. cbn.
    apply union_subseteq_r.
  - unfold startCamera at 1 3 5 7. cbn. rewrite H2.
    rewrite Hheld. cbn. rewrite Hheld.
    repeat split; try done. intros dims [c|]; cbn.
    + unfold captureFrame. cbn. by destruct (video _).
    + unfold captureFrame. cbn. by destruct (video _).
Qed.


End CameraHookProps.

Section SummaryPanel.
Import Js Store Panel.

Lemma on_summary_response_string data s c :
  field data "summary" = JStr s →
  on_summary_response data c
  = Returned (setIsLoadingSummary false
      (on_store (setGeneralSummary
         (JStr (if existsb (λ p, str_includes p s) placeholders
                then "" else s))) c)).
Proof.
  intros Hs. unfold on_summary_response, is_placeholder. rewrite Hs.
  cbn [truthy includes existsb placeholders].
  case_decide as He.
  - subst s. reflexivity.
  - cbn. destruct (str_includes "No video frames" s); cbn; [done|].
    destruct (str_includes "No recent frames" s); cbn; [done|].
    by destruct (str_includes "No session data" s).
Qed.

(** X21.  The [summary_response] handler, as the service runs it.  For a
    string summary it clears the loading flag and stores the summary,
    or the empty string if the summary contains one of the placeholder
    phrases: what is stored never contains one.  A falsy summary
    (missing, [null], empty) is stored as it is.  For a truthy summary
    on which [includes] cannot be called the handler throws before any
    update: the store and the loading flag stay as they were. *)
Theorem summary_response_filters_placeholders (data : Json) (c : Client) :
  let c' := caught on_summary_response data c in
  let summary := field data "summary" in
  (∀ s, summary = JStr s →
     isLoadingSummary c' = false
     ∧ generalSummary (store c')
       = JStr (if existsb (λ p, str_includes p s) placeholders then "" else s)
     ∧ ∀ p, p ∈ placeholders →
         includes (generalSummary (store c')) p = Returned false)
  ∧ (truthy summary = false →
     c' = setIsLoadingSummary false (on_store (setGeneralSummary summary) c))
  ∧ (truthy summary = true → throws (includes summary "No video frames") →
     c' = c).
Proof.
  cbv zeta. split; [|split].
  - intros s Hs. unfold caught. rewrite (on_summary_response_string _ _ _ Hs).
    cbn [isLoadingSummary setIsLoadingSummary store on_store generalSummary
         setGeneralSummary].
    split; [done|]. split; [done|]. intros p Hp. cbn [includes]. f_equal.
    destruct (existsb _ placeholders) eqn:Hex.
    + unfold placeholders in Hp.
      repeat (apply elem_of_cons in Hp as [->|Hp]; [reflexivity|]).
      by apply elem_of_nil in Hp.
    + unfold placeholders in Hp, Hex. cbn [existsb] in Hex.
      apply orb_false_elim in Hex as [H1 Hex].
      apply orb_false_elim in Hex as [H2 Hex].
      apply orb_false_elim in Hex as [H3 _].
      repeat (apply elem_of_cons in Hp as [->|Hp]; [assumption|]).
      by apply elem_of_nil in Hp.
  - intros Hf. unfold caught, on_summary_response, is_placeholder.
    by rewrite Hf.
  - intros Ht [x Hx]. unfold caught, on_summary_response, is_placeholder.
    by rewrite Ht, Hx.
Qed.

Lemma summary_response_filters_placeholders_witness :
  let data := JObj [("type", JStr "summary_response"); ("summary", num 3)] in
  let c := {| store := Store.initial; isLoadingSummary := true |} in
  isLoadingSummary (caught on_summary_response data c) = true.
Proof.
  cbv zeta.
  rewrite (proj2 (proj2 (summary_response_filters_placeholders
     (JObj [("type", JStr "summary_response"); ("summary", num 3)])
     {| store := Store.initial; isLoadingSummary := true |}))
     eq_refl (ex_intro _ _ eq_refl)).
  reflexivity.
Defined.

Lemma panel_handlers k h :
  Ws.messageHandlers panelService !! k = Some h →
  (k = "summary_response" ∧ h = caught on_summary_response)
  ∨ (k = "summary_error" ∧ h = on_summary_error).
Proof.
  unfold panelService, Ws.onMessage, Ws.new. cbn.
  rewrite !lookup_insert_Some, lookup_empty.
  intros [[<- <-]|[_ [[<- <-]|[_ ?]]]]; eauto; discriminate.
Qed.

(** X22.  Messages on the panel's socket: a [summary_response] runs the
    response handler, a [summary_error] clears the summary and the
    loading flag, and any other message (a [vlm_response] of the main
    socket's protocol, an unparsable frame) leaves the panel as it
    was.  Nothing is sent in answer. *)
Theorem panel_message_routing (id : nat) (parsed : Outcome Json)
    (t : Ws.WebSocketService Client) (w w' : World) :
  wsService w = Some t →
  Ws.messageHandlers t = Ws.messageHandlers panelService →
  deliver (Ws.Message id parsed) w = Some w' →
  browser w' = browser w
  ∧ wsService w' = Some t
  ∧ (∀ data, parsed = Returned data →
       get data "type" = Returned (JStr "summary_response") →
       client w' = caught on_summary_response data (client w))
  ∧ (∀ data, parsed = Returned data →
       get data "type" = Returned (JStr "summary_error") →
       client w' = setIsLoadingSummary false
                     (on_store (setGeneralSummary (JStr "")) (client w)))
  ∧ ((∀ data, parsed = Returned data →
        get data "type" ≠ Returned (JStr "summary_response")
        ∧ get data "type" ≠ Returned (JStr "summary_error")) →
     client w' = client w).
Proof.
  intros Ht Hh. unfold deliver. rewrite Ht. cbn.
  destruct (_ !! id) as [k|]; cbn; [|discriminate].
  case_decide; [|discriminate]. intros [= <-]. cbn.
  rewrite browser_onmessage, svc_onmessage. cbn. split; [done|]. split; [done|].
  unfold Ws.onmessage, Ws.handleMessage. split; [|split].
  - intros data -> Hty. cbn. rewrite Hty. cbn. by rewrite Hh.
  - intros data -> Hty. cbn. rewrite Hty. cbn. by rewrite Hh.
  - intros Hother. destruct parsed as [data|x]; cbn; [|done].
    destruct (Hother data eq_refl) as [H1 H2].
    destruct (get data "type") as [ty|x] eqn:Hty; cbn; [|done].
    destruct ty as [| |b|q|k'|xs|fs]; cbn; try done.
    rewrite Hh.
    destruct (Ws.messageHandlers panelService !! k') as [h|] eqn:Hk; cbn; [|done].
    apply panel_handlers in Hk as [[-> ->]|[-> ->]]; congruence.
Qed.

Example loading_panel_reached :
  (w ← deliver (Ws.Open 0) (mount unmounted);
   Some (Ws.outbox (browser (summary_button w)),
         client (summary_button w),
         Ws.sockets (browser (summary_button w)),
         (λ t, (Ws.ws t, Ws.reconnectAttempts t)) <$> wsService (summary_button w)))
  = Some ([(0, JObj [("type", JStr "get_summary");
                     ("model", JStr "gemini-2.0-flash");
                     ("summary_prompt", JStr "Summarise.")])],
          on_store (setGeneralSummary (JStr "")) (client loading_panel),
          Ws.sockets (browser loading_panel),
          Some (Some 0, 0)).
Proof. vm_compute. reflexivity. Qed.

Lemma panel_message_routing_witness :
  let data := JObj [("type", JStr "summary_response");
                    ("summary", JStr "A desk with a laptop.")] in
  let w' := default loading_panel
              (deliver (Ws.Message 0 (Returned data)) loading_panel) in
  client w' = caught on_summary_response data (client loading_panel).
Proof.
  cbv zeta.
  exact (proj1 (proj2 (proj2 (panel_message_routing 0
            (Returned (JObj [("type", JStr "summary_response");
                             ("summary", JStr "A desk with a laptop.")]))
            (Ws.with_ws (Some 0) panelService) loading_panel _
            eq_refl eq_refl eq_refl)))
          (JObj [("type", JStr "summary_response");
                 ("summary", JStr "A desk with a laptop.")])
          eq_refl eq_refl).
Defined.

Lemma panel_opens :
  is_Some (deliver (Ws.Open 0) (mount unmounted)).
Proof.
  assert (H : (if deliver (Ws.Open 0) (mount unmounted) is Some _
               then true else false) = true) by (vm_compute; reflexivity).
  destruct (deliver _ _) as [w'|]; [by exists w'|discriminate H].
Qed.

(** X23.  [handleGetSummary] asks for a summary only on a connected
    service: it then sets the loading flag and hands the socket exactly
    one [get_summary] message carrying the summary model of the settings
    and the panel's prompt.  Without a service, or when the socket is not
    open, it changes nothing: no message is queued and the loading flag is
    left alone. *)
Theorem handleGetSummary_sends_once (w : World) :
  let w' := handleGetSummary w in
  match wsService w with
  | Some t =>
      if Ws.isConnected (sys_of t w) then
        isLoadingSummary (client w') = true
        ∧ store (client w') = store (client w)
        ∧ wsService w' = Some t
        ∧ ∃ id, Ws.ws t = Some id
            ∧ Ws.outbox (browser w')
              = Ws.outbox (browser w)
                ++ [(id, JObj [("type", JStr "get_summary");
                               ("model",
                                JStr (summaryModel (settings (store (client w)))));
                               ("summary_prompt", JStr (summaryPrompt w))])]
      else w' = w
  | None => w' = w
  end.
Proof.
  cbv zeta. unfold handleGetSummary.
  destruct (wsService w) as [t|] eqn:Ht; [|done].
  destruct (Ws.isConnected (sys_of t w)) eqn:Hc; cbn [negb]; [|done].
  unfold Ws.isConnected in Hc. cbn in Hc.
  destruct (Ws.ws t) as [id|] eqn:Hid; [|discriminate].
  apply bool_decide_eq_true in Hc.
  unfold Ws.getSummary, Ws.send. cbn. rewrite Hid.
  rewrite decide_True by exact Hc. cbn.
  repeat split; try done. by exists id.
Qed.

End SummaryPanel.

Section StoreSettings.
Import Js Store.

Lemma default_union {A} (x : A) (a b : option A) :
  default (default x a) b = default x (b ∪ a).
Proof. by destruct a, b. Qed.

(** X24.  [updateSettings] merges key by key: two updates in a row are
    one update with the second patch laid over the first, the empty
    patch changes nothing, the context-window update of the start-up
    code is the update by the patch with that one key, and no other part
    of the store is touched. *)
Theorem updateSettings_merges (p1 p2 : SettingsPatch) (s : AppState) :
  updateSettings p2 (updateSettings p1 s) = updateSettings (patch_then p1 p2) s
  ∧ updateSettings no_patch s = s
  ∧ (∀ v, updateSettings_contextWindow v s
          = updateSettings (Settings.contextWindow_patch v) s)
  ∧ with_settings (settings s) (updateSettings p1 s) = s.
Proof.
  destruct s as [[] ? ? ? ? ? ? ? ? ? ? ? ? ?]. unfold updateSettings.
  cbn. repeat split.
  unfold merge_settings, patch_then. cbn. by rewrite !default_union.
Qed.

End StoreSettings.

Section SettingsSync.
Import Js Store Settings.

(** X25.  Changing the context or the summary window in the settings
    panel updates the store at once and whatever the backend answers:
    the handler never rejects, a failed sync leaves no trace in the
    store (its [error] stays as it was), and only the one setting
    changes. *)
Theorem window_change_best_effort (fetch : Api.Fetch) (v : Json) (s : AppState) :
  let c := handleContextWindowChange fetch v s in
  let m := handleSummaryWindowChange fetch v s in
  snd c = Returned () ∧ snd m = Returned ()
  ∧ contextWindow (settings (fst c)) = v
  ∧ summaryWindow (settings (fst m)) = v
  ∧ fst c = updateSettings_contextWindow v s
  ∧ summaryWindow (settings (fst c)) = summaryWindow (settings s)
  ∧ contextWindow (settings (fst m)) = contextWindow (settings s)
  ∧ error (fst c) = error s ∧ error (fst m) = error s
  ∧ with_settings (settings s) (fst c) = s
  ∧ with_settings (settings s) (fst m) = s.
Proof.
  cbv zeta. unfold handleContextWindowChange, handleSummaryWindowChange.
  cbn [fst snd]. split; [|split].
  - unfold Api.updateContextWindow.
    destruct (fetch _) as [[[] j]|x]; reflexivity.
  - unfold Api.updateSummaryWindow.
    destruct (fetch _) as [[[] j]|x]; reflexivity.
  - destruct s as [[] ? ? ? ? ? ? ? ? ? ? ? ? ?]. cbn. done.
Qed.

End SettingsSync.

Section ApiSurfaceMore.
Import Js Api.

(** X26.  On a 2xx response: the methods that return the body return what
    [response.json()] settles to, a parse failure included; [getModels]
    returns the [models] field of the body, or an empty array when it is
    missing or falsy; [getSessionStats] returns the [stats] field; the
    [void] methods succeed without reading the body; [healthCheck]
    returns [true]; [getContextWindow] returns the [context_window]
    field, and the fallback 10 when the body cannot be parsed or
    read. *)
Theorem api_success_contract (m : Method) (fetch : Fetch) (r : Response) :
  fetch (request_of m) = Returned r → ok r = true →
  match m with
  | GetSettings | QueryVLM _ | QueryVLMWithContext _ | StartSession _ =>
      call m fetch = json r
  | GetModels =>
      call m fetch = (data ← json r; models ← get data "models";
                      mret (if truthy models then models else JArr []))
  | GetSessionStats _ =>
      call m fetch = (data ← json r; get data "stats")
  | ClearSession _ | UpdateContextWindow _ | UpdateSummaryWindow _
  | UpdateWindows _ _ =>
      call m fetch = Returned JUndefined
  | HealthCheck => call m fetch = Returned (JBool true)
  | GetContextWindow =>
      call m fetch = match data ← json r; get data "context_window" with
                     | Returned v => Returned v
                     | Thrown _ => Returned (num 10)
                     end
  end.
Proof.
  intros Hf Hok. destruct r as [o j]. cbn in Hok. subst o.
  destruct m; cbn in Hf |- *;
    unfold getModels, getSettings, queryVLM, queryVLMWithContext, startSession,
      getSessionStats, clearSession, healthCheck, getContextWindow,
      updateContextWindow, updateSummaryWindow, updateWindows;
    rewrite Hf; cbn; try reflexivity;
    destruct j as [d|x]; cbn; try reflexivity;
    by destruct (get d _).
Qed.

(** X27.  The two probes never throw, whatever the transport does:
    [healthCheck] returns [true] exactly when the request to [/health]
    is answered with a 2xx status, and [getContextWindow] always returns
    a value. *)
Theorem api_probes_never_throw (fetch : Fetch) :
  (∃ b, healthCheck fetch = Returned b
        ∧ (b = true ↔ ∃ r, fetch (GET "/health") = Returned r ∧ ok r = true))
  ∧ ∃ v, getContextWindow fetch = Returned v.
Proof.
  unfold healthCheck, getContextWindow. split.
  - destruct (fetch (GET "/health")) as [[o j]|x]; cbn.
    + exists o. split; [done|]. split.
      * intros ->. by eexists.
      * by intros (r & [= <-] & ?).
    + exists false. split; [done|]. split; [done|]. by intros (r & ? & _).
  - destruct (fetch _) as [[[] j]|x]; cbn; eauto.
    destruct j as [d|x]; cbn; eauto.
    destruct (get d "context_window"); cbn; eauto.
Qed.

(** X28.  A method issues one request and nothing else of the transport
    matters: two transports that answer that request alike give the same
    result. *)
Theorem api_single_request (m : Method) (fetch fetch' : Fetch) :
  fetch (request_of m) = fetch' (request_of m) →
  call m fetch = call m fetch'.
Proof.
  intros H.
  destruct m; cbn in H |- *;
    unfold getModels, getSettings, queryVLM, queryVLMWithContext, startSession,
      getSessionStats, clearSession, healthCheck, getContextWindow,
      updateContextWindow, updateSummaryWindow, updateWindows;
    by rewrite H.
Qed.

End ApiSurfaceMore.

Section TransportWitnesses.
Import Js Ws.

Lemma close_retry_runs :
  is_Some (run [Close 0; Timeout 0; Open 1] connected_sys).
Proof.
  assert (H : (if run [Close 0; Timeout 0; Open 1] connected_sys is Some _
               then true else false) = true) by (vm_compute; reflexivity).
  destruct (run _ _) as [s'|]; [by exists s'|discriminate H].
Qed.

Lemma events_never_send_witness :
  ∃ s', run [Close 0; Timeout 0; Open 1] connected_sys = Some s'
        ∧ outbox (browser s') = outbox (browser connected_sys).
Proof.
  destruct close_retry_runs as [s' E]. exists s'. split; [exact E|].
  exact (events_never_send _ _ _ E).
Defined.

Lemma reconnect_never_multiplies_witness :
  ∃ s', run [Close 0; Timeout 0; Open 1] connected_sys = Some s'
        ∧ live (browser s') ≤ live (browser connected_sys).
Proof.
  destruct close_retry_runs as [s' E]. exists s'. split; [exact E|].
  exact (reconnect_never_multiplies _ _ _ E).
Defined.

Lemma connected_sys_budget :
  reconnectAttempts (svc connected_sys) ≤ maxReconnectAttempts
  ∧ Forall backoff_delay (timeouts (browser connected_sys)).
Proof.
  split.
  - assert (H : reconnectAttempts (svc connected_sys) = 0)
      by (vm_compute; reflexivity).
    rewrite H. unfold maxReconnectAttempts. lia.
  - assert (H : timeouts (browser connected_sys) = [])
      by (vm_compute; reflexivity).
    rewrite H. constructor.
Qed.

Lemma reconnect_budget_bounds_witness :
  ∃ s', run [Close 0; Timeout 0; Open 1] connected_sys = Some s'
        ∧ reconnectAttempts (svc s') ≤ 5.
Proof.
  destruct close_retry_runs as [s' E]. exists s'. split; [exact E|].
  exact (proj1 (reconnect_budget_bounds _ _ _ (proj1 connected_sys_budget)
                  (proj2 connected_sys_budget) E)).
Defined.


Lemma bad_frame_delivered :
  is_Some (deliver (Message 0 (Thrown (Error "Unexpected token"))) connected_sys).
Proof.
  assert (H : (if deliver (Message 0 (Thrown (Error "Unexpected token")))
                    connected_sys is Some _
               then true else false) = true) by (vm_compute; reflexivity).
  destruct (deliver _ _) as [s'|]; [by exists s'|discriminate H].
Qed.

Lemma unroutable_message_dropped_witness :
  deliver (Message 0 (Thrown (Error "Unexpected token"))) connected_sys
  = Some connected_sys.
Proof.
  destruct bad_frame_delivered as [s' E]. rewrite E. f_equal.
  exact (unroutable_message_dropped 0 _ _ _ E I).
Defined.

End TransportWitnesses.

Section OrchestratorWitnesses.
Import Js Store App.

Lemma reachable_after tr w : reachable w → reachable (after tr w).
Proof.
  intros Hw. unfold after. destruct (run tr w) as [w'|] eqn:E; [|exact Hw].
  by apply (reachable_run tr w).
Qed.

Lemma after_one now e w w' :
  deliver now e w = Some w' → after [(now, e)] w = w'.
Proof. intros E. unfold after. cbn [run]. by rewrite E. Qed.

Lemma reachable_streaming_world : reachable streaming_world.
Proof. apply reachable_after, reachable_mount. Qed.

(** A query in flight. *)
Lemma reachable_querying :
  reachable (after [("t4", camera_tick)] streaming_world).
Proof. apply reachable_after, reachable_streaming_world. Qed.

Lemma streaming_world_flags :
  isStreaming (state streaming_world) = true
  ∧ isConnected (state streaming_world) = true
  ∧ isProcessing (state streaming_world) = false.
Proof. repeat split; vm_compute; reflexivity. Qed.

Lemma pacer_tracks_store_witness : is_Some (intervalRef streaming_world).
Proof.
  exact (proj2 (proj1 (pacer_tracks_store streaming_world
                         reachable_streaming_world))
           streaming_world_flags).
Defined.

Lemma first_tick_runs :
  is_Some (deliver "t4" camera_tick streaming_world).
Proof.
  assert (H : (if deliver "t4" camera_tick streaming_world is Some _
               then true else false) = true) by (vm_compute; reflexivity).
  destruct (deliver _ _ _) as [w'|]; [by exists w'|discriminate H].
Qed.

Lemma first_tick_sends :
  sent_queries (after [("t4", camera_tick)] streaming_world)
  = S (sent_queries streaming_world).
Proof. vm_compute. reflexivity. Qed.

Lemma query_carries_current_store_witness :
  ∃ w', deliver "t4" camera_tick streaming_world = Some w'
    ∧ ∃ id frameData cb,
        intervalRef streaming_world = Some cb
        ∧ cb_settings cb = settings (state streaming_world)
        ∧ cb_currentSession cb = currentSession (state streaming_world)
        ∧ Ws.outbox (browser w')
          = Ws.outbox (browser streaming_world)
            ++ [(id, JObj (("type", JStr "vlm_query")
                             :: query_params cb frameData "t4"))].
Proof.
  destruct first_tick_runs as [w' E]. exists w'. split; [exact E|].
  apply (query_carries_current_store "t4" _ _ streaming_world w'
           reachable_streaming_world E).
  rewrite <- (after_one _ _ _ _ E). exact first_tick_sends.
Defined.

Lemma querying_flags :
  isStreaming (state (after [("t4", camera_tick)] streaming_world)) = true
  ∧ isConnected (state (after [("t4", camera_tick)] streaming_world)) = true
  ∧ isProcessing (state (after [("t4", camera_tick)] streaming_world)) = true.
Proof. repeat split; vm_compute; reflexivity. Qed.

Lemma first_answer_runs :
  is_Some (deliver "t5" (inbound 0 (success_data "1"))
             (after [("t4", camera_tick)] streaming_world)).
Proof.
  assert (H : (if deliver "t5" (inbound 0 (success_data "1"))
                    (after [("t4", camera_tick)] streaming_world) is Some _
               then true else false) = true) by (vm_compute; reflexivity).
  destruct (deliver _ _ _) as [w'|]; [by exists w'|discriminate H].
Qed.

Lemma response_rearms_pacer_witness :
  ∃ w', deliver "t5" (inbound 0 (success_data "1"))
          (after [("t4", camera_tick)] streaming_world) = Some w'
        ∧ isProcessing (state w') = false.
Proof.
  destruct first_answer_runs as [w' E]. exists w'. split; [exact E|].
  exact (proj1 (response_rearms_pacer "t5" 0 (success_data "1") _ w'
                  reachable_querying (proj1 querying_flags)
                  (proj1 (proj2 querying_flags)) eq_refl E)).
Defined.

Lemma stalled_trace_runs :
  is_Some (run [("t5", ClearHistory); ("t6", StartAnalysis)]
             (after [("t4", camera_tick)] streaming_world)).
Proof.
  assert (H : (if run [("t5", ClearHistory); ("t6", StartAnalysis)]
                    (after [("t4", camera_tick)] streaming_world) is Some _
               then true else false) = true) by (vm_compute; reflexivity).
  destruct (run _ _) as [w'|]; [by exists w'|discriminate H].
Qed.

Lemma in_flight_persists_witness :
  ∃ w', run [("t5", ClearHistory); ("t6", StartAnalysis)]
          (after [("t4", camera_tick)] streaming_world) = Some w'
        ∧ isProcessing (state w') = true ∧ intervalRef w' = None.
Proof.
  destruct stalled_trace_runs as [w' E]. exists w'. split; [exact E|].
  destruct (in_flight_persists [("t5", ClearHistory); ("t6", StartAnalysis)]
              _ w' reachable_querying
              (proj2 (proj2 querying_flags)) eq_refl E) as (H1 & H2 & _).
  exact (conj H1 H2).
Defined.

Lemma streaming_world_runs :
  is_Some (run [("t1", Socket (Ws.Open 0)); ("t2", CameraStreaming true);
                ("t3", StartAnalysis)]
             (mount online Ws.fresh_browser "t0")).
Proof.
  assert (H : (if run [("t1", Socket (Ws.Open 0)); ("t2", CameraStreaming true);
                       ("t3", StartAnalysis)]
                    (mount online Ws.fresh_browser "t0") is Some _
               then true else false) = true) by (vm_compute; reflexivity).
  destruct (run _ _) as [w'|]; [by exists w'|discriminate H].
Qed.

Lemma history_bounded_witness :
  ∃ w, run [("t1", Socket (Ws.Open 0)); ("t2", CameraStreaming true);
            ("t3", StartAnalysis)]
         (mount online Ws.fresh_browser "t0") = Some w
       ∧ length (frameHistory (state w)) ≤ 50.
Proof.
  destruct streaming_world_runs as [w E]. exists w. split; [exact E|].
  exact (history_bounded _ _ _ _ w E).
Defined.

Lemma first_answer_trace_runs :
  is_Some (run ((λ r : string * nat * Json, (r.1.1, inbound r.1.2 r.2))
                  <$> [("t5", 0, success_data "1")])
             (after [("t4", camera_tick)] streaming_world)).
Proof.
  assert (H : (if run ((λ r : string * nat * Json, (r.1.1, inbound r.1.2 r.2))
                         <$> [("t5", 0, success_data "1")])
                    (after [("t4", camera_tick)] streaming_world) is Some _
               then true else false) = true) by (vm_compute; reflexivity).
  destruct (run _ _) as [w'|]; [by exists w'|discriminate H].
Qed.

Lemma responses_recorded_in_order_witness :
  ∃ w', run ((λ r : string * nat * Json, (r.1.1, inbound r.1.2 r.2))
               <$> [("t5", 0, success_data "1")])
          (after [("t4", camera_tick)] streaming_world) = Some w'
        ∧ temporalContext (state w')
          = field (success_data "1") "temporal_context".
Proof.
  destruct first_answer_trace_runs as [w' E]. exists w'. split; [exact E|].
  refine (proj2 (responses_recorded_in_order [("t5", 0, success_data "1")]
                   _ w' reachable_querying _ E)).
  constructor; [split; reflexivity|constructor].
Defined.






Lemma early_start_runs :
  is_Some (deliver "t1" StartAnalysis (mount online Ws.fresh_browser "t0")).
Proof.
  assert (H : (if deliver "t1" StartAnalysis (mount online Ws.fresh_browser "t0")
               is Some _ then true else false) = true)
    by (vm_compute; reflexivity).
  destruct (deliver _ _ _) as [w'|]; [by exists w'|discriminate H].
Qed.

Lemma mount_not_connected :
  bool_decide (is_Some (wsRef (mount online Ws.fresh_browser "t0")))
  && isConnected (state (mount online Ws.fresh_browser "t0")) = false.
Proof. vm_compute. reflexivity. Qed.

Lemma if_false (c : bool) (P Q : Prop) : c = false → (if c then P else Q) → Q.
Proof. by intros ->. Qed.

Lemma start_analysis_effects_witness :
  ∃ w', deliver "t1" StartAnalysis (mount online Ws.fresh_browser "t0") = Some w'
        ∧ error (state w') = JStr "WebSocket not connected".
Proof.
  destruct early_start_runs as [w' E]. exists w'. split; [exact E|].
  pose proof (start_analysis_effects "t1" _ w'
                (reachable_mount online Ws.fresh_browser "t0") E) as H.
  apply if_false in H; [|exact mount_not_connected].
  destruct H as (Hst & _). rewrite Hst. reflexivity.
Defined.

End OrchestratorWitnesses.

Section MoreWitnesses.
Import Js.

Lemma switchDevice_refused_witness :
  CameraHook.isStreaming
    (CameraHook.switchDevice CameraHook.refusing (Returned ())
       Store.defaultCameraSettings "back"
       (CameraHook.startCamera CameraHook.granting (Returned ())
          Store.defaultCameraSettings JUndefined (CameraHook.initial true)))
  = false.
Proof.
  exact (proj1 (proj2 (proj2 (switchDevice_refused
           CameraHook.granting CameraHook.refusing (Returned ())
           Store.defaultCameraSettings JUndefined "back" [1; 2]
           (CameraHook.initial true) eq_refl (ex_intro _ _ eq_refl))))).
Defined.

Lemma api_success_contract_witness :
  Api.call Api.GetModels
    (λ _, Returned {| Api.ok := true; Api.json := Returned (JObj []) |})
  = Returned (JArr []).
Proof.
  exact (api_success_contract Api.GetModels
           (λ _, Returned {| Api.ok := true; Api.json := Returned (JObj []) |})
           {| Api.ok := true; Api.json := Returned (JObj []) |}
           eq_refl eq_refl).
Defined.

Lemma api_single_request_witness :
  Api.call Api.HealthCheck Api.offline
  = Api.call Api.HealthCheck
      (λ r, if decide (Api.url r = "/health") then Api.offline r
            else App.online r).
Proof.
  exact (api_single_request Api.HealthCheck Api.offline
           (λ r, if decide (Api.url r = "/health") then Api.offline r
                 else App.online r) eq_refl).
Defined.

End MoreWitnesses.
